(** * FinancialAPIRestFul: the normalisation engine of [main_no_ai_v12.py]

    A shallow embedding of [DataNormalizer] (format detection, numeric
    cleaning, unpivot, debit/credit merge and the [normalize] pipeline) and
    of [FinancialTools._clean_numeric_value], with the properties of the
    specification stated and settled against it; and of the code around
    the engine: [clean], [DataStore], the checks of the four reports of
    [FinancialTools], [analyze_financial_data] and the analysis endpoints.

    Layout:
    - [PyStr]    Python [str] values as sequences of code points, with the
                 string builtins the engine calls;
    - [PyFloat]  binary64 floats, [float(text)], [repr], [round];
    - [Frame]    the part of a pandas [DataFrame] the engine touches;
    - [DataNormalizer], [FinancialTools]  the source functions;
    - [Spec]     the wording of the specification as definitions of its
                 own, and the definitions the statements need;
    - [Json], [PyDict], [DataStore]  JSON objects with [clean], dicts with
                 string keys, and the in-memory store;
    - [Steps]    closed forms of the steps of [normalize];
    - [Reports]  the reports of [FinancialTools] up to their pandas
                 computations, [analyze_financial_data] and the endpoints
                 that create and read analyses;
    - [Examples] the tables of the specification's examples;
    - the facts and the theorems, one section per subject. *)

From Stdlib Require Import ZArith NArith List Bool String Ascii Lia.
From Stdlib Require Import Floats.SpecFloat Floats.PrimFloat Floats.FloatOps.
From Stdlib Require Import Sorting.Permutation Sorting.Sorted.
Import ListNotations.

Set Warnings "-inexact-float".
Open Scope Z_scope.

(* ================================================================== *)
(** * Exceptions *)

(** The exceptions that the modelled code can raise. *)
Inductive exn : Type :=
| KeyError
| ValueError
| AttributeError
| TypeError.

(** The outcome of a Python call: a value, or a raised exception. *)
Inductive result (A : Type) : Type :=
| Ok (a : A)
| Raise (e : exn).
Arguments Ok {A} a.
Arguments Raise {A} e.

Definition bind {A B : Type} (r : result A) (k : A -> result B) : result B :=
  match r with
  | Ok a => k a
  | Raise e => Raise e
  end.

(** [try: body / except: handler]: a bare [except] catches everything. *)
Definition try_except {A : Type} (body : result A) (handler : result A) : result A :=
  match body with
  | Ok a => Ok a
  | Raise _ => handler
  end.

Declare Scope py_scope.
Notation "x <- c ;; k" := (bind c (fun x => k))
  (at level 61, c at next level, right associativity) : py_scope.
Open Scope py_scope.

Fixpoint mapM {A B : Type} (f : A -> result B) (l : list A) : result (list B) :=
  match l with
  | [] => Ok []
  | a :: l' => b <- f a ;; bs <- mapM f l' ;; Ok (b :: bs)
  end.

(* ================================================================== *)
(** * Python strings *)

Module PyStr.

(** A character is a Unicode code point, and a [str] a sequence of them. *)
Definition char : Type := N.
Definition str : Type := list char.

(** Decoding of the UTF-8 bytes of a literal of this file into code points,
    so that literals of the source such as ['año'] or ['€'] can be written
    down as they are. *)
Fixpoint utf8_decode (pending : nat) (acc : N) (bs : list N) : str :=
  match bs with
  | [] => []
  | b :: rest =>
      match pending with
      | O =>
          if (b <? 128)%N then b :: utf8_decode 0 0 rest
          else if (b <? 224)%N then utf8_decode 1 (b - 192) rest
          else if (b <? 240)%N then utf8_decode 2 (b - 224) rest
          else utf8_decode 3 (b - 240) rest
      | S O => (acc * 64 + (b - 128))%N :: utf8_decode 0 0 rest
      | S p => utf8_decode p (acc * 64 + (b - 128))%N rest
      end
  end.

Definition py (s : string) : str :=
  utf8_decode 0 0 (List.map N_of_ascii (list_ascii_of_string s)).

Definition chr (s : string) : char := hd 0%N (py s).

Definition char_eqb : char -> char -> bool := N.eqb.

Fixpoint str_eqb (a b : str) : bool :=
  match a, b with
  | [], [] => true
  | x :: a', y :: b' => char_eqb x y && str_eqb a' b'
  | _, _ => false
  end.

(** [x in l] for a list of strings (or an [Index] of column labels). *)
Definition mem (x : str) (l : list str) : bool := existsb (str_eqb x) l.

(** [c in s] for a single character [c]. *)
Definition has (c : char) (s : str) : bool := existsb (char_eqb c) s.

(** [str.isspace] on one code point ([Py_UNICODE_ISSPACE]); the regular
    expression class [\s] is the same set. *)
Definition is_space (c : char) : bool :=
  ((9 <=? c) && (c <=? 13) || (28 <=? c) && (c <=? 32)
   || (c =? 133) || (c =? 160) || (c =? 5760)
   || (8192 <=? c) && (c <=? 8202)
   || (c =? 8232) || (c =? 8233) || (c =? 8239) || (c =? 8287)
   || (c =? 12288))%N.

Fixpoint lstrip (s : str) : str :=
  match s with
  | c :: s' => if is_space c then lstrip s' else s
  | [] => []
  end.

Definition rstrip (s : str) : str := rev (lstrip (rev s)).

(** [s.strip()]. *)
Definition strip (s : str) : str := rstrip (lstrip s).

(** [s.lower()], one code point at a time.  The case mapping is modelled on
    Basic Latin and Latin-1; code points of other scripts are left as they
    are (every term the engine searches for is ASCII). *)
Definition lower_char (c : char) : char :=
  if ((65 <=? c) && (c <=? 90))%N then (c + 32)%N
  else if ((192 <=? c) && (c <=? 222) && negb (c =? 215))%N then (c + 32)%N
  else c.

Definition lower (s : str) : str := List.map lower_char s.

(** [sep.join(parts)]. *)
Fixpoint join (sep : str) (parts : list str) : str :=
  match parts with
  | [] => []
  | [p] => p
  | p :: rest => p ++ sep ++ join sep rest
  end.

Fixpoint starts_with (p s : str) : bool :=
  match p, s with
  | [], _ => true
  | x :: p', y :: s' => char_eqb x y && starts_with p' s'
  | _ :: _, [] => false
  end.

(** [sub in s]: [sub] occurs in [s] as a contiguous substring. *)
Fixpoint contains (sub s : str) : bool :=
  starts_with sub s ||
  match s with
  | [] => false
  | _ :: s' => contains sub s'
  end.

(** [any(term in s for term in terms)]. *)
Definition any_term_in (terms : list str) (s : str) : bool :=
  existsb (fun term => contains term s) terms.

(** [s.rfind(c)] for a single character [c]: the index of its last
    occurrence, [-1] when there is none. *)
Fixpoint rfind_from (i : Z) (c : char) (s : str) (found : Z) : Z :=
  match s with
  | [] => found
  | x :: s' => rfind_from (i + 1) c s' (if char_eqb c x then i else found)
  end.

Definition rfind (c : char) (s : str) : Z := rfind_from 0 c s (-1).

(** [len(s)]. *)
Definition len (s : str) : Z := Z.of_nat (List.length s).

(** [s.replace(c, new)] for a single character [c]. *)
Fixpoint replace (c : char) (new : str) (s : str) : str :=
  match s with
  | [] => []
  | x :: s' => (if char_eqb c x then new else [x]) ++ replace c new s'
  end.

(** [\d] of a Unicode pattern and the digit value used by [float]:
    the decimal digits (category Nd) come in runs of ten, listed here by
    the code point of their zero (Unicode 14). *)
Definition digit_zeros : list N :=
  [48; 1632; 1776; 1984; 2406; 2534; 2662; 2790; 2918; 3046; 3174; 3302;
   3430; 3558; 3664; 3792; 3872; 4160; 4240; 6112; 6160; 6470; 6608; 6784;
   6800; 6992; 7088; 7232; 7248; 42528; 43216; 43264; 43472; 43504; 43600;
   44016; 65296; 66720; 68912; 69734; 69872; 69942; 70096; 70384; 70736;
   70864; 71248; 71360; 71472; 71904; 72016; 72784; 73040; 73120; 92768;
   92864; 93008; 120782; 120792; 120802; 120812; 120822; 123200; 123632;
   125264; 130032]%N.

Fixpoint decimal_in (zeros : list N) (c : char) : option N :=
  match zeros with
  | [] => None
  | z :: zs =>
      if ((z <=? c) && (c <? z + 10))%N then Some (c - z)%N
      else decimal_in zs c
  end.

(** [Py_UNICODE_TODECIMAL]. *)
Definition to_decimal (c : char) : option N := decimal_in digit_zeros c.

Definition is_decimal (c : char) : bool :=
  match to_decimal c with Some _ => true | None => false end.

(** The character of a decimal digit. *)
Definition digit_char (d : Z) : char := Z.to_N (48 + d).

Fixpoint digits_of_pos_fuel (fuel : nat) (n : Z) (acc : str) : str :=
  match fuel with
  | O => acc
  | S fuel' =>
      if n <? 10 then digit_char n :: acc
      else digits_of_pos_fuel fuel' (n / 10) (digit_char (n mod 10) :: acc)
  end.

(** Decimal digits of [n >= 0]; [Z.log2 n + 1] steps are more than the
    number of decimal digits. *)
Definition digits_of_nonneg (n : Z) : str :=
  digits_of_pos_fuel (S (Z.to_nat (Z.log2 n))) n [].

(** [str(n)] for an [int] (the bound that recent interpreters put on the
    number of digits they convert is not part of the model). *)
Definition str_of_int (n : Z) : str :=
  if n <? 0 then chr "-" :: digits_of_nonneg (- n) else digits_of_nonneg n.

End PyStr.

(* ================================================================== *)
(** * Python floats *)

Module PyFloat.
Import PyStr.

(** A Python [float] is an IEEE 754 binary64 value; [spec_float] at
    precision 53 and maximal exponent 1024 is the standard library's
    specification of that format. *)
Definition pyfloat : Type := spec_float.

Definition fzero : pyfloat := S754_zero false.
Definition fsub : pyfloat -> pyfloat -> pyfloat := SFsub prec emax.
Definition fmul : pyfloat -> pyfloat -> pyfloat := SFmul prec emax.
Definition fneg : pyfloat -> pyfloat := SFopp.

Definition is_nan (f : pyfloat) : bool :=
  match f with S754_nan => true | _ => false end.

Definition is_inf (f : pyfloat) : bool :=
  match f with S754_infinity _ => true | _ => false end.

(** [math.isfinite]. *)
Definition is_finite (f : pyfloat) : bool :=
  match f with
  | S754_zero _ | S754_finite _ _ _ => true
  | S754_infinity _ | S754_nan => false
  end.

(** A float literal of the source, such as [0.9]. *)
Definition lit (f : PrimFloat.float) : pyfloat := Prim2SF f.

(** ** Correct rounding of a rational to binary64 *)

(** The integer nearest to [n / d], ties to even ([0 <= n], [0 < d]). *)
Definition round_half_even (n d : Z) : Z :=
  let q := n / d in
  match 2 * (n mod d) ?= d with
  | Lt => q
  | Gt => q + 1
  | Eq => if Z.even q then q else q + 1
  end.

(** [num / (den * 2^e)] as a fraction of integers. *)
Definition scaled (num den e : Z) : Z * Z :=
  if 0 <=? e then (num, den * 2 ^ e) else (num * 2 ^ (- e), den).

(** The exponent [e] for which [2^52 <= num / (den * 2^e) < 2^53]. *)
Definition binade (num den : Z) : Z :=
  let e0 := Z.log2 num - Z.log2 den - 53 in
  let '(n, d) := scaled num den e0 in
  if 2 ^ 53 * d <=? n then e0 + 1 else e0.

(** The binary64 value nearest to [num / den] (ties to even), with sign
    [neg]: subnormal below [2^-1022], infinite from [2^1024 - 2^970] on. *)
Definition round_ratio (neg : bool) (num den : Z) : pyfloat :=
  if num <=? 0 then S754_zero neg
  else
    let e := Z.max (binade num den) (-1074) in
    let '(n, d) := scaled num den e in
    let m := round_half_even n d in
    let '(m, e) := if m =? 2 ^ 53 then (2 ^ 52, e + 1) else (m, e) in
    match m with
    | Zpos p => if 971 <? e then S754_infinity neg else S754_finite neg p e
    | _ => S754_zero neg
    end.

(** The float denoted by the decimal [m * 10^e]. *)
Definition of_decimal (neg : bool) (m e : Z) : pyfloat :=
  if 0 <=? e then round_ratio neg (m * 10 ^ e) 1
  else round_ratio neg m (10 ^ (- e)).

Definition of_int (z : Z) : pyfloat := of_decimal (z <? 0) (Z.abs z) 0.

(** ** [float(text)] *)

(** [_PyUnicode_TransformDecimalAndSpaceToASCII]: white space becomes a
    blank, a decimal digit of any script its ASCII digit, any other
    character beyond ASCII a question mark. *)
Definition to_ascii (c : char) : char :=
  if (c <? 127)%N then c
  else if is_space c then 32%N
  else match to_decimal c with
       | Some d => (48 + d)%N
       | None => 63%N
       end.

(** [Py_ISSPACE]. *)
Definition is_ascii_space (c : char) : bool :=
  ((9 <=? c) && (c <=? 13) || (c =? 32))%N.

Definition is_ascii_digit (c : char) : bool := ((48 <=? c) && (c <=? 57))%N.

Fixpoint lstrip_ascii (s : str) : str :=
  match s with
  | c :: s' => if is_ascii_space c then lstrip_ascii s' else s
  | [] => []
  end.

Definition strip_ascii (s : str) : str :=
  rev (lstrip_ascii (rev (lstrip_ascii s))).

(** Underscores may only stand between two digits; they are removed.
    [prev] is the character before the current one. *)
Fixpoint drop_underscores (prev : char) (s : str) : option str :=
  match s with
  | [] => if (prev =? 95)%N then None else Some []
  | c :: s' =>
      if (c =? 95)%N then
        if is_ascii_digit prev then drop_underscores c s' else None
      else if (prev =? 95)%N && negb (is_ascii_digit c) then None
      else option_map (cons c) (drop_underscores c s')
  end.

(** The longest run of ASCII digits at the head of [s], as a number, with
    the count of digits read and the rest of the text. *)
Fixpoint read_digits (s : str) (acc : Z) (count : Z) : Z * Z * str :=
  match s with
  | c :: s' =>
      if is_ascii_digit c
      then read_digits s' (10 * acc + (Z.of_N c - 48)) (count + 1)
      else (acc, count, s)
  | [] => (acc, count, [])
  end.

Definition read_sign (s : str) : bool * str :=
  match s with
  | c :: s' =>
      if (c =? 45)%N then (true, s')
      else if (c =? 43)%N then (false, s')
      else (false, s)
  | [] => (false, [])
  end.

(** [Py_TOLOWER] on every character. *)
Definition ascii_lower (s : str) : str :=
  List.map (fun c => if ((65 <=? c) && (c <=? 90))%N then (c + 32)%N else c) s.

(** A parsed numeral: mantissa and decimal exponent. *)
Definition read_exponent (s : str) : option Z :=
  match s with
  | [] => Some 0
  | c :: s' =>
      if ((c =? 101) || (c =? 69))%N then
        let '(neg, s'') := read_sign s' in
        let '(e, n, rest) := read_digits s'' 0 0 in
        match rest with
        | [] => if 0 <? n then Some (if neg then - e else e) else None
        | _ :: _ => None
        end
      else None
  end.

(** [digits [. digits] [e [sign] digits]] or [. digits [e ...]]: the
    mantissa and the decimal exponent, [None] when [s] is not a numeral. *)
Definition read_decimal (s : str) : option (Z * Z) :=
  let '(ip, ni, rest) := read_digits s 0 0 in
  let '(m, nf, rest) :=
    match rest with
    | c :: rest' =>
        if (c =? 46)%N then
          let '(m, nf, rest'') := read_digits rest' ip 0 in (m, nf, rest'')
        else (ip, 0, rest)
    | [] => (ip, 0, [])
    end in
  if 0 <? ni + nf then
    match read_exponent rest with
    | Some e => Some (m, e - nf)
    | None => None
    end
  else None.

(** [inf], [infinity] or [nan] in any letter case. *)
Definition read_special (neg : bool) (s : str) : option pyfloat :=
  let w := ascii_lower s in
  if str_eqb w (py "inf") || str_eqb w (py "infinity")
  then Some (S754_infinity neg)
  else if str_eqb w (py "nan") then Some S754_nan
  else None.

(** [float(s)] for a string [s]; [ValueError] when [s] is no float. *)
Definition float_of_str (s : str) : result pyfloat :=
  match drop_underscores 0%N (List.map to_ascii s) with
  | None => Raise ValueError
  | Some t =>
      let '(neg, body) := read_sign (strip_ascii t) in
      match read_decimal body with
      | Some (m, e) => Ok (of_decimal neg m e)
      | None =>
          match read_special neg body with
          | Some f => Ok f
          | None => Raise ValueError
          end
      end
  end.

(** ** [repr(x)] and [round(x, ndigits)] *)

Definition float_eqb (a b : pyfloat) : bool :=
  match a, b with
  | S754_zero s, S754_zero s' => Bool.eqb s s'
  | S754_infinity s, S754_infinity s' => Bool.eqb s s'
  | S754_nan, S754_nan => true
  | S754_finite s m e, S754_finite s' m' e' =>
      Bool.eqb s s' && Pos.eqb m m' && Z.eqb e e'
  | _, _ => false
  end.

(** The exact value [m * 2^e] of a finite float, as a fraction. *)
Definition exact (m : positive) (e : Z) : Z * Z :=
  if 0 <=? e then (Zpos m * 2 ^ e, 1) else (Zpos m, 2 ^ (- e)).

(** [num / den * 10^k] as a fraction. *)
Definition scaled10 (num den k : Z) : Z * Z :=
  if 0 <=? k then (num * 10 ^ k, den) else (num, den * 10 ^ (- k)).

(** [num / den < 10^d]. *)
Definition below_pow10 (num den d : Z) : bool :=
  let '(n, t) := scaled10 num den (- d) in n <? t.

Fixpoint search_decpt (fuel : nat) (num den d : Z) : Z :=
  match fuel with
  | O => d
  | S fuel' =>
      if below_pow10 num den d then d else search_decpt fuel' num den (d + 1)
  end.

(** The position [d] of the decimal point: [10^(d-1) <= num/den < 10^d].
    The search starts just below an estimate from the binary logarithms. *)
Definition decpt_of (num den : Z) : Z :=
  search_decpt 6 num den ((Z.log2 num - Z.log2 den) * 30103 / 100000 - 1).

(** The two decimals with [n] significant digits around [num / den]: the
    nearest one first. *)
Definition nearest_digits (num den decpt n : Z) : Z * Z :=
  let '(a, b) := scaled10 num den (n - decpt) in
  let D := round_half_even a b in
  (D, if D =? a / b then a / b + 1 else a / b).

(** The shortest decimal [D * 10^k] that reads back as [f], and the
    nearest to [f] among those: one to seventeen significant digits are
    tried in turn. *)
Fixpoint shortest (fuel : nat) (n : Z) (f : pyfloat) (num den decpt : Z)
  : Z * Z :=
  let '(D, D') := nearest_digits num den decpt n in
  match fuel with
  | O => (D, decpt - n)
  | S fuel' =>
      if float_eqb (of_decimal false D (decpt - n)) f then (D, decpt - n)
      else if float_eqb (of_decimal false D' (decpt - n)) f
      then (D', decpt - n)
      else shortest fuel' (n + 1) f num den decpt
  end.

Fixpoint strip_zeros (fuel : nat) (D k : Z) : Z * Z :=
  match fuel with
  | O => (D, k)
  | S fuel' =>
      if (0 <? D) && (D mod 10 =? 0) then strip_zeros fuel' (D / 10) (k + 1)
      else (D, k)
  end.

Definition zeros (n : Z) : str := List.repeat 48%N (Z.to_nat n).

(** The digits [ds] with the decimal point after the first [decpt] of
    them, in the layout of [repr]: exponent notation when
    [decpt <= -4] or [decpt > 16], positional notation otherwise. *)
Definition layout (ds : str) (decpt : Z) : str :=
  let nd := len ds in
  if (decpt <=? -4) || (16 <? decpt) then
    let x := decpt - 1 in
    let xs := digits_of_nonneg (Z.abs x) in
    firstn 1 ds
      ++ (if 1 <? nd then chr "." :: skipn 1 ds else [])
      ++ [chr "e"; if x <? 0 then chr "-" else chr "+"]
      ++ (if len xs <? 2 then chr "0" :: xs else xs)
  else if decpt <=? 0 then py "0." ++ zeros (- decpt) ++ ds
  else if nd <=? decpt then ds ++ zeros (decpt - nd) ++ py ".0"
  else firstn (Z.to_nat decpt) ds ++ chr "." :: skipn (Z.to_nat decpt) ds.

(** [repr(x)], which is also [str(x)], of a float. *)
Definition float_repr (f : pyfloat) : str :=
  match f with
  | S754_nan => py "nan"
  | S754_infinity s => if s then py "-inf" else py "inf"
  | S754_zero s => if s then py "-0.0" else py "0.0"
  | S754_finite s m e =>
      let '(num, den) := exact m e in
      let '(D, k) :=
        shortest 16 1 (S754_finite false m e) num den (decpt_of num den) in
      let '(D, k) := strip_zeros 17 D k in
      let ds := digits_of_nonneg D in
      (if s then [chr "-"] else []) ++ layout ds (len ds + k)
  end.

(** [round(x, ndigits)] for [0 <= ndigits]: the decimal with [ndigits]
    digits after the point nearest to the exact value of [x] (ties to
    even), read back as a float. *)
Definition round_ndigits (f : pyfloat) (ndigits : Z) : pyfloat :=
  match f with
  | S754_finite s m e =>
      let '(num, den) := exact m e in
      let '(a, b) := scaled10 num den ndigits in
      of_decimal s (round_half_even a b) (- ndigits)
  | _ => f
  end.

End PyFloat.

(* ================================================================== *)
(** * Data frames *)

Module Frame.
Import PyStr PyFloat.

(** A cell of a table: empty, text or a number, the cell values of the
    specification's table model (what a CSV export puts in a cell, and a
    JSON record whose values are scalars). *)
Inductive cell : Type :=
| CNone
| CStr (s : str)
| CInt (z : Z)
| CFloat (f : pyfloat)
| CBool (b : bool).

(** The value pandas stores where a record has no entry for a column. *)
Definition missing : cell := CFloat S754_nan.

(** [pd.isna(value)]. *)
Definition isna (v : cell) : bool :=
  match v with
  | CNone => true
  | CFloat f => is_nan f
  | _ => false
  end.

(** [value == '']. *)
Definition is_empty_str (v : cell) : bool :=
  match v with
  | CStr [] => true
  | _ => false
  end.

(** [str(value)]. *)
Definition str_of (v : cell) : str :=
  match v with
  | CNone => py "None"
  | CStr s => s
  | CInt z => str_of_int z
  | CFloat f => float_repr f
  | CBool b => if b then py "True" else py "False"
  end.

(** A [DataFrame], column by column as pandas stores it: the number of
    rows (the length of the index) and the labelled columns in order.
    The engine is described for frames whose labels are distinct and
    whose columns all have [nrows] cells ([wf]). *)
Record DataFrame : Type := mkFrame {
  nrows : nat;
  cols : list (str * list cell)
}.

(** [df.columns]. *)
Definition columns (df : DataFrame) : list str := List.map fst (cols df).

Definition wf (df : DataFrame) : Prop :=
  NoDup (columns df) /\
  Forall (fun c => List.length (snd c) = nrows df) (cols df).

Fixpoint lookup (c : str) (l : list (str * list cell)) : option (list cell) :=
  match l with
  | [] => None
  | (k, v) :: l' => if str_eqb c k then Some v else lookup c l'
  end.

(** [df[c]]: the column labelled [c]. *)
Definition column (df : DataFrame) (c : str) : result (list cell) :=
  match lookup c (cols df) with
  | Some v => Ok v
  | None => Raise KeyError
  end.

(** The cells of row [i], in column order. *)
Definition row (df : DataFrame) (i : nat) : list cell :=
  List.map (fun c => nth i (snd c) missing) (cols df).

(** The cell of row [i] in column [c]. *)
Definition at_ (df : DataFrame) (i : nat) (c : str) : option cell :=
  match lookup c (cols df) with
  | Some v => nth_error v i
  | None => None
  end.

Fixpoint replace_column (c : str) (v : list cell) (l : list (str * list cell))
  : list (str * list cell) :=
  match l with
  | [] => []
  | (k, w) :: l' =>
      if str_eqb c k then (k, v) :: l' else (k, w) :: replace_column c v l'
  end.

(** [df[c] = v]: overwrites the column labelled [c] in place, or appends
    a new last column. *)
Definition assign (df : DataFrame) (c : str) (v : list cell) : DataFrame :=
  if mem c (columns df)
  then mkFrame (nrows df) (replace_column c v (cols df))
  else mkFrame (nrows df) (cols df ++ [(c, v)]).

(** [df.drop(columns=labels)]: [KeyError] when a label is not a column. *)
Definition drop (df : DataFrame) (labels : list str) : result DataFrame :=
  if forallb (fun l => mem l (columns df)) labels
  then Ok (mkFrame (nrows df)
             (filter (fun c => negb (mem (fst c) labels)) (cols df)))
  else Raise KeyError.

(** [series.apply(f)]. *)
Definition apply (f : cell -> result cell) (v : list cell) : result (list cell) :=
  mapM f v.

(** The elements of [v] at the positions where [mask] holds. *)
Fixpoint select {A : Type} (mask : list bool) (v : list A) : list A :=
  match mask, v with
  | b :: mask', x :: v' => if b then x :: select mask' v' else select mask' v'
  | _, _ => []
  end.

(** [df.dropna(how='all')]: the rows in which every cell is NA go. *)
Definition dropna_rows (df : DataFrame) : DataFrame :=
  let mask :=
    List.map (fun i => existsb (fun x => negb (isna x)) (row df i))
             (seq 0 (nrows df)) in
  mkFrame (List.length (filter (fun b => b) mask))
          (List.map (fun c => (fst c, select mask (snd c))) (cols df)).

(** [df.dropna(axis=1, how='all')]: the columns in which every cell is NA
    go. *)
Definition dropna_columns (df : DataFrame) : DataFrame :=
  mkFrame (nrows df)
          (filter (fun c => existsb (fun x => negb (isna x)) (snd c)) (cols df)).

(** [df.rename(columns=m)] for a dict [m] from old to new labels. *)
Definition rename (df : DataFrame) (m : list (str * str)) : DataFrame :=
  mkFrame (nrows df)
    (List.map (fun c =>
       match find (fun kv => str_eqb (fst kv) (fst c)) m with
       | Some kv => (snd kv, snd c)
       | None => c
       end) (cols df)).

(** [d[k] = v] on a dict kept as an association list: an existing key
    keeps its place. *)
Fixpoint dict_set (k v : str) (d : list (str * str)) : list (str * str) :=
  match d with
  | [] => [(k, v)]
  | (k', v') :: d' =>
      if str_eqb k k' then (k', v) :: d' else (k', v') :: dict_set k v d'
  end.

(** The first occurrence of every element, in order ([algos.unique]). *)
Fixpoint unique (l : list str) : list str :=
  match l with
  | [] => []
  | x :: l' => x :: filter (fun y => negb (str_eqb x y)) (unique l')
  end.

(** [np.tile(v, k)]. *)
Definition tile {A : Type} (k : nat) (v : list A) : list A :=
  List.concat (List.repeat v k).

(** [frame.melt(id_vars, value_vars, var_name, value_name)] as pandas
    defines it: the value columns are stacked one after the other (each
    contributes all the rows, in order), the id columns are repeated once
    per value column, and the variable column names the value column each
    stacked block comes from. *)
Definition melt (frame : DataFrame) (id_vars value_vars : list str)
    (var_name value_name : str) : result DataFrame :=
  if mem value_name (columns frame) then Raise ValueError
  else if negb (forallb (fun c => mem c (columns frame)) (id_vars ++ value_vars))
  then Raise KeyError
  else
    let vv := unique value_vars in
    let N := nrows frame in
    let K := List.length vv in
    ids <- mapM (fun c => v <- column frame c ;; Ok (c, tile K v)) id_vars ;;
    vals <- mapM (column frame) vv ;;
    Ok (mkFrame (N * K)
          (ids ++ [(var_name, List.concat (List.map (fun v => List.repeat (CStr v) N) vv));
                   (value_name, List.concat vals)])).

(** [pd.DataFrame(data)] for a list of records: the columns are the keys
    in the order in which they first appear, and a record without a key
    leaves the cell [missing]. *)
Definition record : Type := list (str * cell).

Fixpoint record_get (k : str) (r : record) : option cell :=
  match r with
  | [] => None
  | (k', v) :: r' => if str_eqb k k' then Some v else record_get k r'
  end.

Definition of_records (data : list record) : DataFrame :=
  let keys := unique (List.concat (List.map (List.map fst) data)) in
  mkFrame (List.length data)
    (List.map (fun k =>
       (k, List.map (fun r => match record_get k r with
                              | Some v => v
                              | None => missing
                              end) data)) keys).

(** [df.to_dict('records')]. *)
Definition to_records (df : DataFrame) : list record :=
  List.map (fun i => combine (columns df) (row df i)) (seq 0 (nrows df)).

End Frame.

(* ================================================================== *)
(** * The request models *)

(** [ColumnMapping]: the optional column of every logical role. *)
Record ColumnMapping : Type := mkMapping {
  date_column : option PyStr.str;
  amount_column : option PyStr.str;
  category_column : option PyStr.str;
  concept_column : option PyStr.str;
  budget_column : option PyStr.str;
  actual_column : option PyStr.str;
  debit_column : option PyStr.str;
  credit_column : option PyStr.str
}.

(** [ColumnMapping()]: every role unset. *)
Definition default_mapping : ColumnMapping :=
  mkMapping None None None None None None None None.

(** [NormalizationRules]; [None] is Python's [None]. *)
Record NormalizationRules : Type := mkRules {
  unpivot : option bool;
  unpivot_year_columns : option (list PyStr.str);
  debe_haber : option bool;
  invert_negatives : option bool;
  detect_format_rule : option bool;
  drop_empty_rows : option bool;
  drop_empty_columns : option bool
}.

(** [NormalizationRules()]: the defaults of the model class, which are
    also the defaults [normalize] gives to [rules.get]. *)
Definition default_rules : NormalizationRules :=
  mkRules (Some false) (Some []) (Some false) (Some false)
          (Some true) (Some true) (Some true).

(** Truth value of an optional flag and of an optional string. *)
Definition truthy (b : option bool) : bool :=
  match b with Some true => true | _ => false end.

Definition nonempty (s : option PyStr.str) : bool :=
  match s with Some (_ :: _) => true | _ => false end.

(* ================================================================== *)
(** * [DataNormalizer] *)

Module DataNormalizer.
Import PyStr PyFloat Frame.

Inductive format_kind : Type :=
| financial_statement
| transactional
| budget
| unknown.

(** The string the source uses for each format. *)
Definition format_name (k : format_kind) : str :=
  match k with
  | financial_statement => py "financial_statement"
  | transactional => py "transactional"
  | budget => py "budget"
  | unknown => py "unknown"
  end.

(** ** The warnings of the source *)

Definition WARN_TWO_YEARS : str :=
  py "Solo se detectaron 2 años, se recomienda al menos 3 para análisis de tendencias".
Definition WARN_NO_CATEGORY : str :=
  py "No se detectó columna de categoría, los análisis serán limitados".
Definition WARN_DEBE_HABER : str :=
  py "Formato debe/haber detectado, se convertirá a importe con signo".
Definition WARN_UNKNOWN : str :=
  py "No se pudo determinar el formato automáticamente".
Definition WARN_DEBE_HABER_MISSING : str :=
  py "Debe/haber solicitado pero columnas no encontradas".
Definition WARN_NO_CONCEPT : str :=
  py "Unpivot solicitado pero no se encontró columna de concepto".
Definition WARN_NO_FECHA : str :=
  py "ADVERTENCIA: Formato transaccional pero sin columna 'fecha'".
Definition WARN_NO_IMPORTE : str :=
  py "ADVERTENCIA: Formato transaccional pero sin columna 'importe'".
Definition WARN_NO_CONCEPTO : str :=
  py "ADVERTENCIA: Estado financiero pero sin columna 'concepto'".

(** ** [detect_format] *)

(** [year_pattern.match(c)] for [year_pattern = re.compile(r'^a?\d{4}$')]:
    an optional [a], four decimal digits, and the end of the text ([$]
    also matches before a final newline). *)
Definition year_pattern_match (c : str) : bool :=
  let body :=
    match c with
    | x :: r => if (x =? 97)%N then r else c
    | [] => []
    end in
  match body with
  | [d1; d2; d3; d4] =>
      is_decimal d1 && is_decimal d2 && is_decimal d3 && is_decimal d4
  | [d1; d2; d3; d4; nl] =>
      is_decimal d1 && is_decimal d2 && is_decimal d3 && is_decimal d4
      && (nl =? 10)%N
  | _ => false
  end.

Definition CONCEPT_TERMS : list str :=
  [py "concepto"; py "nombre"; py "concept"; py "name"].
Definition DATE_TERMS : list str := [py "fecha"; py "date"].
Definition AMOUNT_TERMS : list str :=
  [py "importe"; py "monto"; py "amount"; py "cantidad"].
Definition CATEGORY_TERMS : list str :=
  [py "categoria"; py "category"; py "tipo"; py "type"].
Definition BUDGET_TERMS : list str :=
  [py "presupuesto"; py "budget"; py "planeado"].
Definition ACTUAL_TERMS : list str := [py "real"; py "actual"; py "ejecutado"].
Definition DEBIT_TERMS : list str := [py "debe"; py "debit"].
Definition CREDIT_TERMS : list str := [py "haber"; py "credit"].

(** [cols_lower = [str(c).lower().strip() for c in df.columns]]. *)
Definition cols_lower (df : DataFrame) : list str :=
  List.map (fun c => strip (lower c)) (columns df).

(** [year_cols = [c for c in cols_lower if year_pattern.match(c)]]. *)
Definition year_cols (df : DataFrame) : list str :=
  filter year_pattern_match (cols_lower df).

(** The detectors: [any(term in ' '.join(cols_lower) for term in ...)]. *)
Definition has_terms (terms : list str) (df : DataFrame) : bool :=
  any_term_in terms (join (py " ") (cols_lower df)).

Definition has_concept := has_terms CONCEPT_TERMS.
Definition has_date := has_terms DATE_TERMS.
Definition has_amount := has_terms AMOUNT_TERMS.
Definition has_category := has_terms CATEGORY_TERMS.
Definition has_budget := has_terms BUDGET_TERMS.
Definition has_actual := has_terms ACTUAL_TERMS.
Definition has_debit := has_terms DEBIT_TERMS.
Definition has_credit := has_terms CREDIT_TERMS.

(** [detect_format(df)]: the format, the confidence and the warnings. *)
Definition detect_format (df : DataFrame) : format_kind * pyfloat * list str :=
  let n_years := List.length (year_cols df) in
  if (2 <=? n_years)%nat && has_concept df then
    (financial_statement, lit 0.9,
     if (n_years <? 3)%nat then [WARN_TWO_YEARS] else [])
  else if has_budget df && has_actual df && (has_category df || has_concept df)
  then (budget, lit 0.95, [])
  else if has_date df && has_amount df then
    (transactional, lit 0.85,
     if negb (has_category df) then [WARN_NO_CATEGORY] else [])
  else if has_debit df && has_credit df then
    (transactional, lit 0.8, [WARN_DEBE_HABER])
  else (unknown, lit 0.0, [WARN_UNKNOWN]).

(** ** [clean_numeric] *)

Definition COMMA : char := chr ",".
Definition DOT : char := chr ".".

(** [re.sub(r'[€$£\s]', '', s)]. *)
Definition is_currency (c : char) : bool :=
  char_eqb c (chr "€") || char_eqb c (chr "$") || char_eqb c (chr "£").

Definition strip_symbols (s : str) : str :=
  filter (fun c => negb (is_currency c || is_space c)) s.

(** The [if ',' in str_value and '.' in str_value: ... elif ',' in
    str_value: ...] block: the text handed to [float]. *)
Definition separators (str_value : str) : str :=
  if has COMMA str_value && has DOT str_value then
    let last_comma := rfind COMMA str_value in
    let last_dot := rfind DOT str_value in
    if last_dot <? last_comma
    then replace COMMA [DOT] (replace DOT [] str_value)
    else replace COMMA [] str_value
  else if has COMMA str_value then
    if len str_value - 4 <? rfind COMMA str_value
    then replace COMMA [DOT] str_value
    else replace COMMA [] str_value
  else str_value.

(** The text that [clean_numeric] hands to [float] for a value that is
    neither NA nor the empty string. *)
Definition numeric_text (value : cell) : str :=
  separators (strip_symbols (strip (str_of value))).

Definition clean_numeric (value : cell) : result pyfloat :=
  if isna value || is_empty_str value then Ok fzero
  else
    let str_value := strip (str_of value) in
    let str_value := strip_symbols str_value in
    let str_value := separators str_value in
    try_except (float_of_str str_value) (Ok fzero).

(** ** [unpivot_years] *)

Definition ANO : str := py "año".
Definition IMPORTE : str := py "importe".
Definition FECHA : str := py "fecha".
Definition CATEGORIA : str := py "categoria".
Definition CONCEPTO : str := py "concepto".

(** [clean_numeric] as the function mapped over a column. *)
Definition clean_cell (v : cell) : result cell :=
  f <- clean_numeric v ;; Ok (CFloat f).

(** One element of [series.str.replace(c, new, regex=False)]. *)
Definition str_replace_cell (c : char) (new : str) (v : cell) : cell :=
  match v with
  | CStr s => CStr (replace c new s)
  | _ => missing
  end.

(** [unpivot_years(df, concept_col, year_cols)].  When [df] already has a
    column labelled ['año'], the melted frame has two of them and
    [df_melted['año']] is a frame, which has no [.str]. *)
Definition unpivot_years (df : DataFrame) (concept_col : str)
    (year_cols : list str) : result DataFrame :=
  let id_cols := filter (fun c => negb (mem c year_cols)) (columns df) in
  df_melted <- melt df id_cols year_cols ANO IMPORTE ;;
  if mem ANO id_cols then Raise AttributeError
  else
    anos <- column df_melted ANO ;;
    let df_melted :=
      assign df_melted ANO (List.map (str_replace_cell (chr "a") []) anos) in
    importes <- column df_melted IMPORTE ;;
    cleaned <- apply clean_cell importes ;;
    Ok (assign df_melted IMPORTE cleaned).

(** ** [apply_debe_haber] *)

Definition DEBE_CLEAN : str := py "debe_clean".
Definition HABER_CLEAN : str := py "haber_clean".

(** The difference of two float columns, element by element. *)
Definition cell_sub (ab : cell * cell) : result cell :=
  match ab with
  | (CFloat x, CFloat y) => Ok (CFloat (fsub x y))
  | _ => Raise TypeError
  end.

Definition series_sub (a b : list cell) : result (list cell) :=
  mapM cell_sub (combine a b).

Definition apply_debe_haber (df : DataFrame) (debit_col credit_col : str)
  : result DataFrame :=
  debit <- column df debit_col ;;
  debe_clean <- apply clean_cell debit ;;
  let df := assign df DEBE_CLEAN debe_clean in
  credit <- column df credit_col ;;
  haber_clean <- apply clean_cell credit ;;
  let df := assign df HABER_CLEAN haber_clean in
  a <- column df DEBE_CLEAN ;;
  b <- column df HABER_CLEAN ;;
  importe <- series_sub a b ;;
  let df := assign df IMPORTE importe in
  drop df [DEBE_CLEAN; HABER_CLEAN; debit_col; credit_col].

(** ** [normalize] *)

(** An entry of [transformations_applied].  The source formats each entry
    as an f-string; a constructor stands for one of these messages and
    holds the values the message interpolates. *)
Inductive transformation : Type :=
| T_DROPPED_ROWS (dropped : Z)        (* "Eliminadas {dropped} filas vacías" *)
| T_DROPPED_COLUMNS (dropped : Z)     (* "Eliminadas {dropped} columnas vacías" *)
| T_FORMAT (k : format_kind) (confidence : pyfloat)
                                      (* "Formato detectado: {k} (confianza: {confidence:.0%})" *)
| T_DEBE_HABER (debit_col credit_col : str)
                                      (* "Convertido debe/haber a importe: {debit_col} - {credit_col}" *)
| T_UNPIVOT (years : nat)             (* "Unpivot aplicado: {years} años → formato largo" *)
| T_UNPIVOT_AUTO (col : str)          (* "Unpivot aplicado (auto-detectado concepto: {col})" *)
| T_INVERTED                          (* "Signos invertidos en columna de importe" *)
| T_RENAMED (keys : list str).        (* "Columnas renombradas: {keys}" *)

(** The local variables that the steps of [normalize] update. *)
Record state : Type := mkState {
  st_df : DataFrame;
  st_warnings : list str;
  st_transformations : list transformation;
  st_format : format_kind;
  st_confidence : pyfloat
}.

(** The dict that [normalize] returns. *)
Record normalized : Type := mkNormalized {
  normalized_data : list record;
  format_detected : format_kind;
  confidence : pyfloat;
  warnings : list str;
  transformations_applied : list transformation;
  columns_out : list str;     (* 'columns' *)
  rows_out : nat              (* 'rows' *)
}.

(** [pd.DataFrame(data)] followed by
    [df.columns = df.columns.str.strip().str.lower()].  Without any
    record the frame has a [RangeIndex] for columns, which has no [.str]. *)
Definition load (data : list record) : result DataFrame :=
  match data with
  | [] => Raise AttributeError
  | _ :: _ =>
      let df := of_records data in
      Ok (mkFrame (nrows df)
            (List.map (fun c => (lower (strip (fst c)), snd c)) (cols df)))
  end.

(** 1. Empty rows and columns. *)
Definition step_drop_empty (rules : NormalizationRules) (st : state) : state :=
  let st :=
    if truthy (drop_empty_rows rules) then
      let initial_rows := Z.of_nat (nrows (st_df st)) in
      let df := dropna_rows (st_df st) in
      let dropped := initial_rows - Z.of_nat (nrows df) in
      mkState df (st_warnings st)
        (if 0 <? dropped
         then st_transformations st ++ [T_DROPPED_ROWS dropped]
         else st_transformations st)
        (st_format st) (st_confidence st)
    else st in
  if truthy (drop_empty_columns rules) then
    let initial_cols := Z.of_nat (List.length (columns (st_df st))) in
    let df := dropna_columns (st_df st) in
    let dropped := initial_cols - Z.of_nat (List.length (columns df)) in
    mkState df (st_warnings st)
      (if 0 <? dropped
       then st_transformations st ++ [T_DROPPED_COLUMNS dropped]
       else st_transformations st)
      (st_format st) (st_confidence st)
  else st.

(** 2. Format detection. *)
Definition step_detect (rules : NormalizationRules) (st : state) : state :=
  if truthy (detect_format_rule rules) then
    let '(k, c, detect_warnings) := detect_format (st_df st) in
    mkState (st_df st) (st_warnings st ++ detect_warnings)
      (st_transformations st ++ [T_FORMAT k c]) k c
  else st.

(** 3. Debit/credit merge. *)
Definition step_debe_haber (mapping : ColumnMapping) (rules : NormalizationRules)
    (st : state) : result state :=
  if truthy (debe_haber rules) then
    match debit_column mapping, credit_column mapping with
    | Some debit_col, Some credit_col =>
        if nonempty (Some debit_col) && nonempty (Some credit_col)
           && mem debit_col (columns (st_df st))
           && mem credit_col (columns (st_df st))
        then
          df <- apply_debe_haber (st_df st) debit_col credit_col ;;
          Ok (mkState df (st_warnings st)
                (st_transformations st ++ [T_DEBE_HABER debit_col credit_col])
                (st_format st) (st_confidence st))
        else
          Ok (mkState (st_df st) (st_warnings st ++ [WARN_DEBE_HABER_MISSING])
                (st_transformations st) (st_format st) (st_confidence st))
    | _, _ =>
        Ok (mkState (st_df st) (st_warnings st ++ [WARN_DEBE_HABER_MISSING])
              (st_transformations st) (st_format st) (st_confidence st))
    end
  else Ok st.

(** 4. Unpivot. *)
Definition step_unpivot (mapping : ColumnMapping) (rules : NormalizationRules)
    (st : state) : result state :=
  if truthy (unpivot rules) then
    let df := st_df st in
    let year_cols :=
      match unpivot_year_columns rules with
      | Some (y :: ys) => y :: ys
      | _ => filter year_pattern_match (columns df)
      end in
    let concept_col := concept_column mapping in
    let has_years := match year_cols with [] => false | _ :: _ => true end in
    if has_years && nonempty concept_col
       && match concept_col with
          | Some c => mem c (columns df)
          | None => false
          end
    then
      match concept_col with
      | Some c =>
          df' <- unpivot_years df c year_cols ;;
          Ok (mkState df' (st_warnings st)
                (st_transformations st ++ [T_UNPIVOT (List.length year_cols)])
                transactional (st_confidence st))
      | None => Ok st
      end
    else if has_years && negb (nonempty concept_col) then
      match find (fun col => any_term_in CONCEPT_TERMS col) (columns df) with
      | Some col =>
          df' <- unpivot_years df col year_cols ;;
          Ok (mkState df' (st_warnings st)
                (st_transformations st ++ [T_UNPIVOT_AUTO col])
                transactional (st_confidence st))
      | None =>
          Ok (mkState df (st_warnings st ++ [WARN_NO_CONCEPT])
                (st_transformations st) (st_format st) (st_confidence st))
      end
    else Ok st
  else Ok st.

(** 5. Sign inversion: [-x if isinstance(x, (int, float)) else x]. *)
Definition invert_cell (x : cell) : cell :=
  match x with
  | CInt z => CInt (- z)
  | CFloat f => CFloat (fneg f)
  | CBool b => CInt (if b then -1 else 0)
  | _ => x
  end.

(** [amount_col] is [mapping.get('amount_column', 'importe')]: the default
    applies only when the request had no mapping (the dict is then [{}]). *)
Definition step_invert (amount_col : option str) (rules : NormalizationRules)
    (st : state) : state :=
  if truthy (invert_negatives rules) then
    match amount_col with
    | Some c =>
        match lookup c (cols (st_df st)) with
        | Some v =>
            mkState (assign (st_df st) c (List.map invert_cell v))
              (st_warnings st) (st_transformations st ++ [T_INVERTED])
              (st_format st) (st_confidence st)
        | None => st
        end
    | None => st
    end
  else st.

(** 6. Renaming by the mapping. *)
Definition rename_entry (df : DataFrame) (source : option str) (target : str)
    (rename_map : list (str * str)) : list (str * str) :=
  match source with
  | Some c =>
      if nonempty source && mem c (columns df)
      then dict_set c target rename_map
      else rename_map
  | None => rename_map
  end.

Definition step_rename (mapping : ColumnMapping) (st : state) : state :=
  let df := st_df st in
  let rename_map := [] in
  let rename_map := rename_entry df (date_column mapping) FECHA rename_map in
  let rename_map := rename_entry df (amount_column mapping) IMPORTE rename_map in
  let rename_map := rename_entry df (category_column mapping) CATEGORIA rename_map in
  let rename_map := rename_entry df (concept_column mapping) CONCEPTO rename_map in
  match rename_map with
  | [] => st
  | _ :: _ =>
      mkState (rename df rename_map) (st_warnings st)
        (st_transformations st ++ [T_RENAMED (List.map fst rename_map)])
        (st_format st) (st_confidence st)
  end.

(** 7. Final validation. *)
Definition require_column (c : str) (warning : str) (factor : pyfloat)
    (st : state) : state :=
  if mem c (columns (st_df st)) then st
  else mkState (st_df st) (st_warnings st ++ [warning]) (st_transformations st)
         (st_format st) (fmul (st_confidence st) factor).

Definition step_validate (st : state) : state :=
  let st :=
    match st_format st with
    | transactional =>
        require_column IMPORTE WARN_NO_IMPORTE (lit 0.7)
          (require_column FECHA WARN_NO_FECHA (lit 0.7) st)
    | _ => st
    end in
  match st_format st with
  | financial_statement =>
      require_column CONCEPTO WARN_NO_CONCEPTO (lit 0.8) st
  | _ => st
  end.

(** The returned dict. *)
Definition finish (st : state) : normalized :=
  mkNormalized (to_records (st_df st)) (st_format st)
    (round_ndigits (st_confidence st) 2) (st_warnings st)
    (st_transformations st) (columns (st_df st)) (nrows (st_df st)).

(** [normalize(data, mapping, rules)] as [normalize_data] calls it: with
    the dicts of the request models, in which every key is present, or
    with [{}] ([None] here) when the request carries no model. *)
Definition normalize (data : list record) (mapping : option ColumnMapping)
    (rules : option NormalizationRules) : result normalized :=
  let m := match mapping with Some m => m | None => default_mapping end in
  let r := match rules with Some r => r | None => default_rules end in
  let amount_col :=
    match mapping with Some m => amount_column m | None => Some IMPORTE end in
  df <- load data ;;
  let st := mkState df [] [] unknown (lit 0.0) in
  let st := step_drop_empty r st in
  let st := step_detect r st in
  st <- step_debe_haber m r st ;;
  st <- step_unpivot m r st ;;
  let st := step_invert amount_col r st in
  let st := step_rename m st in
  let st := step_validate st in
  Ok (finish st).

End DataNormalizer.

(* ================================================================== *)
(** * [FinancialTools] *)

Module FinancialTools.
Import PyStr PyFloat Frame.

(** [FinancialTools._clean_numeric_value]: the same steps as
    [DataNormalizer.clean_numeric], written out a second time in
    [FinancialTools.py]. *)
Definition _clean_numeric_value (value : cell) : result pyfloat :=
  if isna value || is_empty_str value then Ok fzero
  else
    let str_value := strip (str_of value) in
    let str_value :=
      filter (fun c => negb (DataNormalizer.is_currency c || is_space c))
             str_value in
    let str_value :=
      if has (chr ",") str_value && has (chr ".") str_value then
        let last_comma := rfind (chr ",") str_value in
        let last_dot := rfind (chr ".") str_value in
        if last_dot <? last_comma
        then replace (chr ",") (py ".") (replace (chr ".") [] str_value)
        else replace (chr ",") [] str_value
      else if has (chr ",") str_value then
        if len str_value - 4 <? rfind (chr ",") str_value
        then replace (chr ",") (py ".") str_value
        else replace (chr ",") [] str_value
      else str_value in
    try_except (float_of_str str_value) (Ok fzero).

End FinancialTools.

(* ================================================================== *)
(** * The specification's wording, as definitions *)

Module Spec.
Import PyStr PyFloat Frame DataNormalizer.

(** ** Format detection as a table of rules in priority order *)


(** The number of year-like columns. *)
Definition n_years (df : DataFrame) : nat := List.length (year_cols df).







(** ** Decimal and thousands separators *)

Definition is_separator (c : char) : bool :=
  char_eqb COMMA c || char_eqb DOT c.

(** The separator that occurs last in the text. *)
Definition last_separator (s : str) : option char :=
  find is_separator (rev s).

(** The text with [d] as its decimal separator: every [d] becomes a
    decimal point and the other separator is removed. *)
Definition with_decimal (d : char) (s : str) : str :=
  flat_map (fun c => if char_eqb d c then [DOT]
                     else if is_separator c then []
                     else [c]) s.

(** The index of the first occurrence of [c]. *)
Fixpoint first_index (c : char) (l : str) : option nat :=
  match l with
  | [] => None
  | x :: l' => if char_eqb c x then Some O else option_map S (first_index c l')
  end.

(** A comma lies within the last three characters. *)
Definition comma_in_last_three (s : str) : bool :=
  has COMMA (firstn 3 (rev s)).

(** The text after currency symbols and white space are removed. *)
Definition cleaned (s : str) : str := strip_symbols (strip s).

(** [float(text)], [0.0] when that fails. *)
Definition parse_or_zero (text : str) : result pyfloat :=
  try_except (float_of_str text) (Ok fzero).

(** ** Unpivot, in the order the specification describes *)

(** The name of a year column without a leading non-digit character. *)
Definition year_of (name : str) : str :=
  match name with
  | c :: rest => if is_decimal c then name else rest
  | [] => []
  end.

Definition cell_at (df : DataFrame) (i : nat) (c : str) : cell :=
  match at_ df i c with
  | Some v => v
  | None => missing
  end.

Definition amount_of (v : cell) : cell :=
  match clean_numeric v with
  | Ok f => CFloat f
  | Raise _ => missing
  end.

(** The id columns of an unpivot: those that are not year columns. *)
Definition id_columns (df : DataFrame) (year_cols : list str) : list str :=
  filter (fun c => negb (mem c year_cols)) (columns df).

(** The output row for source row [i] and year column [y]. *)
Definition long_row (year : str -> str) (df : DataFrame)
    (year_cols : list str) (i : nat) (y : str) : list cell :=
  List.map (cell_at df i) (id_columns df year_cols)
    ++ [CStr (year y); amount_of (cell_at df i y)].

(** "For each original row in order, one output row per year column". *)
Definition rows_by_source_row (df : DataFrame) (year_cols : list str)
  : list (list cell) :=
  flat_map (fun i => List.map (long_row year_of df year_cols i) year_cols)
           (seq 0 (nrows df)).

(** The rows of a frame, in order. *)
Definition frame_rows (df : DataFrame) : list (list cell) :=
  List.map (row df) (seq 0 (nrows df)).

(** The cells of column [c], none when there is no such column. *)
Definition column_values (df : DataFrame) (c : str) : list cell :=
  match lookup c (cols df) with
  | Some v => v
  | None => []
  end.

(** The year that the code derives from a year column: the label with
    every [a] removed. *)
Definition year_without_a (name : str) : str := replace (chr "a") [] name.

(** ** The double-precision range *)




(** ** The debit/credit merge *)

(** The float that [clean_numeric] returns for a cell. *)
Definition cleaned_value (v : cell) : pyfloat :=
  match clean_numeric v with
  | Ok f => f
  | Raise _ => fzero
  end.

(** The columns that [apply_debe_haber] drops. *)
Definition dropped (d c : str) : list str := [DEBE_CLEAN; HABER_CLEAN; d; c].

Definition kept (d c : str) (x : str) : bool := negb (mem x (dropped d c)).

(** The frame that [apply_debe_haber] builds before it drops columns, and
    the credit cells it reads: when the credit column is itself labelled
    [debe_clean], the first assignment has already overwritten it. *)
Definition credit_read (c : str) (vd vc : list cell) : list cell :=
  if str_eqb c DEBE_CLEAN
  then List.map (fun v => CFloat (cleaned_value v)) vd
  else vc.

Definition amounts (c : str) (vd vc : list cell) : list cell :=
  List.map (fun xy => CFloat (fsub (fst xy) (snd xy)))
    (combine (List.map cleaned_value vd)
             (List.map cleaned_value (credit_read c vd vc))).

Definition merged (df : DataFrame) (c : str) (vd vc : list cell) : DataFrame :=
  assign
    (assign
       (assign df DEBE_CLEAN (List.map (fun v => CFloat (cleaned_value v)) vd))
       HABER_CLEAN
       (List.map (fun v => CFloat (cleaned_value v)) (credit_read c vd vc)))
    IMPORTE (amounts c vd vc).

End Spec.

(* ================================================================== *)
(** * JSON objects and [clean] *)

Module Json.
Import PyStr PyFloat.

(** The objects that the handlers hand to [clean]: what [jsonable_encoder]
    returns, built from [None], booleans, numbers, strings, lists and
    dicts with string keys.  (The induction principle for this nested
    type is [pyobj_induction], among the facts.) *)
Unset Elimination Schemes.
Inductive pyobj : Type :=
| ONone
| OBool (b : bool)
| OInt (z : Z)
| OFloat (f : pyfloat)
| OStr (s : str)
| OList (l : list pyobj)
| ODict (d : list (str * pyobj)).
Set Elimination Schemes.

(** [clean(obj)]: a float that is NaN or infinite becomes [None]; dicts
    and lists are rebuilt around their cleaned members; any other object
    is returned as it is. *)
Fixpoint clean (obj : pyobj) : pyobj :=
  match obj with
  | OFloat f => if is_nan f || is_inf f then ONone else obj
  | ODict d => ODict (List.map (fun kv => let '(k, v) := kv in (k, clean v)) d)
  | OList l => OList (List.map clean l)
  | _ => obj
  end.

(** No float of the object, at any depth, is NaN or infinite. *)
Fixpoint all_finite (obj : pyobj) : bool :=
  match obj with
  | OFloat f => is_finite f
  | OList l => forallb all_finite l
  | ODict d => forallb (fun kv => let '(k, v) := kv in all_finite v) d
  | _ => true
  end.

(** The shape of an object: the object with every float and every
    [None] forgotten. *)
Fixpoint shape (obj : pyobj) : pyobj :=
  match obj with
  | OFloat _ => ONone
  | OList l => OList (List.map shape l)
  | ODict d => ODict (List.map (fun kv => let '(k, v) := kv in (k, shape v)) d)
  | _ => obj
  end.

End Json.

(* ================================================================== *)
(** * Python dicts with string keys *)

Module PyDict.
Import PyStr.

Section Dict.
Context {V : Type}.

(** A dict keeps its items in the order in which the keys were inserted. *)
Definition dict : Type := list (str * V).

(** [d.get(k)]. *)
Fixpoint get (k : str) (d : dict) : option V :=
  match d with
  | [] => None
  | (k', v) :: d' => if str_eqb k k' then Some v else get k d'
  end.

(** [k in d]. *)
Definition has_key (k : str) (d : dict) : bool :=
  match get k d with Some _ => true | None => false end.

(** [d[k] = v]: an existing key keeps its place, a new one goes last. *)
Fixpoint set (k : str) (v : V) (d : dict) : dict :=
  match d with
  | [] => [(k, v)]
  | (k', v') :: d' =>
      if str_eqb k k' then (k', v) :: d' else (k', v') :: set k v d'
  end.

(** [del d[k]] for a key of [d]. *)
Definition del (k : str) (d : dict) : dict :=
  filter (fun kv => negb (str_eqb k (fst kv))) d.

(** [list(d.keys())]. *)
Definition keys (d : dict) : list str := List.map fst d.

End Dict.
Arguments dict V : clear implicits.

End PyDict.

(* ================================================================== *)
(** * [DataStore] *)

Module DataStore.
Import PyStr PyDict.

Section Store.
(** The payloads are stored as they come: [D] is the type of the parsed
    rows, [M] of the metadata, [R] of an analysis result. *)
Variables D M R : Type.

(** An item of [self.csvs]. *)
Record csv_entry : Type := mkCsv {
  filename : str;
  data : D;
  metadata : M;
  uploaded_at : str
}.

(** An item of [self.analyses[session_id]]. *)
Record analysis_entry : Type := mkAnalysis {
  result : R;
  generated_at : str
}.

(** The two dicts of a [DataStore]. *)
Record store : Type := mkStore {
  csvs : dict csv_entry;
  analyses : dict (dict analysis_entry)
}.

(** [DataStore()]. *)
Definition empty : store := mkStore [] [].

(** [store_csv]; [now] is [datetime.now().isoformat()]. *)
Definition store_csv (self : store) (session_id filename : str) (data : D)
    (metadata : M) (now : str) : store :=
  mkStore (set session_id (mkCsv filename data metadata now) (csvs self))
          (analyses self).

Definition get_csv (self : store) (session_id : str) : option csv_entry :=
  get session_id (csvs self).

Definition delete_csv (self : store) (session_id : str) : store :=
  if has_key session_id (csvs self) then
    mkStore (del session_id (csvs self))
            (if has_key session_id (analyses self)
             then del session_id (analyses self)
             else analyses self)
  else self.

Definition store_analysis (self : store) (session_id analysis_type : str)
    (result : R) (now : str) : store :=
  let analyses :=
    if negb (has_key session_id (analyses self))
    then set session_id [] (analyses self)
    else analyses self in
  let inner := match get session_id analyses with
               | Some d => d
               | None => []
               end in
  mkStore (csvs self)
          (set session_id (set analysis_type (mkAnalysis result now) inner)
               analyses).

(** [self.analyses.get(session_id, {}).get(analysis_type)]. *)
Definition get_analysis (self : store) (session_id analysis_type : str)
  : option analysis_entry :=
  get analysis_type
      (match get session_id (analyses self) with
       | Some d => d
       | None => []
       end).

Definition list_sessions (self : store) : list str := keys (csvs self).

(** The keys of every dict of the store are distinct. *)
Definition distinct_keys (self : store) : Prop :=
  NoDup (keys (csvs self)) /\
  NoDup (keys (analyses self)) /\
  Forall (fun kv => NoDup (keys (snd kv))) (analyses self).

End Store.

Arguments filename {D M} c.
Arguments data {D M} c.
Arguments metadata {D M} c.
Arguments uploaded_at {D M} c.
Arguments mkCsv {D M}.
Arguments result {R} a.
Arguments generated_at {R} a.
Arguments mkAnalysis {R}.
Arguments csvs {D M R} s.
Arguments analyses {D M R} s.
Arguments mkStore {D M R}.
Arguments empty {D M R}.
Arguments store_csv {D M R}.
Arguments get_csv {D M R}.
Arguments delete_csv {D M R}.
Arguments store_analysis {D M R}.
Arguments get_analysis {D M R}.
Arguments list_sessions {D M R}.
Arguments distinct_keys {D M R}.

End DataStore.

(* ================================================================== *)
(** * The steps of [normalize] in closed form *)

Module Steps.
Import PyStr PyFloat Frame DataNormalizer.

(** A cell that [dropna] counts as a value. *)
Definition notna (x : cell) : bool := negb (isna x).


(** The role [source] of a mapping names the column [c]. *)
Definition claims (source : option str) (c : str) : bool :=
  match source with
  | Some s => nonempty source && str_eqb s c
  | None => false
  end.

(** The label of column [c] after the renaming step: the standard name of
    the role that names it, the concept before the category, the category
    before the amount and the amount before the date. *)
Definition renamed (m : ColumnMapping) (c : str) : str :=
  if claims (concept_column m) c then CONCEPTO
  else if claims (category_column m) c then CATEGORIA
  else if claims (amount_column m) c then IMPORTE
  else if claims (date_column m) c then FECHA
  else c.

(** A cell that is not a [bool]. *)
Definition not_bool (x : cell) : bool :=
  match x with
  | CBool _ => false
  | _ => true
  end.


(** The rows of a list of columns. *)
Definition rows_of (n : nat) (vs : list (list cell)) : list (list cell) :=
  List.map (fun i => List.map (fun v => nth i v missing) vs) (seq 0 n).

(** The rows that [dropna(how='all')] keeps, and its mask. *)
Definition has_value (r : list cell) : bool := existsb notna r.

Definition row_mask (df : DataFrame) : list bool :=
  List.map (fun i => has_value (row df i)) (seq 0 (nrows df)).

(** No row of the frame is empty. *)
Definition full (df : DataFrame) : Prop :=
  forallb has_value (Spec.frame_rows df) = true.

(** A table with an empty row and an empty column. *)
Definition sparse : DataFrame :=
  mkFrame 3 [(py "fecha", [CStr (py "2024-01-31"); CNone; CStr (py "2024-02-29")]);
             (py "importe", [CInt 7; missing; CNone]);
             (py "notas", [CNone; CNone; missing])].

(** The label that [normalize] gives to a key, and a record under the
    labels. *)
Definition label (k : str) : str := lower (strip k).


(** The cell of a record under a key, as [pd.DataFrame] reads it. *)
Definition value (k : str) (r : record) : cell :=
  match record_get k r with
  | Some v => v
  | None => missing
  end.





(** The confidences that [detect_format] returns, with the [0.0] that
    [normalize] starts from. *)
Definition DETECTED : list pyfloat :=
  [lit 0.0; lit 0.9; lit 0.95; lit 0.85; lit 0.8].

(** What the final validation can make of a confidence: nothing, one or two
    factors [0.7], or one factor [0.8]. *)
Definition scalings (c : pyfloat) : list pyfloat :=
  [c; fmul c (lit 0.7); fmul (fmul c (lit 0.7)) (lit 0.7); fmul c (lit 0.8)].

Definition CONFIDENCES : list pyfloat :=
  List.map (fun c => round_ndigits c 2) (flat_map scalings DETECTED).

(** [0.0 <= c <= 0.95]. *)
Definition in_range (c : pyfloat) : bool :=
  SFleb (lit 0.0) c && SFleb c (lit 0.95).

(** The terms are words: not empty and without a space. *)
Definition words (terms : list str) : Prop :=
  Forall (fun t => t <> [] /\ has (chr " ") t = false) terms.

(** The rules that only ask for the signs to be inverted. *)
Definition invert_rules : NormalizationRules :=
  mkRules (Some false) (Some []) (Some false) (Some true)
          (Some true) (Some true) (Some true).

End Steps.

(* ================================================================== *)
(** * The reports of [FinancialTools] *)

Module Reports.
Import PyStr PyFloat Frame Json PyDict DataNormalizer.

(** A cell of the frame that a report reads: a scalar, or a whole record
    when the frame was built from a dict of lists of records. *)
Inductive rcell : Type :=
| Scalar (c : cell)
| Nested (r : record).

Record table : Type := mkTable {
  t_nrows : nat;
  t_cols : list (str * list rcell)
}.

(** [df.columns]. *)
Definition labels (t : table) : list str := List.map fst (t_cols t).

(** The values of [csv_data] that are modelled: a list of records, the
    dict [{'data': records}] that the endpoints build, and a value that is
    neither a list nor a dict. *)
Inductive csv_data : Type :=
| CsvList (data : list record)
| CsvData (data : list record)
| CsvOther.

(** What [pd.DataFrame] returns: a frame with labelled columns, or, for an
    empty list, the empty frame, whose columns are a [RangeIndex]. *)
Inductive parsed : Type :=
| Unlabelled
| Labelled (t : table).

Definition _parse_csv_data (csv : csv_data) : result parsed :=
  match csv with
  | CsvList [] => Ok Unlabelled
  | CsvList data =>
      let df := of_records data in
      Ok (Labelled
            (mkTable (nrows df)
               (List.map (fun c => (fst c, List.map Scalar (snd c))) (cols df))))
  | CsvData data =>
      Ok (Labelled (mkTable (List.length data)
                      [(py "data", List.map Nested data)]))
  | CsvOther => Raise ValueError
  end.

(** [df.columns = df.columns.str.strip().str.lower()]; a [RangeIndex] has
    no [.str]. *)
Definition _normalize_column_names (df : parsed) : result table :=
  match df with
  | Unlabelled => Raise AttributeError
  | Labelled t =>
      Ok (mkTable (t_nrows t)
            (List.map (fun c => (lower (strip (fst c)), snd c)) (t_cols t)))
  end.

Definition STATEMENT_TERMS : list str :=
  [py "concepto"; py "nombre"; py "format"].
Definition FECHA_TERMS : list str := [py "fecha"; py "date"].
Definition IMPORTE_TERMS : list str := [py "importe"; py "monto"; py "amount"].

(** [_detect_format(df)]; it never answers ['budget']. *)
Definition _detect_format (df : table) : format_kind :=
  let cols := labels df in
  let year_cols := filter year_pattern_match cols in
  let joined := lower (join (py " ") cols) in
  if (2 <=? List.length year_cols)%nat && any_term_in STATEMENT_TERMS joined
  then financial_statement
  else if any_term_in FECHA_TERMS joined && any_term_in IMPORTE_TERMS joined
  then transactional
  else unknown.

(** [a < b] on strings: by code point, the shorter of two strings first
    when one begins the other. *)
Fixpoint str_ltb (a b : str) : bool :=
  match a, b with
  | _, [] => false
  | [], _ :: _ => true
  | x :: a', y :: b' => (x <? y)%N || ((x =? y)%N && str_ltb a' b')
  end.

Fixpoint insort (x : str) (l : list str) : list str :=
  match l with
  | [] => [x]
  | y :: l' => if str_ltb x y then x :: l else y :: insort x l'
  end.

(** [sorted(l)] for a list of strings. *)
Definition sorted (l : list str) : list str := fold_right insort [] l.

(** [_extract_year_columns(df)]: the pattern is [^a?(\d{4})$], which
    matches the labels that [^a?\d{4}$] matches. *)
Definition _extract_year_columns (df : table) : list str :=
  sorted (filter year_pattern_match (labels df)).

(** [a <= b] on strings. *)
Definition str_le (a b : str) : Prop := str_ltb b a = false.

(** The year that a label names, [int(re.search(r'\d{4}', label).group())],
    for a label written with ASCII digits. *)
Definition ascii_digit (c : char) : option Z :=
  if ((48 <=? c) && (c <=? 57))%N then Some (Z.of_N c - 48) else None.

Definition year_number (label : str) : option Z :=
  let body :=
    match label with
    | x :: r => if (x =? 97)%N then r else label
    | [] => []
    end in
  match body with
  | [d1; d2; d3; d4] =>
      match ascii_digit d1, ascii_digit d2, ascii_digit d3, ascii_digit d4 with
      | Some a, Some b, Some c, Some d => Some (1000 * a + 100 * b + 10 * c + d)
      | _, _, _, _ => None
      end
  | _ => None
  end.

(** The label begins with [a]. *)
Definition prefixed (label : str) : bool :=
  match label with
  | x :: _ => (x =? 97)%N
  | [] => false
  end.

(** Both labels name a year, the first one no later than the second. *)
Definition year_le (a b : str) : Prop :=
  match year_number a, year_number b with
  | Some x, Some y => x <= y
  | _, _ => False
  end.

Definition INGRESOS_TERMS : list str :=
  [py "ingreso"; py "venta"; py "revenue"; py "income"].
Definition GASTOS_TERMS : list str :=
  [py "gasto"; py "costo"; py "expense"; py "cost"].
Definition ACTIVOS_TERMS : list str :=
  [py "activo"; py "asset"; py "caja"; py "banco"].
Definition PASIVOS_TERMS : list str :=
  [py "pasivo"; py "deuda"; py "liability"; py "debt"].
Definition PATRIMONIO_TERMS : list str :=
  [py "patrimonio"; py "capital"; py "equity"].

Definition INGRESOS : str := py "Ingresos".
Definition GASTOS : str := py "Gastos".
Definition ACTIVOS : str := py "Activos".
Definition PASIVOS : str := py "Pasivos".
Definition PATRIMONIO : str := py "Patrimonio".
Definition OTROS : str := py "Otros".

Definition _categorize_concept (concepto : str) : str :=
  let concepto_lower := lower concepto in
  if any_term_in INGRESOS_TERMS concepto_lower then INGRESOS
  else if any_term_in GASTOS_TERMS concepto_lower then GASTOS
  else if any_term_in ACTIVOS_TERMS concepto_lower then ACTIVOS
  else if any_term_in PASIVOS_TERMS concepto_lower then PASIVOS
  else if any_term_in PATRIMONIO_TERMS concepto_lower then PATRIMONIO
  else OTROS.

(** ** The error dicts *)

Definition ERROR : str := py "error".

Definition E_NOT_STATEMENT (format_type : format_kind) : dict pyobj :=
  [(ERROR, OStr (py "CSV no está en formato de estados financieros"));
   (py "formato_detectado", OStr (format_name format_type));
   (py "sugerencia",
    OStr (py "Use get_monthly_summary para datos transaccionales"))].

Definition E_NO_CONCEPT : dict pyobj :=
  [(ERROR, OStr (py "No se encontró columna de conceptos"))].

Definition E_TWO_YEARS : dict pyobj :=
  [(ERROR, OStr (py "Se necesitan al menos 2 años de datos"))].

Definition E_STATEMENT (sugerencia : str) : dict pyobj :=
  [(ERROR, OStr (py "Este CSV parece ser un estado financiero anual"));
   (py "sugerencia", OStr sugerencia)].

Definition E_COLUMNS (message : str) (df : table) : dict pyobj :=
  [(ERROR, OStr message);
   (py "columns_found", OList (List.map OStr (labels df)))].

Definition E_EXCEPTION (prefix message : str) : dict pyobj :=
  [(ERROR, OStr (prefix ++ message))].

(** The last label that contains one of the terms, as the loops
    [for col in df.columns: if ... in col: x_col = col] leave it. *)
Definition last_with (terms : list str) (df : table) : option str :=
  fold_left (fun found col => if any_term_in terms col then Some col else found)
            (labels df) None.

Section Computations.

(** The dict that a report builds once its columns are found. *)
Variable Raw : Type.

(** The pandas computations that follow the checks of each report. *)
Variable yearly : table -> str -> list str -> result Raw.
Variable monthly : table -> str -> str -> result Raw.
Variable variance : table -> str -> str -> str -> result Raw.
Variable cash_flow : table -> str -> str -> pyobj -> result Raw.

(** [str(e)] for a caught exception. *)
Variable message : exn -> str.

(** What a report returns: an error dict, or the dict it computed. *)
Inductive report : Type :=
| Failure (d : dict pyobj)
| Computed (r : Raw).

(** [try: ... except Exception as e: return {"error": f"{prefix}{e}"}]. *)
Definition guarded (prefix : str) (body : result report) : report :=
  match body with
  | Ok r => r
  | Raise e => Failure (E_EXCEPTION prefix (message e))
  end.

Definition get_yearly_summary (csv : csv_data) : report :=
  guarded (py "Error al procesar datos: ")
    (df <- _parse_csv_data csv ;;
     df <- _normalize_column_names df ;;
     let format_type := _detect_format df in
     match format_type with
     | financial_statement =>
         match find (fun col => mem col (labels df))
                    [py "concepto"; py "nombre"; py "name"; py "concept"] with
         | None => Ok (Failure E_NO_CONCEPT)
         | Some concept_col =>
             let year_cols := _extract_year_columns df in
             if (List.length year_cols <? 2)%nat then Ok (Failure E_TWO_YEARS)
             else r <- yearly df concept_col year_cols ;; Ok (Computed r)
         end
     | _ => Ok (Failure (E_NOT_STATEMENT format_type))
     end).

(** The checks that [get_monthly_summary] and [get_cash_flow] share. *)
Definition dated (sugerencia : str)
    (compute : table -> str -> str -> result Raw) (csv : csv_data)
  : result report :=
  df <- _parse_csv_data csv ;;
  df <- _normalize_column_names df ;;
  match _detect_format df with
  | financial_statement => Ok (Failure (E_STATEMENT sugerencia))
  | _ =>
      match last_with [py "fecha"; py "date"] df,
            last_with [py "importe"; py "monto"; py "amount"; py "cantidad"] df
      with
      | Some date_col, Some amount_col =>
          r <- compute df date_col amount_col ;; Ok (Computed r)
      | _, _ =>
          Ok (Failure
                (E_COLUMNS (py "No se encontraron columnas de fecha o importe")
                           df))
      end
  end.

Definition get_monthly_summary (csv : csv_data) : report :=
  guarded (py "Error al procesar datos: ")
    (dated (py "Use get_yearly_summary en su lugar") monthly csv).

Definition get_budget_variance (csv : csv_data) : report :=
  guarded (py "Error al procesar variaciones: ")
    (df <- _parse_csv_data csv ;;
     df <- _normalize_column_names df ;;
     match last_with [py "categoria"; py "category"; py "concepto"] df,
           last_with [py "presupuesto"; py "budget"; py "planeado"] df,
           last_with [py "real"; py "actual"; py "ejecutado"] df
     with
     | Some cat_col, Some budget_col, Some actual_col =>
         if nonempty (Some cat_col) && nonempty (Some budget_col)
            && nonempty (Some actual_col)
         then r <- variance df cat_col budget_col actual_col ;; Ok (Computed r)
         else Ok (Failure
                (E_COLUMNS
                   (py "Faltan columnas necesarias (categoria, presupuesto, real)")
                   df))
     | _, _, _ =>
         Ok (Failure
               (E_COLUMNS
                  (py "Faltan columnas necesarias (categoria, presupuesto, real)")
                  df))
     end).

Definition get_cash_flow (csv : csv_data) (saldo_inicial : pyobj) : report :=
  guarded (py "Error al procesar flujo de caja: ")
    (dated (py "El análisis de flujo de caja requiere datos transaccionales")
           (fun df date_col amount_col =>
              cash_flow df date_col amount_col saldo_inicial)
           csv).

(** ** [analyze_financial_data] *)

(** [json.loads(json.dumps(result, ensure_ascii=False, indent=2))] for a
    computed dict; an error dict holds strings and lists of strings and
    comes back as it went. *)
Variable loads_dumps : Raw -> result (dict pyobj).

Definition loaded (r : report) : result (dict pyobj) :=
  match r with
  | Failure d => Ok d
  | Computed raw => loads_dumps raw
  end.

Definition YEARLY : str := py "yearly_summary".
Definition MONTHLY : str := py "monthly_summary".
Definition BUDGET : str := py "budget_variance".
Definition CASH : str := py "cash_flow".
Definition ALL : str := py "all".

(** The analysis type [analysis_type] asks for the report [k]. *)
Definition requested (analysis_type k : str) : Prop :=
  analysis_type = ALL \/ analysis_type = k.

(** What holds of [results] after every block of
    [analyze_financial_data]: distinct keys among [names], each one
    requested and bound to a dict without an error. *)
Definition sound (analysis_type : str) (names : list str)
    (results : dict (dict pyobj)) : Prop :=
  NoDup (keys results) /\
  forall k d, In (k, d) results ->
    In k names /\ requested analysis_type k /\ has_key ERROR d = false.

(** One block of [analyze_financial_data]: the report is kept under its
    name unless it raised or holds an error. *)
Definition attempt (analysis_type name : str) (r : report)
    (results : dict (dict pyobj)) : dict (dict pyobj) :=
  if mem analysis_type [name; ALL] then
    match loaded r with
    | Ok result => if negb (has_key ERROR result) then set name result results
                   else results
    | Raise _ => results
    end
  else results.

Definition analyze_financial_data (csv : csv_data) (analysis_type : str)
    (params : dict pyobj) : result (dict (dict pyobj)) :=
  let results := [] in
  let results := attempt analysis_type YEARLY (get_yearly_summary csv) results in
  let results := attempt analysis_type MONTHLY (get_monthly_summary csv) results in
  let results := attempt analysis_type BUDGET (get_budget_variance csv) results in
  let saldo_inicial :=
    match get (py "saldo_inicial") params with
    | Some v => v
    | None => OFloat (lit 0.0)
    end in
  let results :=
    attempt analysis_type CASH (get_cash_flow csv saldo_inicial) results in
  match results with
  | [] => Raise ValueError
  | _ :: _ => Ok results
  end.

(** ** [create_analysis] *)

(** [AnalysisRequest]. *)
Record AnalysisRequest : Type := mkRequest {
  analysis_type : option str;
  params : option (dict pyobj)
}.

(** What the endpoint answers: the status of the [HTTPException] it
    raises, or the body it returns. *)
Inductive response : Type :=
| Http404
| Http500
| Http200 (body : pyobj).

(** [analyze_financial_data(csv_data=..., analysis_type=..., **params)]:
    the call itself fails when [params] is [None] or repeats one of the
    two named arguments. *)
Definition call_analyze (csv : csv_data) (analysis_type : str)
    (params : option (dict pyobj)) : result (dict (dict pyobj)) :=
  match params with
  | None => Raise TypeError
  | Some p =>
      if has_key (py "csv_data") p || has_key (py "analysis_type") p
      then Raise TypeError
      else analyze_financial_data csv analysis_type p
  end.

Definition results_obj (results : dict (dict pyobj)) : pyobj :=
  ODict (List.map (fun kv => (fst kv, ODict (snd kv))) results).

Definition answer (session_id analysis_type : str) (res : pyobj) (now : str)
  : pyobj :=
  clean (ODict [(py "session_id", OStr session_id);
                (py "analysis_type", OStr analysis_type);
                (py "result", res);
                (py "generated_at", OStr now)]).

Section Endpoint.
(** The metadata of an upload are stored with it and not read here. *)
Variable M : Type.

(** [create_analysis(session_id, request)] on the store [self]; [clock n]
    is the [n]-th reading of [datetime.now().isoformat()] during the
    request. *)
Definition create_analysis (self : DataStore.store (list record) M pyobj)
    (session_id : str) (request : option AnalysisRequest) (clock : nat -> str)
  : response * DataStore.store (list record) M pyobj :=
  match DataStore.get_csv self session_id with
  | None => (Http404, self)
  | Some csv_data =>
      let request :=
        match request with
        | Some r => if nonempty (analysis_type r) then r
                    else mkRequest (Some ALL) (Some [])
        | None => mkRequest (Some ALL) (Some [])
        end in
      let atype := match analysis_type request with
                   | Some t => t
                   | None => ALL
                   end in
      let csv := CsvData (DataStore.data csv_data) in
      if str_eqb atype ALL then
        match call_analyze csv ALL (params request) with
        | Raise _ => (Http500, self)
        | Ok all_results =>
            let stored :=
              fold_left
                (fun st kv =>
                   (S (fst st),
                    DataStore.store_analysis (snd st) session_id (fst kv)
                      (ODict (snd kv)) (clock (fst st))))
                all_results (O, self) in
            (Http200 (answer session_id ALL (results_obj all_results)
                             (clock (fst stored))),
             snd stored)
        end
      else
        match call_analyze csv atype (params request) with
        | Raise _ => (Http500, self)
        | Ok result =>
            let specific_result :=
              match get atype result with
              | Some d => ODict d
              | None => results_obj result
              end in
            (Http200 (answer session_id atype
                             (ODict [(atype, specific_result)]) (clock 1%nat)),
             DataStore.store_analysis self session_id atype specific_result
               (clock O))
        end
  end.

(** [adata["result"].get(atype, adata["result"])]. *)
Definition unwrap (atype : str) (res : pyobj) : result pyobj :=
  match res with
  | ODict d => Ok (match get atype d with Some v => v | None => res end)
  | _ => Raise AttributeError
  end.

(** The endpoint [get_analysis(session_id, analysis_type)]; an exception
    that no handler catches is answered with status 500. *)
Definition get_analysis (self : DataStore.store (list record) M pyobj)
    (session_id analysis_type : str) : response :=
  match DataStore.get_csv self session_id with
  | None => Http404
  | Some _ =>
      if str_eqb analysis_type ALL then
        match get session_id (DataStore.analyses self) with
        | None | Some [] => Http404
        | Some analyses =>
            match mapM (fun kv =>
                          v <- unwrap (fst kv) (DataStore.result (snd kv)) ;;
                          Ok (fst kv, v)) analyses with
            | Ok all_results => Http200 (clean (ODict all_results))
            | Raise _ => Http500
            end
        end
      else
        match DataStore.get_analysis self session_id analysis_type with
        | None => Http404
        | Some entry =>
            match unwrap analysis_type (DataStore.result entry) with
            | Ok v => Http200 (clean (ODict [(analysis_type, v)]))
            | Raise _ => Http500
            end
        end
  end.

(** The requests that change the store: an upload, with the records and
    the metadata read from the file when it could be read, the deletion
    of an upload, and the creation of an analysis. *)
Inductive call : Type :=
| PostCsv (session_id filename : str) (read : option (list record * M))
          (now : str)
| DeleteCsv (session_id : str)
| PostAnalysis (session_id : str) (request : option AnalysisRequest)
               (clock : nat -> str).

(** The store after the endpoint has handled the request. *)
Definition handle (self : DataStore.store (list record) M pyobj) (c : call)
  : DataStore.store (list record) M pyobj :=
  match c with
  | PostCsv session_id filename (Some (data, metadata)) now =>
      DataStore.store_csv self session_id filename data metadata now
  | PostCsv _ _ None _ => self
  | DeleteCsv session_id =>
      match DataStore.get_csv self session_id with
      | None => self
      | Some _ => DataStore.delete_csv self session_id
      end
  | PostAnalysis session_id request clock =>
      snd (create_analysis self session_id request clock)
  end.

(** The store of the server after a sequence of requests. *)
Definition serve (calls : list call) : DataStore.store (list record) M pyobj :=
  fold_left handle calls DataStore.empty.

End Endpoint.
End Computations.

Arguments Failure {Raw} d.
Arguments Computed {Raw} r.
Arguments PostCsv {M}.
Arguments DeleteCsv {M}.
Arguments PostAnalysis {M}.

End Reports.

(* ================================================================== *)
(** * The tables of the specification's examples *)

Module Examples.
Import PyStr PyFloat Frame DataNormalizer.
(** The two ledger rows of the specification. *)
Definition ledger : DataFrame :=
  mkFrame 2 [(py "debe", [CStr (py "100"); CStr (py "0")]);
             (py "haber", [CStr (py "0"); CStr (py "50")])].

(** A ledger whose credit column is labelled [debe_clean]. *)
Definition ledger_scratch_credit : DataFrame :=
  mkFrame 1 [(py "debe", [CStr (py "100")]);
             (py "debe_clean", [CStr (py "30")])].

(** A ledger whose debit column is labelled [importe]. *)
Definition ledger_importe_debit : DataFrame :=
  mkFrame 1 [(py "importe", [CStr (py "100")]);
             (py "haber", [CStr (py "30")])].

(** A ledger with a further column that is labelled [haber_clean]. *)
Definition ledger_scratch_other : DataFrame :=
  mkFrame 1 [(py "debe", [CStr (py "100")]);
             (py "haber", [CStr (py "30")]);
             (py "haber_clean", [CStr (py "checked")])].

(** Two concepts and two years. *)
Definition two_by_two : DataFrame :=
  mkFrame 2 [(py "concepto", [CStr (py "A"); CStr (py "B")]);
             (py "a2020", [CStr (py "1"); CStr (py "2")]);
             (py "a2021", [CStr (py "3"); CStr (py "4")])].

(** A year column whose leading letter is not [a]. *)
Definition year_b : DataFrame :=
  mkFrame 1 [(py "concepto", [CStr (py "A")]); (py "b2020", [CStr (py "1")])].


(** The end-to-end scenario: one statement row with two years. *)
Definition sales_data : list record :=
  [[(py "Concepto", CStr (py "Ventas"));
    (py "a2020", CStr (py "1.000,00"));
    (py "a2021", CStr (py "1.500,00"))]].

(** [{unpivot: true, unpivot_year_columns: ["a2020", "a2021"]}], the other
    rules at their defaults. *)
Definition sales_rules : NormalizationRules :=
  mkRules (Some true) (Some [py "a2020"; py "a2021"])
          (debe_haber default_rules) (invert_negatives default_rules)
          (detect_format_rule default_rules) (drop_empty_rows default_rules)
          (drop_empty_columns default_rules).

(** [{concept_column: "concepto"}]. *)
Definition sales_mapping : ColumnMapping :=
  mkMapping None None None (Some (py "concepto")) None None None None.

(** A mapping that names a concept column the table does not have. *)
Definition typo_mapping : ColumnMapping :=
  mkMapping None None None (Some (py "concept0")) None None None None.

(** A table without any year-like column, and a request to unpivot it. *)
Definition totals_data : list record :=
  [[(py "concepto", CStr (py "Ventas")); (py "total", CStr (py "5"))]].

Definition unpivot_rules : NormalizationRules :=
  mkRules (Some true) (unpivot_year_columns default_rules)
          (debe_haber default_rules) (invert_negatives default_rules)
          (detect_format_rule default_rules) (drop_empty_rows default_rules)
          (drop_empty_columns default_rules).

(** Two frames with the same labels and different cells. *)
Definition dated_empty : DataFrame :=
  mkFrame 0 [(py "fecha", []); (py "importe", [])].
Definition dated_filled : DataFrame :=
  mkFrame 2 [(py "fecha", [CStr (py "2024-01-31"); CNone]);
             (py "importe", [CInt 7; CStr (py "1,5")])].



(** A store whose session [a] has a CSV and an analysis, and whose session
    [b] has an analysis but no CSV. *)
Definition stocked : DataStore.store (list record) unit Json.pyobj :=
  DataStore.store_analysis
    (DataStore.store_analysis
       (DataStore.store_csv DataStore.empty (py "a") (py "ventas.csv") [] tt
          (py "09:00"))
       (py "a") (py "cash_flow") (Json.ODict []) (py "09:01"))
    (py "b") (py "cash_flow") (Json.ODict []) (py "09:02").

End Examples.

(* ================================================================== *)
(** * Facts about strings and lists *)

Arguments PyStr.char_eqb : simpl never.

Section StrFacts.
Import PyStr.

Lemma str_eqb_eq (a b : str) : str_eqb a b = true <-> a = b.
Proof.
  revert b; induction a as [|x a IH]; intros [|y b]; simpl;
    try (split; [discriminate | discriminate]); try tauto.
  unfold char_eqb. rewrite andb_true_iff, N.eqb_eq, IH.
  split; [intros [-> ->]; reflexivity | intros E; inversion E; auto].
Qed.

Lemma str_eqb_refl (a : str) : str_eqb a a = true.
Proof. apply str_eqb_eq; reflexivity. Qed.

Lemma str_eqb_neq (a b : str) : str_eqb a b = false <-> a <> b.
Proof.
  rewrite <- str_eqb_eq. destruct (str_eqb a b); split; congruence.
Qed.

Lemma mem_In (x : str) (l : list str) : mem x l = true <-> In x l.
Proof.
  unfold mem. rewrite existsb_exists. split.
  - intros [y [Hy E]]. apply str_eqb_eq in E. subst; auto.
  - intros H. exists x. split; [auto | apply str_eqb_refl].
Qed.

Lemma mem_not_In (x : str) (l : list str) : mem x l = false <-> ~ In x l.
Proof.
  rewrite <- mem_In. destruct (mem x l); split; congruence.
Qed.

End StrFacts.

(* ================================================================== *)
(** * The float model against the kernel's binary64 *)

(** [float], [repr], [round] and the arithmetic of the model agree with
    the primitive floats of the kernel on the values the engine meets. *)
Section FloatChecks.
Import PyStr PyFloat.

Example float_of_str_tenth : float_of_str (py "0.1") = Ok (lit 0.1).
Proof. vm_compute. reflexivity. Qed.

Example float_of_str_halfway : float_of_str (py "1e23") = Ok (lit 1e23).
Proof. vm_compute. reflexivity. Qed.

Example float_of_str_largest :
  float_of_str (py "1.7976931348623157e308") = Ok (lit 1.7976931348623157e308).
Proof. vm_compute. reflexivity. Qed.

Example float_of_str_smallest : float_of_str (py "5e-324") = Ok (lit 5e-324).
Proof. vm_compute. reflexivity. Qed.

Example float_of_str_underscore : float_of_str (py " 1_000.5 ") = Ok (lit 1000.5).
Proof. vm_compute. reflexivity. Qed.

Example float_of_str_rejects :
  float_of_str (py "1e") = Raise ValueError /\
  float_of_str (py "") = Raise ValueError /\
  float_of_str (py "1__0") = Raise ValueError /\
  float_of_str (py "infi") = Raise ValueError.
Proof. repeat split. Qed.

Example float_repr_examples :
  float_repr (lit 0.1) = py "0.1" /\
  float_repr (lit 100.0) = py "100.0" /\
  float_repr (lit 1e16) = py "1e+16" /\
  float_repr (lit 0.00001) = py "1e-05" /\
  float_repr (lit 1234.56) = py "1234.56".
Proof.
  split; [vm_compute; reflexivity|]. split; [vm_compute; reflexivity|].
  split; [vm_compute; reflexivity|]. split; vm_compute; reflexivity.
Qed.

Example confidence_arithmetic :
  fmul (lit 0.9) (lit 0.7) = lit (0.9 * 0.7)%float /\
  fmul (lit 0.95) (lit 0.7) = lit (0.95 * 0.7)%float /\
  round_ndigits (fmul (lit 0.9) (lit 0.7)) 2 = lit 0.63 /\
  round_ndigits (fmul (lit 0.95) (lit 0.7)) 2 = lit 0.66 /\
  fsub (lit 100.0) (lit 30.0) = lit (100.0 - 30.0)%float.
Proof.
  split; [vm_compute; reflexivity|]. split; [vm_compute; reflexivity|].
  split; [vm_compute; reflexivity|]. split; vm_compute; reflexivity.
Qed.
End FloatChecks.

(* ================================================================== *)
(** * Format detection *)

Section Detection.
Import PyStr PyFloat Frame DataNormalizer Spec Examples.


End Detection.

(* ================================================================== *)
(** * Numeric cleaning: separators *)

Section Separators.
Import PyStr PyFloat Frame DataNormalizer Spec.

(** A character cannot be both the comma and the point. *)
Ltac sep_clash Ec Ed :=
  unfold char_eqb in Ec, Ed; apply N.eqb_eq in Ec; apply N.eqb_eq in Ed;
  rewrite <- Ec in Ed; vm_compute in Ed; discriminate Ed.

Lemma rfind_from_snoc (c x : char) (s : str) (i found : Z) :
  rfind_from i c (s ++ [x]) found =
  if char_eqb c x then i + len s else rfind_from i c s found.
Proof.
  revert i found. induction s as [|y s IH]; intros i found; simpl.
  - unfold len; simpl. destruct (char_eqb c x); [lia | reflexivity].
  - rewrite IH. unfold len; simpl List.length. destruct (char_eqb c x); [lia | reflexivity].
Qed.

Lemma rfind_rev (c : char) (s : str) :
  rfind c s = match first_index c (rev s) with
              | Some d => len s - 1 - Z.of_nat d
              | None => -1
              end.
Proof.
  induction s as [|x s IH] using rev_ind; [reflexivity|].
  unfold rfind in *. rewrite rfind_from_snoc, rev_app_distr. simpl.
  unfold len. rewrite length_app. simpl List.length.
  destruct (char_eqb c x); [lia|].
  rewrite IH. destruct (first_index c (rev s)); simpl; unfold len; lia.
Qed.

Lemma has_first_index (c : char) (l : str) :
  has c l = match first_index c l with Some _ => true | None => false end.
Proof.
  induction l as [|x l IH]; simpl; [reflexivity|].
  destruct (char_eqb c x); simpl; [reflexivity|].
  change (existsb (char_eqb c) l) with (has c l).
  rewrite IH. destruct (first_index c l); reflexivity.
Qed.

Lemma has_app (c : char) (a b : str) : has c (a ++ b) = has c a || has c b.
Proof. apply existsb_app. Qed.

Lemma has_rev (c : char) (s : str) : has c (rev s) = has c s.
Proof.
  induction s as [|x s IH]; simpl; [reflexivity|].
  rewrite has_app, IH. simpl. rewrite orb_false_r. apply orb_comm.
Qed.

Lemma has_lstrip (c : char) (s : str) :
  is_space c = false -> has c (lstrip s) = has c s.
Proof.
  intros Hc. induction s as [|x s IH]; simpl; [reflexivity|].
  destruct (is_space x) eqn:Hx; [|reflexivity].
  rewrite IH. unfold char_eqb. destruct (N.eqb_spec c x); [congruence | reflexivity].
Qed.

Lemma has_strip (c : char) (s : str) :
  is_space c = false -> has c (strip s) = has c s.
Proof.
  intros Hc. unfold strip, rstrip.
  rewrite has_rev, has_lstrip, has_rev, has_lstrip by assumption. reflexivity.
Qed.

Lemma has_filter (c : char) (p : char -> bool) (s : str) :
  p c = true -> has c (filter p s) = has c s.
Proof.
  intros Hc. induction s as [|x s IH]; simpl; [reflexivity|].
  destruct (p x) eqn:Hx; simpl; rewrite IH; [reflexivity|].
  unfold char_eqb. destruct (N.eqb_spec c x); [congruence | reflexivity].
Qed.

Lemma has_cleaned (c : char) (s : str) :
  is_space c = false -> is_currency c = false -> has c (cleaned s) = has c s.
Proof.
  intros Hs Hc. unfold cleaned, strip_symbols.
  rewrite has_filter by (rewrite Hs, Hc; reflexivity).
  apply has_strip; assumption.
Qed.

(** The separator found first in a reversed text is the one with the
    smaller first index. *)
Lemma find_separator_index (r : str) :
  match first_index COMMA r, first_index DOT r with
  | Some i, Some j =>
      find is_separator r = Some (if (i <? j)%nat then COMMA else DOT) /\ i <> j
  | Some _, None => find is_separator r = Some COMMA
  | None, Some _ => find is_separator r = Some DOT
  | None, None => find is_separator r = None
  end.
Proof.
  induction r as [|x r IH]; cbn [first_index find]; [reflexivity|].
  change (is_separator x) with (char_eqb COMMA x || char_eqb DOT x).
  destruct (char_eqb COMMA x) eqn:Ec; destruct (char_eqb DOT x) eqn:Ed;
    cbn [orb].
  - sep_clash Ec Ed.
  - unfold char_eqb in Ec. apply N.eqb_eq in Ec. subst x.
    destruct (first_index DOT r); simpl; auto.
  - unfold char_eqb in Ed. apply N.eqb_eq in Ed. subst x.
    destruct (first_index COMMA r); simpl; auto.
  - destruct (first_index COMMA r) as [i|], (first_index DOT r) as [j|];
      cbn [option_map]; auto.
    destruct IH as [IH Hn]. split; [|lia]. rewrite IH.
    change (S i <? S j)%nat with (i <? j)%nat. reflexivity.
Qed.

Lemma replace_european (t : str) :
  replace COMMA [DOT] (replace DOT [] t) = with_decimal COMMA t.
Proof.
  induction t as [|x t IH]; simpl; [reflexivity|].
  unfold is_separator.
  destruct (char_eqb DOT x) eqn:Ed; destruct (char_eqb COMMA x) eqn:Ec; simpl;
    rewrite ?Ec, ?IH; try reflexivity.
  sep_clash Ec Ed.
Qed.

Lemma replace_american (t : str) :
  replace COMMA [] t = with_decimal DOT t.
Proof.
  induction t as [|x t IH]; simpl; [reflexivity|].
  unfold is_separator.
  destruct (char_eqb DOT x) eqn:Ed; destruct (char_eqb COMMA x) eqn:Ec; simpl;
    rewrite ?IH; try reflexivity.
  - sep_clash Ec Ed.
  - unfold char_eqb in *. apply N.eqb_eq in Ed. subst x. reflexivity.
Qed.

Lemma replace_decimal_comma (t : str) :
  has DOT t = false -> replace COMMA [DOT] t = with_decimal COMMA t.
Proof.
  induction t as [|x t IH]; simpl; [reflexivity|].
  intros H. apply orb_false_iff in H. destruct H as [Ed H].
  unfold is_separator. rewrite Ed, IH by assumption.
  destruct (char_eqb COMMA x); reflexivity.
Qed.

Lemma has_firstn_index (c : char) (n : nat) (r : str) :
  has c (firstn n r) = match first_index c r with
                       | Some d => (d <? n)%nat
                       | None => false
                       end.
Proof.
  revert n. induction r as [|x r IH]; intros [|n]; simpl; try reflexivity.
  - destruct (char_eqb c x); [reflexivity|]. destruct (first_index c r); reflexivity.
  - destruct (char_eqb c x); simpl; [reflexivity|].
    change (existsb (char_eqb c) (firstn n r)) with (has c (firstn n r)).
    rewrite IH. destruct (first_index c r); reflexivity.
Qed.

(** The code's test [len - 4 < rfind ','] says that a comma lies within
    the last three characters. *)
Lemma comma_test (t : str) :
  has COMMA t = true ->
  (len t - 4 <? rfind COMMA t) = comma_in_last_three t.
Proof.
  intros H. unfold comma_in_last_three.
  rewrite has_firstn_index, rfind_rev.
  rewrite <- has_rev, has_first_index in H.
  destruct (first_index COMMA (rev t)) as [d|]; [|discriminate].
  destruct (Nat.ltb_spec d 3); [apply Z.ltb_lt | apply Z.ltb_ge]; lia.
Qed.

(** With both separators in the text, the code's comparison of the two
    [rfind] positions picks the separator that occurs last. *)
Lemma both_separators (t : str) :
  has COMMA t = true -> has DOT t = true ->
  last_separator t = Some (if rfind DOT t <? rfind COMMA t then COMMA else DOT).
Proof.
  intros Hc Hd. unfold last_separator. rewrite !rfind_rev.
  rewrite <- has_rev, has_first_index in Hc, Hd.
  pose proof (find_separator_index (rev t)) as F.
  destruct (first_index COMMA (rev t)) as [i|]; [|discriminate].
  destruct (first_index DOT (rev t)) as [j|]; [|discriminate].
  destruct F as [F Hn]. rewrite F.
  destruct (Nat.ltb_spec i j), (Z.ltb_spec (len t - 1 - Z.of_nat j) (len t - 1 - Z.of_nat i));
    try reflexivity; lia.
Qed.

Lemma separators_spec (t : str) :
  separators t =
  if has COMMA t && has DOT t then
    match last_separator t with
    | Some d => with_decimal d t
    | None => t
    end
  else if has COMMA t then
    if comma_in_last_three t then with_decimal COMMA t else with_decimal DOT t
  else t.
Proof.
  unfold separators.
  destruct (has COMMA t) eqn:Hc; simpl; [|reflexivity].
  destruct (has DOT t) eqn:Hd.
  - rewrite both_separators by assumption.
    destruct (rfind DOT t <? rfind COMMA t);
      [apply replace_european | apply replace_american].
  - rewrite comma_test by assumption.
    destruct (comma_in_last_three t);
      [apply replace_decimal_comma; assumption | apply replace_american].
Qed.

Lemma clean_numeric_text (s : str) :
  clean_numeric (CStr s) = parse_or_zero (separators (cleaned s)).
Proof.
  unfold clean_numeric, parse_or_zero, cleaned. simpl.
  destruct s; [reflexivity|]. reflexivity.
Qed.

Lemma clean_numeric_value_same (v : cell) :
  FinancialTools._clean_numeric_value v = clean_numeric v.
Proof. reflexivity. Qed.

(** C2.  For every input string in which both a comma and a point occur,
    [clean_numeric] takes the separator that occurs last in the text (the
    text being the input without currency symbols and white space) as the
    decimal separator and removes the other one; for every input string
    in which only a comma occurs, the comma is the decimal separator if
    and only if a comma lies within the last three characters of the text,
    and is removed otherwise.  [FinancialTools._clean_numeric_value] is the
    same function.  So "1.234,56" and "1,234.56" both give 1234.56,
    "1,234" gives 1234.0 and "12,5" gives 12.5. *)
Theorem clean_numeric_separators :
  (forall s, has COMMA s = true -> has DOT s = true ->
     exists d, last_separator (cleaned s) = Some d /\
       clean_numeric (CStr s) = parse_or_zero (with_decimal d (cleaned s))) /\
  (forall s, has COMMA s = true -> has DOT s = false ->
     clean_numeric (CStr s) =
     parse_or_zero (if comma_in_last_three (cleaned s)
                    then with_decimal COMMA (cleaned s)
                    else with_decimal DOT (cleaned s))) /\
  (forall v, FinancialTools._clean_numeric_value v = clean_numeric v) /\
  clean_numeric (CStr (py "1.234,56")) = Ok (lit 1234.56) /\
  clean_numeric (CStr (py "1,234.56")) = Ok (lit 1234.56) /\
  clean_numeric (CStr (py "1,234")) = Ok (lit 1234.0) /\
  clean_numeric (CStr (py "12,5")) = Ok (lit 12.5).
Proof.
  split; [|split; [|split; [exact clean_numeric_value_same|]]].
  - intros s Hc Hd.
    assert (Hc' : has COMMA (cleaned s) = true)
      by (rewrite has_cleaned; [assumption | reflexivity | reflexivity]).
    assert (Hd' : has DOT (cleaned s) = true)
      by (rewrite has_cleaned; [assumption | reflexivity | reflexivity]).
    rewrite clean_numeric_text, separators_spec, Hc', Hd'. simpl.
    rewrite both_separators by assumption. eexists; split; reflexivity.
  - intros s Hc Hd.
    assert (Hc' : has COMMA (cleaned s) = true)
      by (rewrite has_cleaned; [assumption | reflexivity | reflexivity]).
    assert (Hd' : has DOT (cleaned s) = false)
      by (rewrite has_cleaned; [assumption | reflexivity | reflexivity]).
    rewrite clean_numeric_text, separators_spec, Hc', Hd'. reflexivity.
  - split; [vm_compute; reflexivity|].
    split; [vm_compute; reflexivity|].
    split; vm_compute; reflexivity.
Qed.

Lemma clean_numeric_separators_witness :
  (exists d, last_separator (cleaned (py "1.234,56")) = Some d /\
     clean_numeric (CStr (py "1.234,56")) =
     parse_or_zero (with_decimal d (cleaned (py "1.234,56")))) /\
  clean_numeric (CStr (py "12,5 €")) =
    parse_or_zero (if comma_in_last_three (cleaned (py "12,5 €"))
                   then with_decimal COMMA (cleaned (py "12,5 €"))
                   else with_decimal DOT (cleaned (py "12,5 €"))).
Proof.
  split.
  - apply (proj1 clean_numeric_separators); reflexivity.
  - apply (proj1 (proj2 clean_numeric_separators)); reflexivity.
Defined.
End Separators.

(* ================================================================== *)
(** * Numeric cleaning: totality *)

Section Totality.
Import PyStr PyFloat Frame DataNormalizer Spec.

Lemma clean_numeric_unfold (v : cell) :
  clean_numeric v =
  if isna v || is_empty_str v then Ok fzero
  else parse_or_zero (numeric_text v).
Proof. reflexivity. Qed.

Lemma parse_or_zero_ok (t : str) : exists f, parse_or_zero t = Ok f.
Proof.
  unfold parse_or_zero, try_except.
  destruct (float_of_str t); eexists; reflexivity.
Qed.


End Totality.

(* ================================================================== *)
(** * Numeric cleaning: the range of the result *)

Section Range.
Import PyStr PyFloat Frame DataNormalizer Spec.











End Range.

(* ================================================================== *)
(** * Data frames: facts *)

Section FrameFacts.
Import PyStr PyFloat Frame DataNormalizer Spec.

Lemma lookup_mem (c : str) (l : list (str * list cell)) :
  mem c (List.map fst l) = true <-> exists v, lookup c l = Some v.
Proof.
  induction l as [|[k w] l IH]; simpl.
  - split; [discriminate | intros [v H]; discriminate].
  - destruct (str_eqb c k); simpl; [split; eauto | exact IH].
Qed.

Lemma lookup_In_columns (c : str) (df : DataFrame) :
  In c (columns df) -> exists v, lookup c (cols df) = Some v.
Proof. intros H. apply lookup_mem, mem_In. exact H. Qed.

Lemma lookup_none (c : str) (l : list (str * list cell)) :
  mem c (List.map fst l) = false <-> lookup c l = None.
Proof.
  induction l as [|[k w] l IH]; simpl; [tauto|].
  destruct (str_eqb c k); simpl; [split; discriminate | exact IH].
Qed.

Lemma lookup_In (c : str) (v : list cell) (l : list (str * list cell)) :
  lookup c l = Some v -> In (c, v) l.
Proof.
  induction l as [|[k w] l IH]; simpl; [discriminate|].
  destruct (str_eqb c k) eqn:E.
  - apply str_eqb_eq in E. subst k. intros H; inversion H. auto.
  - auto.
Qed.

Lemma replace_column_labels (c : str) (v : list cell) (l : list (str * list cell)) :
  List.map fst (replace_column c v l) = List.map fst l.
Proof.
  induction l as [|[k w] l IH]; simpl; [reflexivity|].
  destruct (str_eqb c k); simpl; [reflexivity | rewrite IH; reflexivity].
Qed.

Lemma lookup_replace_same (c : str) (v : list cell) (l : list (str * list cell)) :
  mem c (List.map fst l) = true -> lookup c (replace_column c v l) = Some v.
Proof.
  induction l as [|[k w] l IH]; simpl; [discriminate|].
  destruct (str_eqb c k) eqn:E; simpl.
  - intros _. rewrite E. reflexivity.
  - intros H. rewrite E. auto.
Qed.

Lemma lookup_replace_other (c x : str) (v : list cell) (l : list (str * list cell)) :
  x <> c -> lookup x (replace_column c v l) = lookup x l.
Proof.
  intros N. induction l as [|[k w] l IH]; simpl; [reflexivity|].
  destruct (str_eqb c k) eqn:E; simpl.
  - apply str_eqb_eq in E. subst k.
    apply str_eqb_neq in N. rewrite N. reflexivity.
  - rewrite IH. reflexivity.
Qed.

Lemma lookup_app (x : str) (l l' : list (str * list cell)) :
  lookup x (l ++ l') = match lookup x l with
                       | Some v => Some v
                       | None => lookup x l'
                       end.
Proof.
  induction l as [|[k w] l IH]; simpl; [reflexivity|].
  destruct (str_eqb x k); [reflexivity | exact IH].
Qed.

Lemma lookup_filter (x : str) (p : str -> bool) (l : list (str * list cell)) :
  lookup x (filter (fun c => p (fst c)) l) = if p x then lookup x l else None.
Proof.
  induction l as [|[k w] l IH]; cbn [filter lookup fst];
    [destruct (p x); reflexivity|].
  destruct (str_eqb x k) eqn:E.
  - apply str_eqb_eq in E. subst k.
    destruct (p x) eqn:P; cbn [lookup].
    + rewrite str_eqb_refl. reflexivity.
    + exact IH.
  - destruct (p k); cbn [lookup]; [rewrite E|]; exact IH.
Qed.

(** ** [df[c] = v] *)

Lemma assign_nrows (df : DataFrame) (c : str) (v : list cell) :
  nrows (assign df c v) = nrows df.
Proof. unfold assign. destruct (mem c (columns df)); reflexivity. Qed.

Lemma assign_columns (df : DataFrame) (c : str) (v : list cell) :
  columns (assign df c v) =
  if mem c (columns df) then columns df else columns df ++ [c].
Proof.
  unfold assign, columns. destruct (mem c (List.map fst (cols df))); simpl.
  - apply replace_column_labels.
  - rewrite map_app. reflexivity.
Qed.

Lemma assign_lookup_same (df : DataFrame) (c : str) (v : list cell) :
  lookup c (cols (assign df c v)) = Some v.
Proof.
  unfold assign, columns. destruct (mem c (List.map fst (cols df))) eqn:M; simpl.
  - apply lookup_replace_same; assumption.
  - rewrite lookup_app. apply lookup_none in M. rewrite M. simpl.
    rewrite str_eqb_refl. reflexivity.
Qed.

Lemma assign_lookup_other (df : DataFrame) (c x : str) (v : list cell) :
  x <> c -> lookup x (cols (assign df c v)) = lookup x (cols df).
Proof.
  intros N. unfold assign. destruct (mem c (columns df)); simpl.
  - apply lookup_replace_other; assumption.
  - rewrite lookup_app. destruct (lookup x (cols df)); [reflexivity|].
    simpl. apply str_eqb_neq in N. rewrite N. reflexivity.
Qed.

Lemma assign_In (df : DataFrame) (c x : str) (v : list cell) :
  In x (columns (assign df c v)) <-> In x (columns df) \/ x = c.
Proof.
  rewrite assign_columns. destruct (mem c (columns df)) eqn:M.
  - apply mem_In in M. split; [auto | intros [H|E]; [auto | subst x; auto]].
  - rewrite in_app_iff. simpl. intuition.
Qed.

Lemma column_lookup (df : DataFrame) (c : str) (v : list cell) :
  lookup c (cols df) = Some v -> column df c = Ok v.
Proof. unfold column. intros ->. reflexivity. Qed.

(** ** Cleaning a column *)

Lemma clean_numeric_value (v : cell) : clean_numeric v = Ok (cleaned_value v).
Proof.
  unfold cleaned_value. rewrite clean_numeric_unfold.
  destruct (isna v || is_empty_str v); [reflexivity|].
  destruct (parse_or_zero_ok (numeric_text v)) as [f ->]. reflexivity.
Qed.

Lemma apply_clean_cell (l : list cell) :
  apply clean_cell l = Ok (List.map (fun v => CFloat (cleaned_value v)) l).
Proof.
  unfold apply. induction l as [|v l IH]; simpl; [reflexivity|].
  unfold clean_cell at 1. rewrite clean_numeric_value. simpl.
  rewrite IH. reflexivity.
Qed.

Lemma series_sub_floats (a b : list pyfloat) :
  series_sub (List.map CFloat a) (List.map CFloat b) =
  Ok (List.map (fun xy => CFloat (fsub (fst xy) (snd xy))) (combine a b)).
Proof.
  unfold series_sub. revert b. induction a as [|x a IH]; intros [|y b]; simpl;
    try reflexivity.
  rewrite IH. reflexivity.
Qed.


Lemma labels_filter (p : str -> bool) (l : list (str * list cell)) :
  List.map fst (filter (fun c => p (fst c)) l) = filter p (List.map fst l).
Proof.
  induction l as [|[k w] l IH]; cbn [filter List.map fst]; [reflexivity|].
  destruct (p k); cbn [List.map fst]; rewrite IH; reflexivity.
Qed.

Lemma T1_neq_T2 : DEBE_CLEAN <> HABER_CLEAN.
Proof. intros H. vm_compute in H. discriminate H. Qed.

Lemma T1_neq_IMPORTE : DEBE_CLEAN <> IMPORTE.
Proof. intros H. vm_compute in H. discriminate H. Qed.

Lemma T2_neq_IMPORTE : HABER_CLEAN <> IMPORTE.
Proof. intros H. vm_compute in H. discriminate H. Qed.

Lemma kept_true (d c x : str) :
  kept d c x = true <->
  x <> DEBE_CLEAN /\ x <> HABER_CLEAN /\ x <> d /\ x <> c.
Proof.
  unfold kept. rewrite negb_true_iff, mem_not_In. unfold dropped. simpl.
  intuition congruence.
Qed.

Lemma apply_debe_haber_result (df : DataFrame) (d c : str) (vd vc : list cell) :
  lookup d (cols df) = Some vd -> lookup c (cols df) = Some vc ->
  apply_debe_haber df d c =
  Ok (mkFrame (nrows df)
        (filter (fun col => kept d c (fst col)) (cols (merged df c vd vc)))).
Proof.
  intros Hd Hc. unfold apply_debe_haber.
  rewrite (column_lookup _ _ _ Hd). cbn [bind].
  rewrite apply_clean_cell. cbn [bind].
  set (v1 := List.map (fun v => CFloat (cleaned_value v)) vd).
  assert (Hc1 : lookup c (cols (assign df DEBE_CLEAN v1))
                = Some (credit_read c vd vc)).
  { unfold credit_read. destruct (str_eqb c DEBE_CLEAN) eqn:E.
    - apply str_eqb_eq in E. subst c. apply assign_lookup_same.
    - apply str_eqb_neq in E. rewrite assign_lookup_other by assumption.
      exact Hc. }
  rewrite (column_lookup _ _ _ Hc1). cbn [bind].
  rewrite apply_clean_cell. cbn [bind].
  set (v2 := List.map (fun v => CFloat (cleaned_value v)) (credit_read c vd vc)).
  set (df2 := assign (assign df DEBE_CLEAN v1) HABER_CLEAN v2).
  assert (Ha : lookup DEBE_CLEAN (cols df2) = Some v1).
  { unfold df2. rewrite assign_lookup_other by exact T1_neq_T2.
    apply assign_lookup_same. }
  assert (Hb : lookup HABER_CLEAN (cols df2) = Some v2)
    by apply assign_lookup_same.
  rewrite (column_lookup _ _ _ Ha). cbn [bind].
  rewrite (column_lookup _ _ _ Hb). cbn [bind].
  assert (Hs : series_sub v1 v2 = Ok (amounts c vd vc)).
  { unfold v1, v2.
    rewrite <- (map_map cleaned_value CFloat vd).
    rewrite <- (map_map cleaned_value CFloat (credit_read c vd vc)).
    apply series_sub_floats. }
  rewrite Hs. cbn [bind].
  change (assign df2 IMPORTE (amounts c vd vc)) with (merged df c vd vc).
  unfold drop.
  assert (All : forallb (fun l => mem l (columns (merged df c vd vc)))
                  [DEBE_CLEAN; HABER_CLEAN; d; c] = true).
  { assert (In d (columns df)) by (apply mem_In, lookup_mem; eauto).
    assert (In c (columns df)) by (apply mem_In, lookup_mem; eauto).
    cbn [forallb]. unfold merged.
    repeat (apply andb_true_iff; split); try reflexivity;
      apply mem_In; rewrite !assign_In; auto. }
  rewrite All. unfold merged at 1. rewrite !assign_nrows. reflexivity.
Qed.

End FrameFacts.

(* ================================================================== *)
(** * The debit/credit merge *)

Section Merge.
Import PyStr PyFloat Frame DataNormalizer Spec Examples.

Lemma wf_lookup_length (df : DataFrame) (c : str) (v : list cell) :
  wf df -> lookup c (cols df) = Some v -> List.length v = nrows df.
Proof.
  intros [_ W] H. apply lookup_In in H.
  rewrite Forall_forall in W. exact (W _ H).
Qed.

Lemma labels_after_filter (p : str -> bool) (x : str) (l : list (str * list cell)) :
  In x (List.map fst (filter (fun c => p (fst c)) l)) -> p x = true.
Proof.
  rewrite labels_filter, filter_In. tauto.
Qed.

Lemma nth_error_amounts (c : str) (vd vc : list cell) (i : nat) (a b : cell) :
  c <> DEBE_CLEAN ->
  nth_error vd i = Some a -> nth_error vc i = Some b ->
  nth_error (amounts c vd vc) i =
  Some (CFloat (fsub (cleaned_value a) (cleaned_value b))).
Proof.
  intros N Ha Hb. unfold amounts, credit_read.
  apply str_eqb_neq in N. rewrite N.
  revert i Ha Hb. revert vc.
  induction vd as [|x vd IH]; intros vc [|i] Ha Hb; try discriminate;
    destruct vc as [|y vc]; try discriminate; simpl in *.
  - inversion Ha; inversion Hb; subst. reflexivity.
  - apply IH; assumption.
Qed.

(** C5, as the code has it.  For every well-formed table that contains
    the debit column [d] and the credit column [c], where neither of them
    is labelled 'importe' and [c] is not labelled 'debe_clean',
    [apply_debe_haber] returns a table with the same number of rows in
    which every row has an 'importe' equal to [clean_numeric] of its debit
    cell minus [clean_numeric] of its credit cell, and in which the debit
    column, the credit column and the two intermediate columns are
    absent.  The rows {debe: "100", haber: "0"} and {debe: "0", haber:
    "50"} get the amounts 100.0 and -50.0. *)
Theorem apply_debe_haber_amount :
  (forall (df : DataFrame) (d c : str),
     wf df -> In d (columns df) -> In c (columns df) ->
     d <> IMPORTE -> c <> IMPORTE -> c <> DEBE_CLEAN ->
     exists out,
       apply_debe_haber df d c = Ok out /\
       nrows out = nrows df /\
       (forall i, (i < nrows df)%nat ->
          exists vd vc x y,
            at_ df i d = Some vd /\ at_ df i c = Some vc /\
            clean_numeric vd = Ok x /\ clean_numeric vc = Ok y /\
            at_ out i IMPORTE = Some (CFloat (fsub x y))) /\
       ~ In d (columns out) /\ ~ In c (columns out) /\
       ~ In DEBE_CLEAN (columns out) /\ ~ In HABER_CLEAN (columns out)) /\
  apply_debe_haber ledger (py "debe") (py "haber") =
    Ok (mkFrame 2 [(IMPORTE, [CFloat (lit 100.0); CFloat (lit (-50.0))])]).
Proof.
  split; [|vm_compute; reflexivity].
  intros df d c W Hd Hc Nd Nc Nt.
  destruct (lookup_In_columns _ _ Hd) as [vd Ld].
  destruct (lookup_In_columns _ _ Hc) as [vc Lc].
  rewrite (apply_debe_haber_result df d c vd vc Ld Lc).
  eexists; split; [reflexivity|]. cbn [nrows cols].
  split; [reflexivity|]. split.
  - intros i Hi.
    pose proof (wf_lookup_length _ _ _ W Ld) as Ed.
    pose proof (wf_lookup_length _ _ _ W Lc) as Ec.
    destruct (nth_error vd i) as [a|] eqn:Ha;
      [|apply nth_error_None in Ha; lia].
    destruct (nth_error vc i) as [b|] eqn:Hb;
      [|apply nth_error_None in Hb; lia].
    exists a, b, (cleaned_value a), (cleaned_value b).
    unfold at_. rewrite Ld, Lc. cbn [cols].
    repeat split; try assumption; try apply clean_numeric_value.
    rewrite (lookup_filter IMPORTE (kept d c)).
    assert (K : kept d c IMPORTE = true).
    { apply kept_true. repeat split; try congruence.
      - intros E. exact (T1_neq_IMPORTE (eq_sym E)).
      - intros E. exact (T2_neq_IMPORTE (eq_sym E)). }
    rewrite K. unfold merged. rewrite assign_lookup_same.
    apply nth_error_amounts; assumption.
  - unfold columns. cbn [cols].
    repeat split; intros H; apply labels_after_filter in H;
      apply kept_true in H; intuition congruence.
Qed.

Lemma apply_debe_haber_amount_witness :
  exists out,
    apply_debe_haber ledger (py "debe") (py "haber") = Ok out /\
    nrows out = nrows ledger /\
    (forall i, (i < nrows ledger)%nat ->
       exists vd vc x y,
         at_ ledger i (py "debe") = Some vd /\
         at_ ledger i (py "haber") = Some vc /\
         clean_numeric vd = Ok x /\ clean_numeric vc = Ok y /\
         at_ out i IMPORTE = Some (CFloat (fsub x y))) /\
    ~ In (py "debe") (columns out) /\ ~ In (py "haber") (columns out) /\
    ~ In DEBE_CLEAN (columns out) /\ ~ In HABER_CLEAN (columns out).
Proof.
  apply (proj1 apply_debe_haber_amount ledger (py "debe") (py "haber")).
  - split.
    + repeat constructor; simpl; intuition discriminate.
    + repeat constructor.
  - simpl; auto.
  - simpl; auto.
  - intros H; vm_compute in H; discriminate H.
  - intros H; vm_compute in H; discriminate H.
  - intros H; vm_compute in H; discriminate H.
Defined.

(** C5 as stated fails where the labels clash with the names the function
    uses itself. *)
Lemma apply_debe_haber_amount_counterexample :
  apply_debe_haber ledger_scratch_credit (py "debe") (py "debe_clean") =
    Ok (mkFrame 1 [(IMPORTE, [CFloat (lit 0.0)])]) /\
  fsub (lit 100.0) (lit 30.0) = lit 70.0 /\
  lit 0.0 <> lit 70.0 /\
  apply_debe_haber ledger_importe_debit (py "importe") (py "haber") =
    Ok (mkFrame 1 []).
Proof.
  split; [vm_compute; reflexivity|].
  split; [vm_compute; reflexivity|].
  split; [|vm_compute; reflexivity].
  intros H. vm_compute in H. discriminate H.
Qed.

Lemma kept_scratch (d c : str) :
  kept d c DEBE_CLEAN = false /\ kept d c HABER_CLEAN = false.
Proof.
  unfold kept, dropped, mem. cbn [existsb].
  rewrite !str_eqb_refl. rewrite orb_true_r. split; reflexivity.
Qed.

Lemma filter_assign_dropped (p : str -> bool) (df : DataFrame) (t : str)
    (v : list cell) :
  p t = false ->
  filter p (columns (assign df t v)) = filter p (columns df).
Proof.
  intros H. rewrite assign_columns. destruct (mem t (columns df)); [reflexivity|].
  rewrite filter_app. cbn [filter]. rewrite H. apply app_nil_r.
Qed.

Lemma mem_assign_other (df : DataFrame) (t x : str) (v : list cell) :
  x <> t -> mem x (columns (assign df t v)) = mem x (columns df).
Proof.
  intros N. destruct (mem x (columns df)) eqn:M.
  - apply mem_In. apply assign_In. left. apply mem_In. exact M.
  - apply mem_not_In. rewrite assign_In. apply mem_not_In in M. tauto.
Qed.

(** C10, as the code has it.  For every well-formed table that contains
    the debit column [d] and the credit column [c], [apply_debe_haber]
    keeps the number of rows, and every column other than [d], [c],
    'importe' and the two labels 'debe_clean' and 'haber_clean' that the
    function uses for its intermediate columns keeps its cells.  The
    labels of the result are those of the table without the dropped ones,
    with 'importe' added at the end only when the table had no such
    column: they stay distinct, and an 'importe' column that was there
    (and is neither [d] nor [c]) holds the computed amounts. *)
Theorem apply_debe_haber_frame (df : DataFrame) (d c : str) :
  wf df -> In d (columns df) -> In c (columns df) ->
  exists out,
    apply_debe_haber df d c = Ok out /\
    nrows out = nrows df /\
    (forall x, x <> d -> x <> c -> x <> IMPORTE ->
               x <> DEBE_CLEAN -> x <> HABER_CLEAN ->
               lookup x (cols out) = lookup x (cols df)) /\
    columns out =
      filter (kept d c) (columns df)
        ++ (if mem IMPORTE (columns df) then [] else [IMPORTE]) /\
    NoDup (columns out) /\
    (d <> IMPORTE -> c <> IMPORTE ->
     exists vd vc,
       lookup d (cols df) = Some vd /\ lookup c (cols df) = Some vc /\
       lookup IMPORTE (cols out) = Some (amounts c vd vc)).
Proof.
  intros W Hd Hc.
  destruct (lookup_In_columns _ _ Hd) as [vd Ld].
  destruct (lookup_In_columns _ _ Hc) as [vc Lc].
  rewrite (apply_debe_haber_result df d c vd vc Ld Lc).
  eexists; split; [reflexivity|]. cbn [nrows cols].
  split; [reflexivity|].
  assert (Cols : List.map fst
            (filter (fun col => kept d c (fst col)) (cols (merged df c vd vc)))
          = filter (kept d c) (columns df)
              ++ (if mem IMPORTE (columns df) then [] else [IMPORTE])).
  { rewrite labels_filter. fold (columns (merged df c vd vc)).
    unfold merged. rewrite assign_columns.
    rewrite !mem_assign_other
      by (intros E; first [exact (T1_neq_IMPORTE (eq_sym E))
                          | exact (T2_neq_IMPORTE (eq_sym E))]).
    destruct (kept_scratch d c) as [K1 K2].
    destruct (mem IMPORTE (columns df)) eqn:M.
    - rewrite !filter_assign_dropped by assumption.
      symmetry; apply app_nil_r.
    - rewrite filter_app, !filter_assign_dropped by assumption.
      cbn [filter].
      assert (K : kept d c IMPORTE = true).
      { apply mem_not_In in M. apply kept_true. repeat split.
        - intros E. exact (T1_neq_IMPORTE (eq_sym E)).
        - intros E. exact (T2_neq_IMPORTE (eq_sym E)).
        - intros E. subst d. contradiction.
        - intros E. subst c. contradiction. }
      rewrite K. reflexivity. }
  split; [|split; [|split]].
  - intros x N1 N2 N3 N4 N5.
    rewrite (lookup_filter x (kept d c)).
    assert (K : kept d c x = true) by (apply kept_true; auto).
    rewrite K. unfold merged. rewrite !assign_lookup_other by assumption.
    reflexivity.
  - exact Cols.
  - unfold columns at 1. cbn [cols]. rewrite Cols.
    destruct W as [ND _].
    destruct (mem IMPORTE (columns df)) eqn:M.
    + rewrite app_nil_r. apply NoDup_filter. exact ND.
    + apply mem_not_In in M. apply NoDup_app.
      * apply NoDup_filter. exact ND.
      * constructor; [simpl; tauto | constructor].
      * intros x Hx [E|[]]. subst x. apply filter_In in Hx. tauto.
  - intros Nd Nc. exists vd, vc. repeat split; try assumption.
    rewrite (lookup_filter IMPORTE (kept d c)).
    assert (K : kept d c IMPORTE = true).
    { apply kept_true. repeat split; try congruence.
      - intros E. exact (T1_neq_IMPORTE (eq_sym E)).
      - intros E. exact (T2_neq_IMPORTE (eq_sym E)). }
    rewrite K. unfold merged. apply assign_lookup_same.
Qed.

Lemma apply_debe_haber_frame_witness :
  exists out,
    apply_debe_haber ledger (py "debe") (py "haber") = Ok out /\
    nrows out = nrows ledger /\
    (forall x, x <> py "debe" -> x <> py "haber" -> x <> IMPORTE ->
               x <> DEBE_CLEAN -> x <> HABER_CLEAN ->
               lookup x (cols out) = lookup x (cols ledger)) /\
    columns out =
      filter (kept (py "debe") (py "haber")) (columns ledger)
        ++ (if mem IMPORTE (columns ledger) then [] else [IMPORTE]) /\
    NoDup (columns out) /\
    (py "debe" <> IMPORTE -> py "haber" <> IMPORTE ->
     exists vd vc,
       lookup (py "debe") (cols ledger) = Some vd /\
       lookup (py "haber") (cols ledger) = Some vc /\
       lookup IMPORTE (cols out) = Some (amounts (py "haber") vd vc)).
Proof.
  apply (apply_debe_haber_frame ledger (py "debe") (py "haber")).
  - split.
    + repeat constructor; simpl; intuition discriminate.
    + repeat constructor.
  - simpl; auto.
  - simpl; auto.
Defined.

(** C10 as stated fails for a column that bears one of the two scratch
    labels: it is overwritten and then dropped. *)
Lemma apply_debe_haber_frame_counterexample :
  lookup (py "haber_clean") (cols ledger_scratch_other)
    = Some [CStr (py "checked")] /\
  apply_debe_haber ledger_scratch_other (py "debe") (py "haber") =
    Ok (mkFrame 1 [(IMPORTE, [CFloat (lit 70.0)])]) /\
  lookup (py "haber_clean") [(IMPORTE, [CFloat (lit 70.0)])] = None.
Proof.
  split; [vm_compute; reflexivity|].
  split; vm_compute; reflexivity.
Qed.
End Merge.

(* ================================================================== *)
(** * Unpivot *)

Section Unpivot.
Import PyStr PyFloat Frame DataNormalizer Spec Examples.
Open Scope nat_scope.

Lemma mapM_ok {A B : Type} (f : A -> result B) (g : A -> B) (l : list A) :
  (forall x, In x l -> f x = Ok (g x)) -> mapM f l = Ok (List.map g l).
Proof.
  induction l as [|a l IH]; intros H; simpl; [reflexivity|].
  rewrite (H a (or_introl eq_refl)). cbn [bind].
  rewrite IH by (intros x Hx; apply H; right; exact Hx). reflexivity.
Qed.

Lemma filter_neq_notin (x : str) (l : list str) :
  ~ In x l -> filter (fun y => negb (str_eqb x y)) l = l.
Proof.
  induction l as [|y l IH]; intros H; simpl; [reflexivity|].
  destruct (str_eqb x y) eqn:E.
  - apply str_eqb_eq in E. subst y. exfalso. apply H. left. reflexivity.
  - simpl. rewrite IH; [reflexivity|]. intros Hx. apply H. right. exact Hx.
Qed.

Lemma unique_NoDup (l : list str) : NoDup l -> unique l = l.
Proof.
  induction 1 as [|x l Hx ND IH]; simpl; [reflexivity|].
  rewrite IH, filter_neq_notin by assumption. reflexivity.
Qed.

Lemma column_values_ok (df : DataFrame) (c : str) :
  In c (columns df) -> column df c = Ok (column_values df c).
Proof.
  intros H. destruct (lookup_In_columns _ _ H) as [v L].
  unfold column, column_values. rewrite L. reflexivity.
Qed.

Lemma column_values_length (df : DataFrame) (c : str) :
  wf df -> In c (columns df) -> List.length (column_values df c) = nrows df.
Proof.
  intros W H. destruct (lookup_In_columns _ _ H) as [v L].
  unfold column_values. rewrite L. exact (wf_lookup_length _ _ _ W L).
Qed.

Lemma id_columns_In (df : DataFrame) (ys : list str) (c : str) :
  In c (id_columns df ys) <-> In c (columns df) /\ ~ In c ys.
Proof.
  unfold id_columns. rewrite filter_In, negb_true_iff, mem_not_In. tauto.
Qed.

Lemma replace_column_app (c : str) (v w : list cell)
    (l r : list (str * list cell)) :
  ~ In c (List.map fst l) ->
  replace_column c v (l ++ (c, w) :: r) = l ++ (c, v) :: r.
Proof.
  induction l as [|[k u] l IH]; intros H; simpl.
  - rewrite str_eqb_refl. reflexivity.
  - destruct (str_eqb c k) eqn:E.
    + apply str_eqb_eq in E. subst k. exfalso. apply H. left. reflexivity.
    + rewrite IH; [reflexivity|]. intros Hc. apply H. right. exact Hc.
Qed.

Lemma lookup_app_miss (c : str) (l r : list (str * list cell)) :
  ~ In c (List.map fst l) -> lookup c (l ++ r) = lookup c r.
Proof.
  intros H. rewrite lookup_app.
  apply mem_not_In, lookup_none in H. rewrite H. reflexivity.
Qed.

(** The frame that [unpivot_years] returns. *)
Lemma unpivot_years_result (df : DataFrame) (concept_col : str)
    (ys : list str) :
  NoDup ys -> incl ys (columns df) ->
  ~ In ANO (columns df) -> ~ In IMPORTE (columns df) ->
  unpivot_years df concept_col ys =
  Ok (mkFrame (nrows df * List.length ys)
        (List.map (fun c => (c, tile (List.length ys) (column_values df c)))
                  (id_columns df ys)
         ++ [(ANO, List.map (str_replace_cell (chr "a") [])
                     (List.concat
                        (List.map (fun y => List.repeat (CStr y) (nrows df)) ys)));
             (IMPORTE, List.map (fun v => CFloat (cleaned_value v))
                         (List.concat (List.map (column_values df) ys)))])).
Proof.
  intros ND Incl NA NI. unfold unpivot_years. fold (id_columns df ys).
  unfold melt.
  apply mem_not_In in NI. rewrite NI.
  assert (All : forallb (fun c => mem c (columns df)) (id_columns df ys ++ ys)
                = true).
  { apply forallb_forall. intros c Hc. apply mem_In.
    apply in_app_iff in Hc. destruct Hc as [Hc|Hc].
    - apply id_columns_In in Hc. tauto.
    - apply Incl. exact Hc. }
  rewrite All. cbn [negb]. rewrite (unique_NoDup ys ND).
  rewrite (mapM_ok _ (fun c => (c, tile (List.length ys) (column_values df c)))).
  2:{ intros c Hc. apply id_columns_In in Hc.
      rewrite column_values_ok by tauto. reflexivity. }
  cbn [bind].
  rewrite (mapM_ok _ (column_values df)).
  2:{ intros c Hc. apply column_values_ok. apply Incl. exact Hc. }
  cbn [bind].
  assert (NAid : ~ In ANO (id_columns df ys))
    by (intros H; apply id_columns_In in H; tauto).
  assert (M : mem ANO (id_columns df ys) = false) by (apply mem_not_In; exact NAid).
  rewrite M.
  set (ids := List.map (fun c => (c, tile (List.length ys) (column_values df c)))
                (id_columns df ys)).
  assert (Lids : List.map fst ids = id_columns df ys).
  { unfold ids. rewrite map_map. cbn [fst]. apply map_id. }
  set (anos := List.concat (List.map (fun y => List.repeat (CStr y) (nrows df)) ys)).
  set (vals := List.concat (List.map (column_values df) ys)).
  unfold column at 1. cbn [cols].
  rewrite lookup_app_miss by (rewrite Lids; exact NAid).
  cbn [lookup]. rewrite str_eqb_refl. cbn [bind].
  set (anos' := List.map (str_replace_cell (chr "a") []) anos).
  set (n := nrows df * List.length ys).
  assert (A1 : assign (mkFrame n (ids ++ [(ANO, anos); (IMPORTE, vals)])) ANO anos'
               = mkFrame n (ids ++ [(ANO, anos'); (IMPORTE, vals)])).
  { unfold assign, columns. cbn [cols nrows].
    assert (MA : mem ANO (List.map fst (ids ++ [(ANO, anos); (IMPORTE, vals)])) = true).
    { apply mem_In. rewrite map_app, in_app_iff. right. left. reflexivity. }
    rewrite MA. rewrite replace_column_app by (rewrite Lids; exact NAid).
    reflexivity. }
  rewrite A1. clear A1.
  assert (NIid : ~ In IMPORTE (List.map fst ids)).
  { rewrite Lids. intros H. apply id_columns_In in H.
    apply mem_not_In in NI. tauto. }
  assert (NE : str_eqb IMPORTE ANO = false) by (vm_compute; reflexivity).
  unfold column. cbn [cols].
  rewrite lookup_app_miss by exact NIid.
  cbn [lookup]. rewrite NE, str_eqb_refl. cbn [bind].
  rewrite apply_clean_cell. cbn [bind].
  f_equal.
  unfold assign, columns. cbn [cols nrows].
  assert (MI : mem IMPORTE (List.map fst (ids ++ [(ANO, anos'); (IMPORTE, vals)])) = true).
  { apply mem_In. rewrite map_app, in_app_iff. right. right. left. reflexivity. }
  rewrite MI. f_equal.
  replace (ids ++ [(ANO, anos'); (IMPORTE, vals)])
    with ((ids ++ [(ANO, anos')]) ++ (IMPORTE, vals) :: [])
    by (rewrite <- app_assoc; reflexivity).
  rewrite replace_column_app.
  2:{ rewrite map_app, in_app_iff. intros [H|[H|[]]].
      - exact (NIid H).
      - cbn [fst] in H. rewrite H in NE. rewrite str_eqb_refl in NE.
        discriminate NE. }
  rewrite <- app_assoc. reflexivity.
Qed.


Lemma concat_uniform_length {A : Type} (ls : list (list A)) (n : nat) :
  Forall (fun l => List.length l = n) ls ->
  List.length (List.concat ls) = List.length ls * n.
Proof.
  induction 1 as [|l ls Hl _ IH]; simpl; [reflexivity|].
  rewrite length_app, IH, Hl. reflexivity.
Qed.

Lemma nth_concat_uniform {A : Type} (ls : list (list A)) (n j i : nat) (d : A) :
  Forall (fun l => List.length l = n) ls ->
  j < List.length ls -> i < n ->
  nth (j * n + i) (List.concat ls) d = nth i (nth j ls []) d.
Proof.
  intros F. revert j. induction F as [|l ls Hl _ IH]; intros j Hj Hi.
  - simpl in Hj. lia.
  - destruct j as [|j]; simpl.
    + apply app_nth1. lia.
    + rewrite <- Hl at 1. rewrite <- Nat.add_assoc, app_nth2_plus.
      apply IH; [simpl in Hj; lia | assumption].
Qed.

Lemma nth_map_lt {A B : Type} (f : A -> B) (l : list A) (i : nat) (d : B) (d' : A) :
  i < List.length l -> nth i (List.map f l) d = f (nth i l d').
Proof.
  intros H. rewrite (nth_indep _ d (f d')) by (rewrite length_map; exact H).
  apply map_nth.
Qed.

Lemma nth_repeat_lt {A : Type} (a d : A) (n i : nat) :
  i < n -> nth i (List.repeat a n) d = a.
Proof.
  revert i. induction n as [|n IH]; intros [|i] H; simpl; try lia; [reflexivity|].
  apply IH. lia.
Qed.

Lemma nth_tile {A : Type} (v : list A) (n k j i : nat) (d : A) :
  List.length v = n -> j < k -> i < n ->
  nth (j * n + i) (tile k v) d = nth i v d.
Proof.
  intros Hv Hj Hi. unfold tile.
  rewrite (nth_concat_uniform _ n).
  - rewrite nth_repeat_lt by assumption. reflexivity.
  - apply Forall_forall. intros l Hl. apply repeat_spec in Hl. subst l. exact Hv.
  - rewrite repeat_length. exact Hj.
  - exact Hi.
Qed.

Lemma cell_at_nth (df : DataFrame) (i : nat) (c : str) :
  cell_at df i c = nth i (column_values df c) missing.
Proof.
  unfold cell_at, at_, column_values.
  destruct (lookup c (cols df)) as [v|]; [|destruct i; reflexivity].
  revert i. induction v as [|x v IH]; intros [|i]; simpl; try reflexivity.
  apply IH.
Qed.

Lemma amount_of_value (v : cell) : amount_of v = CFloat (cleaned_value v).
Proof. unfold amount_of. rewrite clean_numeric_value. reflexivity. Qed.

(** On a year-like label, removing every [a] strips the leading letter. *)
Lemma year_without_a_year_of (y : str) :
  year_pattern_match y = true -> year_without_a y = year_of y.
Proof.
  assert (D : forall c, is_decimal c = true -> char_eqb (chr "a") c = false).
  { intros c Hc. unfold char_eqb. destruct (N.eqb_spec (chr "a") c) as [E|E];
      [|reflexivity].
    subst c. vm_compute in Hc. discriminate Hc. }
  assert (R4 : forall d1 d2 d3 d4 tl,
             is_decimal d1 && is_decimal d2 && is_decimal d3 && is_decimal d4 = true ->
             replace (chr "a") [] (d1 :: d2 :: d3 :: d4 :: tl)
             = d1 :: d2 :: d3 :: d4 :: replace (chr "a") [] tl).
  { intros d1 d2 d3 d4 tl H.
    apply andb_true_iff in H. destruct H as [H H4].
    apply andb_true_iff in H. destruct H as [H H3].
    apply andb_true_iff in H. destruct H as [H1 H2].
    cbn [replace]. rewrite !D by assumption. reflexivity. }
  unfold year_pattern_match, year_without_a, year_of.
  destruct y as [|x r]; [discriminate|].
  destruct (N.eqb_spec x 97) as [E|E].
  - subst x. change (is_decimal 97%N) with false. cbn iota.
    change (replace (chr "a") [] (97%N :: r)) with (replace (chr "a") [] r).
    destruct r as [|d1 [|d2 [|d3 [|d4 [|nl [|z r]]]]]]; try discriminate.
    + intros H. rewrite R4 by assumption. reflexivity.
    + intros H. apply andb_true_iff in H. destruct H as [H Hn].
      rewrite R4 by assumption. apply N.eqb_eq in Hn. subst nl. reflexivity.
  - destruct r as [|d2 [|d3 [|d4 [|nl [|z r]]]]]; try discriminate.
    + intros H. rewrite R4 by assumption.
      apply andb_true_iff in H. destruct H as [H _].
      apply andb_true_iff in H. destruct H as [H _].
      apply andb_true_iff in H. destruct H as [H _].
      rewrite H. reflexivity.
    + intros H. apply andb_true_iff in H. destruct H as [H Hn].
      rewrite R4 by assumption. apply N.eqb_eq in Hn. subst nl.
      apply andb_true_iff in H. destruct H as [H _].
      apply andb_true_iff in H. destruct H as [H _].
      apply andb_true_iff in H. destruct H as [H _].
      rewrite H. reflexivity.
Qed.

(** C4, as the code has it.  For every well-formed table with [n] rows
    that has no column labelled 'año' or 'importe', and every list of [k]
    distinct year columns of the table, [unpivot_years] returns exactly
    [n * k] rows under the id columns followed by 'año' and 'importe'.
    The rows come year column by year column: row [j * n + i] carries the
    id cells of source row [i], the label of year column [j] with every
    [a] removed, and [clean_numeric] of the cell of row [i] in year column
    [j].  On a year-like label, removing every [a] strips the leading
    letter. *)
Theorem unpivot_years_rows :
  (forall (df : DataFrame) (concept_col : str) (year_cols : list str),
     wf df -> NoDup year_cols -> incl year_cols (columns df) ->
     ~ In ANO (columns df) -> ~ In IMPORTE (columns df) ->
     exists out,
       unpivot_years df concept_col year_cols = Ok out /\
       nrows out = nrows df * List.length year_cols /\
       columns out = id_columns df year_cols ++ [ANO; IMPORTE] /\
       forall j i, j < List.length year_cols -> i < nrows df ->
         row out (j * nrows df + i) =
         long_row year_without_a df year_cols i (nth j year_cols [])) /\
  (forall y, year_pattern_match y = true -> year_without_a y = year_of y).
Proof.
  split; [|exact year_without_a_year_of].
  intros df concept_col ys W ND Incl NA NI.
  rewrite (unpivot_years_result df concept_col ys ND Incl NA NI).
  eexists. split; [reflexivity|]. cbn [nrows].
  split; [reflexivity|]. split.
  - unfold columns. cbn [cols]. rewrite map_app, map_map. cbn [fst List.map].
    rewrite map_id. reflexivity.
  - intros j i Hj Hi. unfold row, long_row. cbn [cols].
    rewrite map_app, map_map. cbn [snd List.map]. f_equal.
    + apply map_ext_in. intros c Hc. apply id_columns_In in Hc.
      rewrite cell_at_nth. apply nth_tile; try assumption.
      apply column_values_length; tauto.
    + assert (Hy : In (nth j ys []) ys) by (apply nth_In; exact Hj).
      f_equal; [|f_equal].
      * rewrite (nth_map_lt _ _ _ _ missing).
        2:{ rewrite (concat_uniform_length _ (nrows df)).
            - rewrite length_map. nia.
            - apply Forall_forall. intros l Hl. apply in_map_iff in Hl.
              destruct Hl as [y [<- _]]. apply repeat_length. }
        rewrite (nth_concat_uniform _ (nrows df)).
        -- rewrite (nth_map_lt (fun y => List.repeat (CStr y) (nrows df))
                      ys j [] []) by exact Hj.
           rewrite nth_repeat_lt by exact Hi. reflexivity.
        -- apply Forall_forall. intros l Hl. apply in_map_iff in Hl.
           destruct Hl as [y [<- _]]. apply repeat_length.
        -- rewrite length_map. exact Hj.
        -- exact Hi.
      * assert (F : Forall (fun l => List.length l = nrows df)
                      (List.map (column_values df) ys)).
        { apply Forall_forall. intros l Hl. apply in_map_iff in Hl.
          destruct Hl as [y [<- Hin]]. apply column_values_length; auto. }
        rewrite (nth_map_lt _ _ _ _ missing).
        2:{ rewrite (concat_uniform_length _ (nrows df)) by exact F.
            rewrite length_map. nia. }
        rewrite (nth_concat_uniform _ (nrows df)); try assumption.
        2:{ rewrite length_map. exact Hj. }
        rewrite (nth_map_lt (column_values df) ys j [] []) by exact Hj.
        rewrite amount_of_value, cell_at_nth. reflexivity.
Qed.

Lemma unpivot_years_rows_witness :
  exists out,
    unpivot_years two_by_two (py "concepto") [py "a2020"; py "a2021"] = Ok out /\
    nrows out = nrows two_by_two * 2 /\
    columns out = id_columns two_by_two [py "a2020"; py "a2021"] ++ [ANO; IMPORTE] /\
    forall j i, j < 2 -> i < nrows two_by_two ->
      row out (j * nrows two_by_two + i) =
      long_row year_without_a two_by_two [py "a2020"; py "a2021"] i
               (nth j [py "a2020"; py "a2021"] []).
Proof.
  apply (proj1 unpivot_years_rows two_by_two (py "concepto")
           [py "a2020"; py "a2021"]).
  - split.
    + repeat constructor; simpl; intuition discriminate.
    + repeat constructor.
  - repeat constructor; simpl; intuition discriminate.
  - intros y [<-|[<-|[]]]; simpl; auto.
  - intros H. vm_compute in H. intuition discriminate.
  - intros H. vm_compute in H. intuition discriminate.
Defined.

(** C4 as stated fails on the order of the rows, and on a year column
    whose leading letter is not [a]. *)
Lemma unpivot_years_rows_counterexample :
  (exists out,
     unpivot_years two_by_two (py "concepto") [py "a2020"; py "a2021"] = Ok out /\
     nth 1 (frame_rows out) [] =
       [CStr (py "B"); CStr (py "2020"); CFloat (lit 2.0)] /\
     nth 1 (rows_by_source_row two_by_two [py "a2020"; py "a2021"]) [] =
       [CStr (py "A"); CStr (py "2021"); CFloat (lit 3.0)] /\
     frame_rows out <> rows_by_source_row two_by_two [py "a2020"; py "a2021"]) /\
  (exists out,
     unpivot_years year_b (py "concepto") [py "b2020"] = Ok out /\
     frame_rows out = [[CStr (py "A"); CStr (py "b2020"); CFloat (lit 1.0)]] /\
     year_of (py "b2020") = py "2020").
Proof.
  split.
  - eexists. split; [vm_compute; reflexivity|].
    split; [vm_compute; reflexivity|].
    split; [vm_compute; reflexivity|].
    intros H. vm_compute in H. discriminate H.
  - eexists. split; [vm_compute; reflexivity|].
    split; vm_compute; reflexivity.
Qed.
End Unpivot.

(* ================================================================== *)
(** * The pipeline *)

Section Pipeline.
Import PyStr PyFloat Frame DataNormalizer Spec Examples.

(** C9.  [detect_format] depends on the column labels only: two tables
    with equal lists of labels get the same format, confidence and
    warnings, whatever their cells and however many rows they have. *)
Theorem detect_format_columns_only (df1 df2 : DataFrame) :
  columns df1 = columns df2 -> detect_format df1 = detect_format df2.
Proof.
  intros E. unfold detect_format, year_cols, has_concept, has_budget,
    has_actual, has_category, has_date, has_amount, has_debit, has_credit,
    has_terms, cols_lower.
  rewrite E. reflexivity.
Qed.

Lemma detect_format_columns_only_witness :
  detect_format dated_empty = detect_format dated_filled.
Proof. apply detect_format_columns_only. reflexivity. Defined.

(** C3.  [normalize] on the single row {"Concepto": "Ventas", "a2020":
    "1.000,00", "a2021": "1.500,00"} with the rules {unpivot: true,
    unpivot_year_columns: ["a2020", "a2021"]} and the mapping
    {concept_column: "concepto"} returns a result with two rows, the
    format "transactional", the columns concepto, año and importe, and the
    amounts 1000.0 and 1500.0. *)
Theorem normalize_sales_scenario :
  exists res,
    normalize sales_data (Some sales_mapping) (Some sales_rules) = Ok res /\
    rows_out res = 2%nat /\
    List.length (normalized_data res) = 2%nat /\
    format_detected res = transactional /\
    format_name (format_detected res) = py "transactional" /\
    columns_out res = [py "concepto"; py "año"; py "importe"] /\
    In CONCEPTO (columns_out res) /\
    In ANO (columns_out res) /\
    In IMPORTE (columns_out res) /\
    List.map (record_get IMPORTE) (normalized_data res) =
      [Some (CFloat (lit 1000.0)); Some (CFloat (lit 1500.0))] /\
    List.map (record_get ANO) (normalized_data res) =
      [Some (CStr (py "2020")); Some (CStr (py "2021"))] /\
    confidence res = lit 0.63.
Proof.
  eexists. split; [vm_compute; reflexivity|].
  cbn [rows_out normalized_data format_detected columns_out confidence].
  split; [reflexivity|]. split; [reflexivity|]. split; [reflexivity|].
  split; [vm_compute; reflexivity|]. split; [vm_compute; reflexivity|].
  split; [vm_compute; auto|]. split; [vm_compute; auto|].
  split; [vm_compute; auto|]. split; [vm_compute; reflexivity|].
  split; vm_compute; reflexivity.
Qed.

(** ** Steps whose preconditions fail *)

(** The debit/credit merge is requested and a mapped column is missing or
    not in the table: the table stays, a warning is appended. *)
Lemma step_debe_haber_missing (mapping : ColumnMapping)
    (rules : NormalizationRules) (st : state) :
  truthy (debe_haber rules) = true ->
  (match debit_column mapping, credit_column mapping with
   | Some d, Some c =>
       nonempty (Some d) && nonempty (Some c)
       && mem d (columns (st_df st)) && mem c (columns (st_df st))
   | _, _ => false
   end) = false ->
  step_debe_haber mapping rules st =
  Ok (mkState (st_df st) (st_warnings st ++ [WARN_DEBE_HABER_MISSING])
        (st_transformations st) (st_format st) (st_confidence st)).
Proof.
  intros R H. unfold step_debe_haber. rewrite R.
  destruct (debit_column mapping) as [d|]; [|reflexivity].
  destruct (credit_column mapping) as [c|]; [|reflexivity].
  rewrite H. reflexivity.
Qed.

(** Unpivot is requested, there are year columns, the mapping gives no
    concept column and no label contains a concept term: the table stays,
    a warning is appended. *)
Lemma step_unpivot_no_concept (mapping : ColumnMapping)
    (rules : NormalizationRules) (st : state) (y : str) (ys : list str) :
  truthy (unpivot rules) = true ->
  unpivot_year_columns rules = Some (y :: ys) ->
  nonempty (concept_column mapping) = false ->
  find (fun col => any_term_in CONCEPT_TERMS col) (columns (st_df st)) = None ->
  step_unpivot mapping rules st =
  Ok (mkState (st_df st) (st_warnings st ++ [WARN_NO_CONCEPT])
        (st_transformations st) (st_format st) (st_confidence st)).
Proof.
  intros R Y C F. unfold step_unpivot. rewrite R, Y, C, F. reflexivity.
Qed.

(** Unpivot is requested with a concept column that the table does not
    have: the step does nothing at all, and appends no warning. *)
Lemma step_unpivot_absent_concept (mapping : ColumnMapping)
    (rules : NormalizationRules) (st : state) (c : str) :
  concept_column mapping = Some c ->
  nonempty (Some c) = true ->
  mem c (columns (st_df st)) = false ->
  step_unpivot mapping rules st = Ok st.
Proof.
  intros C N M. unfold step_unpivot.
  destruct (truthy (unpivot rules)); [|reflexivity].
  rewrite C, N, M. rewrite !andb_false_r. reflexivity.
Qed.

(** C7, where the code departs from it.  With unpivot requested and a
    mapped concept column that the table does not have, [normalize]
    leaves the table as it is and runs to the end, but appends no warning
    for the step that it skipped; the same happens when no year column is
    found. *)
Theorem normalize_unpivot_silent_skip :
  (exists res,
     normalize sales_data (Some typo_mapping) (Some sales_rules) = Ok res /\
     columns_out res = [py "concepto"; py "a2020"; py "a2021"] /\
     rows_out res = 1%nat /\
     format_detected res = financial_statement /\
     warnings res = [WARN_TWO_YEARS] /\
     ~ In WARN_NO_CONCEPT (warnings res)) /\
  (exists res,
     normalize totals_data (Some default_mapping) (Some unpivot_rules) = Ok res /\
     columns_out res = [py "concepto"; py "total"] /\
     rows_out res = 1%nat /\
     warnings res = [WARN_UNKNOWN]).
Proof.
  split.
  - eexists. split; [vm_compute; reflexivity|].
    cbn [columns_out rows_out format_detected warnings].
    split; [vm_compute; reflexivity|]. split; [reflexivity|].
    split; [reflexivity|]. split; [vm_compute; reflexivity|].
    intros H. vm_compute in H. intuition discriminate.
  - eexists. split; [vm_compute; reflexivity|].
    cbn [columns_out rows_out warnings].
    split; [vm_compute; reflexivity|]. split; [reflexivity|].
    vm_compute; reflexivity.
Qed.
End Pipeline.

(* ================================================================== *)
(** * Facts about [clean] *)

Section CleanFacts.
Import PyStr PyFloat Json.

(** Induction over an object and, with it, over the members of its lists
    and dicts. *)
Lemma pyobj_induction (P : pyobj -> Prop) :
  P ONone -> (forall b, P (OBool b)) -> (forall z, P (OInt z)) ->
  (forall f, P (OFloat f)) -> (forall s, P (OStr s)) ->
  (forall l, Forall P l -> P (OList l)) ->
  (forall d, Forall (fun kv => P (snd kv)) d -> P (ODict d)) ->
  forall obj, P obj.
Proof.
  intros HN HB HI HF HS HL HD.
  fix IH 1. intros [ | b | z | f | s | l | d].
  - exact HN.
  - apply HB.
  - apply HI.
  - apply HF.
  - apply HS.
  - apply HL. induction l as [|x l IHl]; constructor; [apply IH | exact IHl].
  - apply HD. induction d as [|[k v] d IHd]; constructor; [apply IH | exact IHd].
Qed.

Lemma finite_not_nan_inf (f : pyfloat) :
  is_finite f = negb (is_nan f || is_inf f).
Proof. destruct f; reflexivity. Qed.

Lemma clean_finite (obj : pyobj) : all_finite (clean obj) = true.
Proof.
  induction obj as [ | b | z | f | s | l IH | d IH] using pyobj_induction;
    try reflexivity.
  - simpl. rewrite <- (negb_involutive (is_nan f || is_inf f)),
      <- finite_not_nan_inf.
    destruct (is_finite f) eqn:E; simpl; [rewrite E|]; reflexivity.
  - simpl. rewrite forallb_forall. intros x Hx. apply in_map_iff in Hx.
    destruct Hx as [y [<- Hy]]. rewrite Forall_forall in IH.
    apply (IH y Hy).
  - simpl. rewrite forallb_forall. intros x Hx. apply in_map_iff in Hx.
    destruct Hx as [[k v] [<- Hy]]. rewrite Forall_forall in IH.
    apply (IH (k, v) Hy).
Qed.

(** X1.  After [clean], no float of the object is NaN or infinite, at any
    depth of lists and dicts, and the object has kept its shape: the same
    keys, the same lengths, and the same members wherever they are not
    floats. *)
Theorem clean_all_finite (obj : pyobj) :
  all_finite (clean obj) = true /\ shape (clean obj) = shape obj.
Proof.
  split; [apply clean_finite|].
  induction obj as [ | b | z | f | s | l IH | d IH] using pyobj_induction;
    try reflexivity.
  - simpl. destruct (is_nan f || is_inf f); reflexivity.
  - simpl. f_equal. rewrite map_map. apply map_ext_in. intros y Hy.
    rewrite Forall_forall in IH. apply (IH y Hy).
  - simpl. f_equal. rewrite map_map. apply map_ext_in. intros [k v] Hy.
    rewrite Forall_forall in IH. f_equal. apply (IH (k, v) Hy).
Qed.

(** X2.  [clean] returns an object unchanged exactly when no float in it is
    NaN or infinite; so cleaning twice is cleaning once. *)
Theorem clean_fixed_points (obj : pyobj) :
  (clean obj = obj <-> all_finite obj = true) /\
  clean (clean obj) = clean obj.
Proof.
  assert (F : forall o, all_finite o = true -> clean o = o).
  { intros o. induction o as [ | b | z | f | s | l IH | d IH]
      using pyobj_induction; try reflexivity.
    - simpl. rewrite finite_not_nan_inf. intros H.
      apply negb_true_iff in H. rewrite H. reflexivity.
    - simpl. intros H. rewrite forallb_forall in H. f_equal.
      rewrite <- (map_id l) at 2. apply map_ext_in. intros y Hy.
      rewrite Forall_forall in IH. apply (IH y Hy), H, Hy.
    - simpl. intros H. rewrite forallb_forall in H. f_equal.
      rewrite <- (map_id d) at 2. apply map_ext_in. intros [k v] Hy.
      rewrite Forall_forall in IH. f_equal. apply (IH (k, v) Hy).
      apply (H (k, v) Hy). }
  split; [split|].
  - intros E. rewrite <- E. apply clean_finite.
  - apply F.
  - apply F. apply clean_finite.
Qed.
End CleanFacts.

(* ================================================================== *)
(** * Facts about [DataStore] *)

Section DictFacts.
Import PyStr PyDict.
Context {V : Type}.
Implicit Types (d : dict V) (k : str) (v : V).

Lemma get_set_same k v d : get k (set k v d) = Some v.
Proof.
  induction d as [|[k' v'] d IH]; simpl.
  - rewrite str_eqb_refl. reflexivity.
  - destruct (str_eqb k k') eqn:E; simpl; rewrite E; [reflexivity | exact IH].
Qed.

Lemma get_set_other k k' v d : k' <> k -> get k' (set k v d) = get k' d.
Proof.
  intros N. apply str_eqb_neq in N.
  induction d as [|[k0 v0] d IH]; simpl.
  - rewrite N. reflexivity.
  - destruct (str_eqb k k0) eqn:E; simpl.
    + apply str_eqb_eq in E. subst k0. rewrite N. reflexivity.
    + rewrite IH. reflexivity.
Qed.

Lemma get_del_same k d : get k (del k d) = None.
Proof.
  unfold del. induction d as [|[k' v'] d IH]; simpl; [reflexivity|].
  destruct (str_eqb k k') eqn:E; simpl; [exact IH|]. rewrite E. exact IH.
Qed.

Lemma get_del_other k k' d : k' <> k -> get k' (del k d) = get k' d.
Proof.
  intros N. unfold del. induction d as [|[k0 v0] d IH]; simpl; [reflexivity|].
  destruct (str_eqb k k0) eqn:E; simpl.
  - apply str_eqb_eq in E. subst k0. apply str_eqb_neq in N. rewrite N. exact IH.
  - rewrite IH. reflexivity.
Qed.

Lemma has_key_In k d : has_key k d = true <-> In k (keys d).
Proof.
  unfold has_key, keys. induction d as [|[k' v'] d IH]; simpl.
  - split; [discriminate | tauto].
  - destruct (str_eqb k k') eqn:E.
    + apply str_eqb_eq in E. subst k'. split; auto.
    + apply str_eqb_neq in E. rewrite IH. split; [auto | intros [H|H]; congruence].
Qed.

Lemma keys_set k v d :
  keys (set k v d) = if has_key k d then keys d else keys d ++ [k].
Proof.
  unfold has_key, keys. induction d as [|[k' v'] d IH]; simpl; [reflexivity|].
  destruct (str_eqb k k') eqn:E; simpl; [reflexivity|].
  rewrite IH. destruct (get k d); reflexivity.
Qed.

Lemma keys_del k d :
  keys (del k d) = filter (fun x => negb (str_eqb k x)) (keys d).
Proof.
  unfold keys, del. induction d as [|[k' v'] d IH]; simpl; [reflexivity|].
  destruct (str_eqb k k'); simpl; rewrite IH; reflexivity.
Qed.

Lemma del_absent k d : has_key k d = false -> del k d = d.
Proof.
  unfold has_key, del. induction d as [|[k' v'] d IH]; simpl; [reflexivity|].
  destruct (str_eqb k k'); simpl; [discriminate|].
  intros H. rewrite IH by exact H. reflexivity.
Qed.

Lemma NoDup_keys_set k v d : NoDup (keys d) -> NoDup (keys (set k v d)).
Proof.
  intros H. rewrite keys_set. destruct (has_key k d) eqn:E; [exact H|].
  apply NoDup_app; [exact H | repeat constructor; simpl; tauto |].
  intros x Hx [<-|[]]. apply has_key_In in Hx. congruence.
Qed.

Lemma NoDup_keys_del k d : NoDup (keys d) -> NoDup (keys (del k d)).
Proof. intros H. rewrite keys_del. apply NoDup_filter. exact H. Qed.

Lemma In_set (kv : str * V) k v d :
  In kv (set k v d) -> In kv d \/ kv = (k, v) \/ (fst kv = k /\ snd kv = v).
Proof.
  induction d as [|[k' v'] d IH]; simpl.
  - intros [<-|[]]. auto.
  - destruct (str_eqb k k') eqn:E; simpl.
    + apply str_eqb_eq in E. subst k'. intros [<-|H]; auto.
    + intros [<-|H]; auto. destruct (IH H) as [H1|H1]; auto.
Qed.
End DictFacts.

Section StoreFacts.
Import PyStr PyDict DataStore.
Context {D M R : Type}.
Implicit Types (self : store D M R).

(** X3.  [store_csv] followed by [get_csv] for the same session returns
    the stored file, data and metadata with the time of the upload; every
    other session reads as before; no analysis is touched, so those of an
    earlier upload under the same session stay readable; and the session
    is listed once, where it was when it is known and last otherwise. *)
Theorem store_csv_get self (session_id filename : str) (data : D)
    (metadata : M) (now : str) :
  let self' := store_csv self session_id filename data metadata now in
  get_csv self' session_id = Some (mkCsv filename data metadata now) /\
  (forall other, other <> session_id ->
                 get_csv self' other = get_csv self other) /\
  (forall sid atype, get_analysis self' sid atype = get_analysis self sid atype) /\
  list_sessions self' =
    (if has_key session_id (csvs self)
     then list_sessions self
     else list_sessions self ++ [session_id]).
Proof.
  cbn zeta. unfold get_csv, store_csv, list_sessions. cbn [csvs analyses].
  split; [apply get_set_same|]. split.
  - intros other N. apply get_set_other. exact N.
  - split; [reflexivity | apply keys_set].
Qed.

(** X4.  After [delete_csv] the session has no CSV, and when it had one
    it has no analysis either.  A session without a CSV is left entirely
    as it is, analyses included, and no other session is affected. *)
Theorem delete_csv_removes self (session_id : str) :
  let self' := delete_csv self session_id in
  get_csv self' session_id = None /\
  (get_csv self session_id <> None ->
   forall atype, get_analysis self' session_id atype = None) /\
  (get_csv self session_id = None -> self' = self) /\
  (forall other, other <> session_id ->
     get_csv self' other = get_csv self other /\
     forall atype, get_analysis self' other atype = get_analysis self other atype).
Proof.
  cbn zeta. unfold delete_csv, get_csv, get_analysis, has_key.
  destruct (get session_id (csvs self)) as [e|] eqn:E; cbn [csvs analyses].
  - split; [apply get_del_same|]. split.
    + intros _ atype.
      destruct (get session_id (analyses self)) eqn:A; cbn iota.
      * rewrite get_del_same. reflexivity.
      * rewrite A. reflexivity.
    + split; [discriminate|]. intros other N. split.
      * apply get_del_other. exact N.
      * intros atype. destruct (get session_id (analyses self)); cbn iota;
          [rewrite get_del_other by exact N|]; reflexivity.
  - split; [exact E|]. split; [congruence|]. split; [reflexivity|].
    intros other N. split; reflexivity.
Qed.

(** X5.  [store_analysis] followed by [get_analysis] for the same
    session and type returns the stored result with its time, whether or
    not the session has a CSV; every other analysis, every CSV and the
    list of sessions stay as they were. *)
Theorem store_analysis_get self (session_id analysis_type : str) (res : R)
    (now : str) :
  let self' := store_analysis self session_id analysis_type res now in
  get_analysis self' session_id analysis_type = Some (mkAnalysis res now) /\
  (forall sid atype, (sid, atype) <> (session_id, analysis_type) ->
     get_analysis self' sid atype = get_analysis self sid atype) /\
  (forall sid, get_csv self' sid = get_csv self sid) /\
  list_sessions self' = list_sessions self.
Proof.
  cbn zeta. unfold store_analysis, get_analysis, get_csv, list_sessions.
  cbn [csvs analyses].
  set (an := if negb (has_key session_id (analyses self)) then _ else _).
  assert (G : match get session_id an with Some d => d | None => [] end
              = match get session_id (analyses self) with
                | Some d => d | None => [] end).
  { unfold an, has_key, dict in *.
    destruct (@get (list (str * analysis_entry R)) session_id (analyses self))
      eqn:A; cbn [negb].
    - rewrite A. reflexivity.
    - rewrite get_set_same. reflexivity. }
  assert (O : forall sid, sid <> session_id ->
                get sid an = get sid (analyses self)).
  { intros sid N. unfold an. destruct (negb (has_key session_id (analyses self)));
      [apply get_set_other; exact N | reflexivity]. }
  split.
  - rewrite get_set_same. apply get_set_same.
  - split; [|split; reflexivity].
    intros sid atype N.
    destruct (str_eqb sid session_id) eqn:E.
    + apply str_eqb_eq in E. subst sid. rewrite get_set_same.
      rewrite get_set_other by congruence. rewrite G. reflexivity.
    + apply str_eqb_neq in E. rewrite get_set_other by exact E.
      rewrite O by exact E. reflexivity.
Qed.

(** X6.  The three mutators of the store keep the keys of its dicts
    distinct, so that [list_sessions] never names a session twice. *)
Theorem store_distinct_keys self :
  distinct_keys self ->
  (forall sid f (d : D) (m : M) now,
     distinct_keys (store_csv self sid f d m now)) /\
  (forall sid, distinct_keys (delete_csv self sid)) /\
  (forall sid atype (r : R) now,
     distinct_keys (store_analysis self sid atype r now)) /\
  NoDup (list_sessions self).
Proof.
  intros [H1 [H2 H3]]. split; [|split; [|split]].
  - intros. unfold distinct_keys, store_csv. cbn [csvs analyses].
    split; [apply NoDup_keys_set; exact H1 | split; assumption].
  - intros sid. unfold delete_csv.
    destruct (has_key sid (csvs self)); [|repeat split; assumption].
    unfold distinct_keys. cbn [csvs analyses].
    split; [apply NoDup_keys_del; exact H1|].
    destruct (has_key sid (analyses self)); [|split; assumption].
    split; [apply NoDup_keys_del; exact H2|].
    unfold del. rewrite Forall_forall in *. intros kv Hkv.
    apply filter_In in Hkv. apply H3. tauto.
  - intros sid atype r now. unfold distinct_keys, store_analysis.
    cbn [csvs analyses].
    set (an := if negb (has_key sid (analyses self)) then _ else _).
    assert (A2 : NoDup (keys an)).
    { unfold an. destruct (negb (has_key sid (analyses self)));
        [apply NoDup_keys_set|]; exact H2. }
    assert (A3 : Forall (fun kv => NoDup (keys (snd kv))) an).
    { unfold an. destruct (negb (has_key sid (analyses self))); [|exact H3].
      rewrite Forall_forall in *. intros kv Hkv. apply In_set in Hkv.
      destruct Hkv as [H|[->|[_ ->]]]; [apply H3; exact H | constructor..]. }
    split; [exact H1|]. split; [apply NoDup_keys_set; exact A2|].
    rewrite Forall_forall in *. intros kv Hkv. apply In_set in Hkv.
    assert (N : NoDup (keys (set atype (mkAnalysis r now)
                 match get sid an with Some d => d | None => [] end))).
    { apply NoDup_keys_set. destruct (get sid an) as [d|] eqn:G; [|constructor].
      clear - G A3.
      assert (In (sid, d) an).
      { clear A3. induction an as [|[k' v'] an IH]; simpl in *; [discriminate|].
        destruct (str_eqb sid k') eqn:E.
        - apply str_eqb_eq in E. subst k'. inversion G; auto.
        - right. apply IH. exact G. }
      exact (A3 _ H). }
    destruct Hkv as [H|[->|[_ ->]]]; [apply A3; exact H | exact N..].
  - exact H1.
Qed.

End StoreFacts.

Lemma store_distinct_keys_witness :
  let self :=
    DataStore.store_csv (@DataStore.empty (list Frame.record) unit Json.pyobj)
      (PyStr.py "default") (PyStr.py "ventas.csv") [] tt
      (PyStr.py "2024-01-31T09:00:00") in
  (forall sid f d m now,
     DataStore.distinct_keys (DataStore.store_csv self sid f d m now)) /\
  (forall sid, DataStore.distinct_keys (DataStore.delete_csv self sid)) /\
  (forall sid atype r now,
     DataStore.distinct_keys (DataStore.store_analysis self sid atype r now)) /\
  NoDup (DataStore.list_sessions self).
Proof.
  cbn zeta. apply store_distinct_keys.
  repeat split; repeat constructor; simpl; tauto.
Defined.

Section StoreWitnesses.
Import PyStr Frame Json PyDict DataStore Examples.

Lemma store_csv_get_witness :
  let self' := store_csv stocked (py "a") (py "compras.csv") [] tt (py "09:03") in
  get_csv self' (py "a") = Some (mkCsv (py "compras.csv") [] tt (py "09:03")) /\
  get_analysis self' (py "a") (py "cash_flow")
    = Some (mkAnalysis (ODict []) (py "09:01")) /\
  list_sessions self' = [py "a"].
Proof.
  cbn zeta.
  destruct (store_csv_get stocked (py "a") (py "compras.csv") [] tt (py "09:03"))
    as [A [_ [C D]]].
  split; [exact A|]. split; [rewrite C | rewrite D]; reflexivity.
Defined.

Lemma delete_csv_removes_witness :
  get_analysis (delete_csv stocked (py "a")) (py "a") (py "cash_flow") = None /\
  delete_csv stocked (py "b") = stocked /\
  get_analysis (delete_csv stocked (py "b")) (py "b") (py "cash_flow")
    = Some (mkAnalysis (ODict []) (py "09:02")).
Proof.
  destruct (delete_csv_removes stocked (py "a")) as [_ [A _]].
  destruct (delete_csv_removes stocked (py "b")) as [_ [_ [B _]]].
  split; [apply A; discriminate|].
  split; [apply B; reflexivity|].
  rewrite B by reflexivity. reflexivity.
Defined.

Lemma store_analysis_get_witness :
  let self' := store_analysis stocked (py "b") (py "yearly_summary") (ODict [])
                 (py "09:04") in
  get_analysis self' (py "b") (py "yearly_summary")
    = Some (mkAnalysis (ODict []) (py "09:04")) /\
  get_analysis self' (py "b") (py "cash_flow")
    = Some (mkAnalysis (ODict []) (py "09:02")) /\
  get_csv self' (py "b") = None.
Proof.
  cbn zeta.
  destruct (store_analysis_get stocked (py "b") (py "yearly_summary") (ODict [])
              (py "09:04")) as [A [B [C _]]].
  split; [exact A|]. split.
  - rewrite B; [reflexivity|]. intros E. vm_compute in E. discriminate E.
  - rewrite C. reflexivity.
Defined.
End StoreWitnesses.

(* ================================================================== *)
(** * Facts about the steps of [normalize] *)

Section StepFacts.
Import PyStr PyFloat Frame DataNormalizer Spec Steps Examples.

(** ** Currency symbols and white space *)

Lemma filter_lstrip (p : char -> bool) (s : str) :
  (forall c, is_space c = true -> p c = false) ->
  filter p (lstrip s) = filter p s.
Proof.
  intros H. induction s as [|c s IH]; [reflexivity|]. simpl.
  destruct (is_space c) eqn:E; [|reflexivity].
  rewrite (H c E). exact IH.
Qed.

Lemma filter_strip (p : char -> bool) (s : str) :
  (forall c, is_space c = true -> p c = false) ->
  filter p (strip s) = filter p s.
Proof.
  intros H. unfold strip, rstrip.
  rewrite filter_rev, (filter_lstrip p _ H), <- filter_rev, rev_involutive.
  apply filter_lstrip. exact H.
Qed.

Lemma strip_symbols_strip (s : str) : strip_symbols (strip s) = strip_symbols s.
Proof.
  apply filter_strip. intros c E. rewrite E, orb_true_r. reflexivity.
Qed.

Lemma clean_numeric_symbols (s : str) :
  clean_numeric (CStr s) = parse_or_zero (separators (strip_symbols s)).
Proof.
  destruct s as [|c s]; [vm_compute; reflexivity|].
  rewrite clean_numeric_unfold. cbn [isna is_empty_str orb].
  unfold numeric_text. cbn [str_of]. rewrite strip_symbols_strip. reflexivity.
Qed.

(** X7.  [clean_numeric] ignores currency symbols and white space
    wherever they stand in the text: two texts that are equal once the
    symbols [€], [$], [£] and the white space are taken out are cleaned to
    the same number. *)
Theorem clean_numeric_ignores_symbols (s t : str) :
  strip_symbols s = strip_symbols t ->
  clean_numeric (CStr s) = clean_numeric (CStr t).
Proof.
  intros E. rewrite !clean_numeric_symbols, E. reflexivity.
Qed.

Lemma clean_numeric_ignores_symbols_witness :
  clean_numeric (CStr (py " 1 234,56 € ")) = clean_numeric (CStr (py "1234,56")).
Proof.
  apply clean_numeric_ignores_symbols. vm_compute. reflexivity.
Defined.

(** ** Empty rows and columns *)


Lemma rows_of_S (n : nat) (vs : list (list cell)) :
  rows_of (S n) vs =
  List.map (fun v => nth 0 v missing) vs :: rows_of n (List.map (@tl cell) vs).
Proof.
  unfold rows_of. cbn [seq List.map]. f_equal.
  rewrite <- seq_shift, map_map. apply map_ext. intros i.
  rewrite map_map. apply map_ext. intros v. destruct v; [destruct i|]; reflexivity.
Qed.

Lemma select_length {A : Type} (mask : list bool) (v : list A) :
  List.length v = List.length mask ->
  List.length (select mask v) = List.length (filter (fun b => b) mask).
Proof.
  revert v. induction mask as [|b mask IH]; intros v H.
  - destruct v; reflexivity.
  - destruct v as [|x v]; [discriminate|]. injection H as H.
    destruct b; simpl; rewrite (IH v H); reflexivity.
Qed.

Lemma rows_of_select (mask : list bool) (vs : list (list cell)) :
  Forall (fun v => List.length v = List.length mask) vs ->
  rows_of (List.length (filter (fun b => b) mask)) (List.map (select mask) vs) =
  select mask (rows_of (List.length mask) vs).
Proof.
  revert vs. induction mask as [|b mask IH]; intros vs H.
  - reflexivity.
  - assert (T : Forall (fun v => List.length v = List.length mask)
                  (List.map (@tl cell) vs)).
    { rewrite Forall_forall in *. intros v Hv. apply in_map_iff in Hv.
      destruct Hv as [w [<- Hw]]. specialize (H w Hw).
      destruct w; [discriminate|]. simpl in *. lia. }
    cbn [List.length]. rewrite rows_of_S. destruct b; cbn [filter select].
    + cbn [List.length]. rewrite rows_of_S. f_equal.
      * rewrite map_map. apply map_ext_in. intros v Hv.
        rewrite Forall_forall in H. specialize (H v Hv).
        destruct v; [discriminate | reflexivity].
      * rewrite <- (IH _ T). f_equal. rewrite !map_map.
        apply map_ext_in. intros v Hv.
        rewrite Forall_forall in H. specialize (H v Hv).
        destruct v; [discriminate | reflexivity].
    + rewrite <- (IH _ T). f_equal. rewrite !map_map.
      apply map_ext_in. intros v Hv.
      rewrite Forall_forall in H. specialize (H v Hv).
      destruct v; [discriminate | reflexivity].
Qed.

Lemma select_map_filter {A : Type} (p : A -> bool) (l : list A) :
  select (List.map p l) l = filter p l.
Proof.
  induction l as [|x l IH]; [reflexivity|]. simpl.
  destruct (p x); rewrite IH; reflexivity.
Qed.

Lemma filter_id_map {A : Type} (p : A -> bool) (l : list A) :
  List.length (filter (fun b => b) (List.map p l)) = List.length (filter p l).
Proof.
  induction l as [|x l IH]; [reflexivity|]. simpl.
  destruct (p x); simpl; rewrite IH; reflexivity.
Qed.

Lemma select_all {A : Type} (mask : list bool) (v : list A) :
  forallb (fun b => b) mask = true -> List.length v = List.length mask ->
  select mask v = v.
Proof.
  revert v. induction mask as [|b mask IH]; intros v F H.
  - destruct v; [reflexivity | discriminate].
  - destruct v as [|x v]; [discriminate|]. simpl in F.
    apply andb_prop in F. destruct F as [-> F]. simpl. f_equal.
    apply IH; [exact F | simpl in H; lia].
Qed.

Lemma filter_all {A : Type} (p : A -> bool) (l : list A) :
  forallb p l = true -> filter p l = l.
Proof.
  induction l as [|x l IH]; [reflexivity|]. simpl. intros H.
  apply andb_prop in H. destruct H as [-> H]. rewrite (IH H). reflexivity.
Qed.


Lemma frame_rows_rows_of (df : DataFrame) :
  frame_rows df = rows_of (nrows df) (List.map snd (cols df)).
Proof.
  unfold frame_rows, rows_of, row. apply map_ext. intros i.
  rewrite map_map. reflexivity.
Qed.

Lemma row_mask_rows (df : DataFrame) :
  row_mask df = List.map has_value (frame_rows df).
Proof. unfold row_mask, frame_rows. rewrite map_map. reflexivity. Qed.

Lemma dropna_rows_unfold (df : DataFrame) :
  dropna_rows df =
  mkFrame (List.length (filter (fun b => b) (row_mask df)))
          (List.map (fun c => (fst c, select (row_mask df) (snd c))) (cols df)).
Proof. reflexivity. Qed.

Lemma row_mask_length (df : DataFrame) : List.length (row_mask df) = nrows df.
Proof. unfold row_mask. rewrite length_map, length_seq. reflexivity. Qed.

Lemma dropna_rows_wf (df : DataFrame) : wf df -> wf (dropna_rows df).
Proof.
  intros [N L]. rewrite dropna_rows_unfold. split.
  - unfold columns. cbn [cols]. rewrite map_map. exact N.
  - cbn [cols nrows]. rewrite Forall_forall in *. intros c Hc.
    apply in_map_iff in Hc. destruct Hc as [c0 [<- Hc]]. cbn [snd].
    apply select_length. rewrite row_mask_length. apply L, Hc.
Qed.

Lemma dropna_rows_rows (df : DataFrame) :
  wf df -> frame_rows (dropna_rows df) = filter has_value (frame_rows df).
Proof.
  intros [N L]. rewrite frame_rows_rows_of, dropna_rows_unfold.
  cbn [nrows cols]. rewrite map_map. cbn [snd].
  rewrite <- (map_map snd (select (row_mask df))).
  rewrite rows_of_select.
  - rewrite row_mask_length, <- frame_rows_rows_of, row_mask_rows.
    apply select_map_filter.
  - rewrite Forall_forall in *. intros v Hv. apply in_map_iff in Hv.
    destruct Hv as [c [<- Hc]]. rewrite row_mask_length. apply L, Hc.
Qed.


Lemma forallb_filter {A : Type} (p : A -> bool) (l : list A) :
  forallb p (filter p l) = true.
Proof.
  induction l as [|x l IH]; [reflexivity|]. simpl.
  destruct (p x) eqn:E; simpl; [rewrite E|]; exact IH.
Qed.

Lemma dropna_rows_full (df : DataFrame) : wf df -> full (dropna_rows df).
Proof.
  intros W. unfold full. rewrite (dropna_rows_rows df W). apply forallb_filter.
Qed.

Lemma forallb_id_map {A : Type} (p : A -> bool) (l : list A) :
  forallb (fun b => b) (List.map p l) = forallb p l.
Proof. induction l as [|x l IH]; [reflexivity|]. simpl. rewrite IH. reflexivity. Qed.

Lemma dropna_rows_fixed (df : DataFrame) :
  wf df -> full df -> dropna_rows df = df.
Proof.
  intros [N L] F. rewrite dropna_rows_unfold.
  assert (A : forallb (fun b => b) (row_mask df) = true).
  { rewrite row_mask_rows, forallb_id_map. exact F. }
  destruct df as [n cs]. f_equal.
  - rewrite (filter_all _ _ A). apply row_mask_length.
  - cbn [cols nrows] in *. rewrite <- (map_id cs) at 2.
    apply map_ext_in. intros [k v] Hc. cbn [fst snd]. f_equal.
    apply select_all; [exact A|]. rewrite row_mask_length.
    rewrite Forall_forall in L. apply (L _ Hc).
Qed.

Lemma NoDup_labels_filter (p : str * list cell -> bool)
    (l : list (str * list cell)) :
  NoDup (List.map fst l) -> NoDup (List.map fst (filter p l)).
Proof.
  induction l as [|c cs IH]; [constructor|]. simpl. intros N.
  inversion N as [|? ? N1 N2]; subst.
  destruct (p c); [|apply IH; assumption].
  simpl. constructor; [|apply IH; assumption].
  intros H. apply N1. apply in_map_iff in H. destruct H as [x [E H]].
  apply filter_In in H. apply in_map_iff. exists x. tauto.
Qed.

Lemma dropna_columns_wf (df : DataFrame) : wf df -> wf (dropna_columns df).
Proof.
  intros [N L]. unfold dropna_columns. split.
  - unfold columns in *. cbn [cols]. apply NoDup_labels_filter. exact N.
  - cbn [cols nrows]. rewrite Forall_forall in *. intros c Hc.
    apply filter_In in Hc. apply L. tauto.
Qed.

Lemma dropna_columns_fixed (df : DataFrame) :
  dropna_columns (dropna_columns df) = dropna_columns df.
Proof.
  unfold dropna_columns. cbn [cols nrows]. f_equal.
  apply filter_all. apply forallb_forall. intros c Hc.
  apply filter_In in Hc. tauto.
Qed.

Lemma nth_notna (i : nat) (v : list cell) :
  notna (nth i v missing) = true -> In (nth i v missing) v.
Proof.
  intros H. destruct (Nat.lt_ge_cases i (List.length v)) as [Lt|Ge].
  - apply nth_In. exact Lt.
  - rewrite nth_overflow in H by exact Ge. discriminate.
Qed.

Lemma dropna_columns_full (df : DataFrame) : full df -> full (dropna_columns df).
Proof.
  unfold full, frame_rows, dropna_columns. cbn [nrows].
  rewrite !forallb_forall. intros F r Hr.
  apply in_map_iff in Hr. destruct Hr as [i [<- Hi]].
  assert (G := F (row df i) (in_map _ _ _ Hi)).
  unfold has_value, row in *. cbn [cols].
  apply existsb_exists in G. destruct G as [x [Hx Nx]].
  apply in_map_iff in Hx. destruct Hx as [c [<- Hc]].
  apply existsb_exists. exists (nth i (snd c) missing). split; [|exact Nx].
  apply in_map_iff. exists c. split; [reflexivity|].
  apply filter_In. split; [exact Hc|].
  apply existsb_exists. exists (nth i (snd c) missing).
  split; [apply nth_notna; exact Nx | exact Nx].
Qed.

Lemma full_rows (df : DataFrame) :
  full df -> forall i, (i < nrows df)%nat -> existsb notna (row df i) = true.
Proof.
  unfold full, frame_rows. rewrite forallb_forall. intros F i Hi.
  apply (F (row df i)). apply in_map. apply in_seq. lia.
Qed.

(** X8.  On a table with distinct labels and aligned columns, step 1 of
    [normalize] leaves nothing for a second pass: applied again it returns
    the same state, with no further entry in the transformations.  When
    rows are dropped every remaining row has a value, when columns are
    dropped every remaining column has one, and dropping the empty columns
    never empties a row. *)
Theorem step_drop_empty_settles (rules : NormalizationRules) (st : state) :
  wf (st_df st) ->
  let st' := step_drop_empty rules st in
  step_drop_empty rules st' = st' /\
  wf (st_df st') /\
  (truthy (drop_empty_rows rules) = true ->
   forall i, (i < nrows (st_df st'))%nat ->
             existsb notna (row (st_df st') i) = true) /\
  (truthy (drop_empty_columns rules) = true ->
   forall c v, lookup c (cols (st_df st')) = Some v -> existsb notna v = true).
Proof.
  intros W. cbn zeta. unfold step_drop_empty.
  destruct (truthy (drop_empty_rows rules)) eqn:ER;
    destruct (truthy (drop_empty_columns rules)) eqn:EC; cbn [st_df st_warnings
      st_transformations st_format st_confidence].
  - remember (dropna_rows (st_df st)) as d1 eqn:D1.
    assert (W1 : wf d1) by (subst d1; apply dropna_rows_wf; exact W).
    assert (F1 : full d1) by (subst d1; apply dropna_rows_full; exact W).
    remember (dropna_columns d1) as d2 eqn:D2.
    assert (W2 : wf d2) by (subst d2; apply dropna_columns_wf; exact W1).
    assert (F2 : full d2) by (subst d2; apply dropna_columns_full; exact F1).
    assert (E2 : dropna_columns d2 = d2)
      by (subst d2; apply dropna_columns_fixed).
    rewrite (dropna_rows_fixed d2 W2 F2), E2, !Z.sub_diag.
    cbn [Z.ltb Z.compare].
    split; [reflexivity|]. split; [exact W2|]. split.
    + intros _. apply full_rows. exact F2.
    + intros _ c v Hl. apply lookup_In in Hl. subst d2.
      unfold dropna_columns in Hl.
      cbn [cols] in Hl. apply filter_In in Hl. tauto.
  - remember (dropna_rows (st_df st)) as d1 eqn:D1.
    assert (W1 : wf d1) by (subst d1; apply dropna_rows_wf; exact W).
    assert (F1 : full d1) by (subst d1; apply dropna_rows_full; exact W).
    rewrite (dropna_rows_fixed d1 W1 F1), !Z.sub_diag.
    cbn [Z.ltb Z.compare].
    split; [reflexivity|]. split; [exact W1|]. split.
    + intros _. apply full_rows. exact F1.
    + discriminate.
  - remember (dropna_columns (st_df st)) as d2 eqn:D2.
    assert (E2 : dropna_columns d2 = d2)
      by (subst d2; apply dropna_columns_fixed).
    rewrite E2, !Z.sub_diag.
    cbn [Z.ltb Z.compare].
    split; [reflexivity|].
    split; [subst d2; apply dropna_columns_wf; exact W|]. split.
    + discriminate.
    + intros _ c v Hl. apply lookup_In in Hl. subst d2.
      unfold dropna_columns in Hl.
      cbn [cols] in Hl. apply filter_In in Hl. tauto.
  - split; [reflexivity|]. split; [exact W|]. split; discriminate.
Qed.

Lemma step_drop_empty_settles_witness :
  let st' := step_drop_empty default_rules
               (mkState sparse [] [] unknown (lit 0.0)) in
  step_drop_empty default_rules st' = st' /\
  wf (st_df st') /\
  (truthy (drop_empty_rows default_rules) = true ->
   forall i, (i < nrows (st_df st'))%nat ->
             existsb notna (row (st_df st') i) = true) /\
  (truthy (drop_empty_columns default_rules) = true ->
   forall c v, lookup c (cols (st_df st')) = Some v -> existsb notna v = true).
Proof.
  apply (step_drop_empty_settles default_rules
           (mkState sparse [] [] unknown (lit 0.0))).
  split; [|repeat constructor].
  vm_compute. repeat constructor; simpl; intuition discriminate.
Defined.

(** ** Renaming *)

Lemma find_dict_set (c k v : str) (d : list (str * str)) :
  option_map snd (find (fun kv => str_eqb (fst kv) c) (dict_set k v d)) =
  if str_eqb k c then Some v
  else option_map snd (find (fun kv => str_eqb (fst kv) c) d).
Proof.
  induction d as [|[k' v'] d IH]; simpl.
  - destruct (str_eqb k c); reflexivity.
  - destruct (str_eqb k k') eqn:E; simpl.
    + apply str_eqb_eq in E. subst k'. destruct (str_eqb k c); reflexivity.
    + destruct (str_eqb k' c) eqn:E'.
      * apply str_eqb_eq in E'. subst k'. rewrite E. reflexivity.
      * exact IH.
Qed.

Lemma find_rename_entry (df : DataFrame) (source : option str) (target c : str)
    (d : list (str * str)) :
  In c (columns df) ->
  option_map snd (find (fun kv => str_eqb (fst kv) c)
                       (rename_entry df source target d)) =
  if claims source c then Some target
  else option_map snd (find (fun kv => str_eqb (fst kv) c) d).
Proof.
  intros Hc. unfold rename_entry, claims. destruct source as [s|]; [|reflexivity].
  destruct (nonempty (Some s)); [|reflexivity]. cbn [andb].
  destruct (mem s (columns df)) eqn:M.
  - apply find_dict_set.
  - destruct (str_eqb s c) eqn:E; [|reflexivity].
    apply str_eqb_eq in E. subst s. apply mem_not_In in M. contradiction.
Qed.

Lemma rename_labels (df : DataFrame) (m : list (str * str)) :
  columns (rename df m) =
  List.map (fun c => match option_map snd
                             (find (fun kv => str_eqb (fst kv) c) m) with
                     | Some t => t
                     | None => c
                     end) (columns df)
  /\ List.map snd (cols (rename df m)) = List.map snd (cols df)
  /\ nrows (rename df m) = nrows df.
Proof.
  unfold rename, columns. cbn [cols nrows]. rewrite !map_map.
  split; [|split; [|reflexivity]]; apply map_ext; intros [k v]; cbn [fst snd];
    destruct (find _ m); reflexivity.
Qed.

Lemma rename_entries_target (df : DataFrame) (mapping : ColumnMapping)
    (c : str) :
  In c (columns df) ->
  match option_map snd
          (find (fun kv => str_eqb (fst kv) c)
             (rename_entry df (concept_column mapping) CONCEPTO
                (rename_entry df (category_column mapping) CATEGORIA
                   (rename_entry df (amount_column mapping) IMPORTE
                      (rename_entry df (date_column mapping) FECHA []))))) with
  | Some t => t
  | None => c
  end = renamed mapping c.
Proof.
  intros Hc. unfold renamed.
  rewrite !(find_rename_entry df _ _ c _ Hc). cbn [find option_map].
  destruct (claims (concept_column mapping) c); [reflexivity|].
  destruct (claims (category_column mapping) c); [reflexivity|].
  destruct (claims (amount_column mapping) c); [reflexivity|].
  destruct (claims (date_column mapping) c); reflexivity.
Qed.



(** X9.  Step 6 of [normalize] relabels and does nothing else: the cells
    and the number of rows are unchanged, and a column gets the standard
    name of the role of the mapping that names it, the last role set
    winning when several name the same column: concept, then category,
    then amount, then date.  A role whose column is empty text, or absent
    from the table, renames nothing. *)
Theorem step_rename_labels (mapping : ColumnMapping) (st : state) :
  let df := st_df st in
  let df' := st_df (step_rename mapping st) in
  columns df' = List.map (renamed mapping) (columns df) /\
  List.map snd (cols df') = List.map snd (cols df) /\
  nrows df' = nrows df.
Proof.
  cbn zeta. unfold step_rename.
  pose proof (rename_entries_target (st_df st) mapping) as T.
  destruct (rename_entry _ _ _ _) as [|kv rest].
  - split; [|split; reflexivity].
    rewrite <- (map_id (columns (st_df st))) at 1.
    apply map_ext_in. intros c Hc. exact (T c Hc).
  - cbn [st_df].
    destruct (rename_labels (st_df st) (kv :: rest)) as [L [C N]].
    split; [|split; assumption].
    rewrite L. apply map_ext_in. exact T.
Qed.

(** ** Sign inversion *)

Lemma fneg_involutive (f : pyfloat) : fneg (fneg f) = f.
Proof. destruct f as [s|s| |s m e]; try reflexivity; destruct s; reflexivity. Qed.

Lemma invert_cell_involutive (x : cell) :
  not_bool x = true -> invert_cell (invert_cell x) = x.
Proof.
  destruct x as [ |s|z|f|b]; simpl; intros H; try reflexivity.
  - rewrite Z.opp_involutive. reflexivity.
  - rewrite fneg_involutive. reflexivity.
  - discriminate.
Qed.

Lemma replace_column_twice (c : str) (v w : list cell)
    (l : list (str * list cell)) :
  replace_column c w (replace_column c v l) = replace_column c w l.
Proof.
  induction l as [|[k u] l IH]; [reflexivity|]. simpl.
  destruct (str_eqb c k) eqn:E; simpl; rewrite E; [reflexivity|].
  rewrite IH. reflexivity.
Qed.

Lemma replace_column_same (c : str) (v : list cell)
    (l : list (str * list cell)) :
  lookup c l = Some v -> replace_column c v l = l.
Proof.
  induction l as [|[k u] l IH]; [reflexivity|]. simpl.
  destruct (str_eqb c k) eqn:E.
  - intros H. injection H as ->. reflexivity.
  - intros H. rewrite (IH H). reflexivity.
Qed.

(** X10.  Inverting the signs twice gives the table back, provided the
    amount column holds no boolean (the negation of [True] is the integer
    [-1]); when the rule is off or the column is absent nothing changes at
    all. *)
Theorem step_invert_twice (amount_col : option str)
    (rules : NormalizationRules) (st : state) :
  (forall c v, amount_col = Some c -> lookup c (cols (st_df st)) = Some v ->
               forallb not_bool v = true) ->
  st_df (step_invert amount_col rules (step_invert amount_col rules st))
  = st_df st.
Proof.
  intros H. unfold step_invert.
  destruct (truthy (invert_negatives rules)); [|reflexivity].
  destruct amount_col as [c|]; [|reflexivity].
  destruct (lookup c (cols (st_df st))) as [v|] eqn:L.
  - cbn [st_df]. rewrite assign_lookup_same. cbn [st_df].
    assert (M : mem c (columns (st_df st)) = true).
    { apply lookup_mem. exists v. exact L. }
    unfold assign at 1. rewrite assign_columns, M.
    unfold assign. rewrite M. cbn [nrows cols].
    rewrite replace_column_twice, map_map.
    rewrite (map_ext_in _ (fun x => x)), map_id.
    + rewrite (replace_column_same _ _ _ L). destruct (st_df st); reflexivity.
    + intros x Hx. apply invert_cell_involutive.
      specialize (H c v eq_refl L). rewrite forallb_forall in H. apply H, Hx.
  - rewrite L. reflexivity.
Qed.

Lemma step_invert_twice_witness :
  st_df (step_invert (Some IMPORTE) invert_rules
           (step_invert (Some IMPORTE) invert_rules
              (mkState dated_filled [] [] unknown (lit 0.0))))
  = dated_filled.
Proof.
  apply (step_invert_twice (Some IMPORTE) invert_rules
           (mkState dated_filled [] [] unknown (lit 0.0))).
  intros c v E. injection E as <-. vm_compute. intros L. injection L as <-.
  reflexivity.
Defined.

(** ** The pipeline without unpivot *)









(** ** The returned dict *)




End StepFacts.

(* ================================================================== *)
(** * Facts about the reports and the analysis endpoints *)

Section YearColumns.
Import PyStr PyFloat Frame DataNormalizer Reports.

Lemma str_ltb_asym (a b : str) : str_ltb a b = true -> str_ltb b a = false.
Proof.
  revert b. induction a as [|x a IH]; intros [|y b]; simpl; try reflexivity;
    try discriminate.
  intros H. apply orb_true_iff in H. destruct H as [H|H].
  - apply N.ltb_lt in H.
    assert (E1 : (y <? x)%N = false) by (apply N.ltb_ge; lia).
    assert (E2 : (y =? x)%N = false) by (apply N.eqb_neq; lia).
    rewrite E1, E2. reflexivity.
  - apply andb_prop in H. destruct H as [E H]. apply N.eqb_eq in E. subst y.
    rewrite N.ltb_irrefl, N.eqb_refl. simpl. apply IH. exact H.
Qed.

Lemma insort_perm (x : str) (l : list str) : Permutation (insort x l) (x :: l).
Proof.
  induction l as [|y l IH]; simpl; [reflexivity|].
  destruct (str_ltb x y); [reflexivity|].
  rewrite IH. apply perm_swap.
Qed.

Lemma sorted_perm (l : list str) : Permutation (sorted l) l.
Proof.
  induction l as [|x l IH]; simpl; [constructor|].
  rewrite insort_perm, IH. reflexivity.
Qed.

Lemma insort_sorted (x : str) (l : list str) :
  Sorted str_le l -> Sorted str_le (insort x l).
Proof.
  induction l as [|y l IH]; simpl; intros S.
  - repeat constructor.
  - destruct (str_ltb x y) eqn:E.
    + constructor; [exact S|]. constructor. apply str_ltb_asym. exact E.
    + inversion S as [|? ? S' H]; subst. constructor; [apply IH; exact S'|].
      destruct l as [|z l]; simpl.
      * constructor. exact E.
      * destruct (str_ltb x z); constructor; [exact E|].
        inversion H; subst. assumption.
Qed.

Lemma sorted_sorted (l : list str) : Sorted str_le (sorted l).
Proof.
  induction l as [|x l IH]; simpl; [constructor|].
  apply insort_sorted. exact IH.
Qed.

Lemma Sorted_weaken {A : Type} (R R' : A -> A -> Prop) (l : list A) :
  (forall a b, In a l -> In b l -> R a b -> R' a b) ->
  Sorted R l -> Sorted R' l.
Proof.
  induction l as [|x l IH]; intros H S; [constructor|].
  inversion S as [|? ? S' Hd]; subst. constructor.
  - apply IH; [|exact S']. intros a b Ha Hb. apply H; right; assumption.
  - destruct l as [|y l]; constructor. inversion Hd; subst.
    apply H; [left; reflexivity | right; left; reflexivity | assumption].
Qed.

Lemma ascii_digit_range (c : char) (d : Z) :
  ascii_digit c = Some d -> d = Z.of_N c - 48 /\ 0 <= d <= 9.
Proof.
  unfold ascii_digit. destruct ((48 <=? c) && (c <=? 57))%N eqn:E; [|discriminate].
  intros H. injection H as <-. apply andb_prop in E. destruct E as [E1 E2].
  apply N.leb_le in E1, E2. lia.
Qed.

Lemma digits_ltb (a1 a2 a3 a4 b1 b2 b3 b4 : char) (x y : Z) :
  year_number [a1; a2; a3; a4] = Some x ->
  year_number [b1; b2; b3; b4] = Some y ->
  (a1 =? 97)%N = false -> (b1 =? 97)%N = false ->
  str_ltb [b1; b2; b3; b4] [a1; a2; a3; a4] = false -> x <= y.
Proof.
  unfold year_number. intros Hx Hy Na Nb. rewrite Na in Hx. rewrite Nb in Hy.
  cbv beta iota zeta in Hx, Hy.
  destruct (ascii_digit a1) as [p1|] eqn:A1; [|discriminate].
  destruct (ascii_digit a2) as [p2|] eqn:A2; [|discriminate].
  destruct (ascii_digit a3) as [p3|] eqn:A3; [|discriminate].
  destruct (ascii_digit a4) as [p4|] eqn:A4; [|discriminate].
  destruct (ascii_digit b1) as [q1|] eqn:B1; [|discriminate].
  destruct (ascii_digit b2) as [q2|] eqn:B2; [|discriminate].
  destruct (ascii_digit b3) as [q3|] eqn:B3; [|discriminate].
  destruct (ascii_digit b4) as [q4|] eqn:B4; [|discriminate].
  assert (Ex : x = 1000 * p1 + 100 * p2 + 10 * p3 + p4) by congruence.
  assert (Ey : y = 1000 * q1 + 100 * q2 + 10 * q3 + q4) by congruence.
  clear Hx Hy.
  apply ascii_digit_range in A1, A2, A3, A4, B1, B2, B3, B4.
  cbn [str_ltb]. intros L.
  apply orb_false_iff in L. destruct L as [L1 L]. apply N.ltb_ge in L1.
  apply andb_false_iff in L. destruct L as [L|L]; [apply N.eqb_neq in L; lia|].
  apply orb_false_iff in L. destruct L as [L2 L]. apply N.ltb_ge in L2.
  apply andb_false_iff in L. destruct L as [L|L]; [apply N.eqb_neq in L; lia|].
  apply orb_false_iff in L. destruct L as [L3 L]. apply N.ltb_ge in L3.
  apply andb_false_iff in L. destruct L as [L|L]; [apply N.eqb_neq in L; lia|].
  apply orb_false_iff in L. destruct L as [L4 L]. apply N.ltb_ge in L4.
  lia.
Qed.

Lemma ascii_digit_not_a (c : char) (d : Z) :
  ascii_digit c = Some d -> (c =? 97)%N = false.
Proof.
  intros H. apply ascii_digit_range in H. apply N.eqb_neq. lia.
Qed.

Lemma year_number_shape (l : str) (x : Z) :
  year_number l = Some x ->
  exists a1 a2 a3 a4,
    (l = [a1; a2; a3; a4] \/ l = [97%N; a1; a2; a3; a4]) /\
    (a1 =? 97)%N = false /\
    year_number [a1; a2; a3; a4] = Some x.
Proof.
  intros H.
  assert (P : forall a1 a2 a3 a4,
            match ascii_digit a1, ascii_digit a2, ascii_digit a3, ascii_digit a4
            with
            | Some a, Some b, Some c, Some d =>
                Some (1000 * a + 100 * b + 10 * c + d)
            | _, _, _, _ => None
            end = Some x ->
            (a1 =? 97)%N = false /\ year_number [a1; a2; a3; a4] = Some x).
  { intros a1 a2 a3 a4 E.
    assert (Na : (a1 =? 97)%N = false).
    { destruct (ascii_digit a1) eqn:A; [|discriminate].
      apply (ascii_digit_not_a _ _ A). }
    split; [exact Na|]. unfold year_number. rewrite Na. exact E. }
  unfold year_number in H.
  destruct l as [|c0 l]; [discriminate|].
  destruct (c0 =? 97)%N eqn:E0.
  - apply N.eqb_eq in E0. subst c0.
    destruct l as [|a1 [|a2 [|a3 [|a4 [|a5 l]]]]]; try discriminate.
    exists a1, a2, a3, a4. split; [right; reflexivity|]. apply P. exact H.
  - destruct l as [|a2 [|a3 [|a4 [|a5 l]]]]; try discriminate.
    exists c0, a2, a3, a4. split; [left; reflexivity|]. apply P. exact H.
Qed.

Lemma year_le_of_str_le (a b : str) :
  prefixed a = prefixed b ->
  year_number a <> None -> year_number b <> None ->
  str_le a b -> year_le a b.
Proof.
  intros P Ha Hb L. unfold year_le.
  destruct (year_number a) as [x|] eqn:Ea; [|congruence].
  destruct (year_number b) as [y|] eqn:Eb; [|congruence].
  destruct (year_number_shape a x Ea) as [a1 [a2 [a3 [a4 [Sa [Na Ya]]]]]].
  destruct (year_number_shape b y Eb) as [b1 [b2 [b3 [b4 [Sb [Nb Yb]]]]]].
  apply (digits_ltb a1 a2 a3 a4 b1 b2 b3 b4 x y Ya Yb Na Nb).
  unfold str_le in L.
  destruct Sa as [-> | ->], Sb as [-> | ->]; cbn [prefixed] in P.
  - exact L.
  - rewrite Na in P. discriminate.
  - rewrite Nb in P. discriminate.
  - cbn [str_ltb] in L. rewrite N.ltb_irrefl, N.eqb_refl in L. exact L.
Qed.

Lemma year_le_trans (a b c : str) : year_le a b -> year_le b c -> year_le a c.
Proof.
  unfold year_le. destruct (year_number a), (year_number b), (year_number c);
    try tauto. lia.
Qed.

(** X14.  [_extract_year_columns] returns the year-like labels of the
    frame, each as often as it occurs, in ascending order of their text.
    When the labels are written with ASCII digits and all of them have, or
    all of them lack, the leading [a], that is the ascending order of the
    years. *)
Theorem extract_year_columns_order (df : table) :
  let ys := _extract_year_columns df in
  Permutation ys (filter year_pattern_match (labels df)) /\
  Sorted str_le ys /\
  ((exists p, forall l, In l (labels df) -> year_pattern_match l = true ->
                        prefixed l = p /\ year_number l <> None) ->
   StronglySorted year_le ys).
Proof.
  cbn zeta. unfold _extract_year_columns.
  split; [apply sorted_perm|]. split; [apply sorted_sorted|].
  intros [p U]. apply Sorted_StronglySorted.
  - intros a b c. apply year_le_trans.
  - apply (Sorted_weaken str_le); [|apply sorted_sorted].
    assert (I : forall l, In l (sorted (filter year_pattern_match (labels df))) ->
                          prefixed l = p /\ year_number l <> None).
    { intros l H. apply (Permutation_in _ (sorted_perm _)) in H.
      apply filter_In in H. apply U; tauto. }
    intros a b Ha Hb L. destruct (I a Ha) as [Pa Ya], (I b Hb) as [Pb Yb].
    apply year_le_of_str_le; congruence.
Qed.

Lemma extract_year_columns_order_witness :
  StronglySorted year_le
    (_extract_year_columns
       (mkTable 0 [(py "a2021", []); (py "concepto", []); (py "a2019", []);
                   (py "a2020", [])])).
Proof.
  pose proof (extract_year_columns_order
           (mkTable 0 [(py "a2021", []); (py "concepto", []); (py "a2019", []);
                       (py "a2020", [])])) as T.
  cbn zeta in T. destruct T as [_ [_ T]]. apply T. clear T.
  exists true. intros l H. vm_compute in H.
  repeat (destruct H as [H|H]; [subst l; vm_compute; intros E;
    first [discriminate E | split; [reflexivity | discriminate]] |]).
  destruct H.
Defined.
End YearColumns.

Section Categories.
Import PyStr PyFloat Frame DataNormalizer Reports.

Lemma lower_char_idem (c : char) : lower_char (lower_char c) = lower_char c.
Proof.
  unfold lower_char.
  destruct ((65 <=? c) && (c <=? 90))%N eqn:A.
  - apply andb_prop in A. destruct A as [A1 A2]. apply N.leb_le in A1, A2.
    assert (E1 : ((65 <=? c + 32) && (c + 32 <=? 90))%N = false).
    { apply andb_false_iff. right. apply N.leb_gt. lia. }
    assert (E2 : ((192 <=? c + 32) && (c + 32 <=? 222)
                  && negb (c + 32 =? 215))%N = false).
    { apply andb_false_iff. left. apply andb_false_iff. left.
      apply N.leb_gt. lia. }
    rewrite E1, E2. reflexivity.
  - destruct ((192 <=? c) && (c <=? 222) && negb (c =? 215))%N eqn:B.
    + apply andb_prop in B. destruct B as [B _].
      apply andb_prop in B. destruct B as [B1 B2]. apply N.leb_le in B1, B2.
      assert (E1 : ((65 <=? c + 32) && (c + 32 <=? 90))%N = false).
      { apply andb_false_iff. right. apply N.leb_gt. lia. }
      assert (E2 : ((192 <=? c + 32) && (c + 32 <=? 222)
                    && negb (c + 32 =? 215))%N = false).
      { apply andb_false_iff. left. apply andb_false_iff. right.
        apply N.leb_gt. lia. }
      rewrite E1, E2. reflexivity.
    + rewrite A, B. reflexivity.
Qed.

Lemma lower_idem (s : str) : lower (lower s) = lower s.
Proof.
  unfold lower. rewrite map_map. apply map_ext. apply lower_char_idem.
Qed.

Lemma starts_with_app (t a b : str) :
  starts_with t a = true -> starts_with t (a ++ b) = true.
Proof.
  revert a. induction t as [|x t IH]; intros a H; [reflexivity|].
  destruct a as [|y a]; [discriminate|]. simpl in *.
  apply andb_prop in H. destruct H as [-> H]. apply IH. exact H.
Qed.

Lemma contains_app_l (t a b : str) :
  contains t a = true -> contains t (a ++ b) = true.
Proof.
  induction a as [|y a IH]; simpl; intros H.
  - rewrite orb_false_r in H. destruct t; [|discriminate].
    destruct b; reflexivity.
  - apply orb_true_iff in H. destruct H as [H|H].
    + change (starts_with t ((y :: a) ++ b) || contains t (a ++ b) = true).
      rewrite (starts_with_app _ _ _ H). reflexivity.
    + rewrite (IH H). apply orb_true_r.
Qed.

Lemma contains_app_r (t a b : str) :
  contains t b = true -> contains t (a ++ b) = true.
Proof.
  intros H. induction a as [|y a IH]; [exact H|].
  simpl. rewrite IH. apply orb_true_r.
Qed.

Lemma any_term_in_app (terms : list str) (pre a post : str) :
  any_term_in terms a = true -> any_term_in terms (pre ++ a ++ post) = true.
Proof.
  unfold any_term_in. rewrite !existsb_exists. intros [t [Ht H]].
  exists t. split; [exact Ht|]. apply contains_app_r, contains_app_l. exact H.
Qed.

Ltac label_clash H := vm_compute in H; discriminate H.

(** X15.  [_categorize_concept] does not depend on the case of the
    concept; the answer is [Ingresos] exactly when an income term occurs in
    the lowered text, whatever other terms occur with it, so that a text
    around an income concept is an income concept; and the answer is
    [Otros] exactly when no term of any category occurs. *)
Theorem categorize_concept_income (concepto : str) :
  _categorize_concept (lower concepto) = _categorize_concept concepto /\
  (_categorize_concept concepto = INGRESOS <->
   any_term_in INGRESOS_TERMS (lower concepto) = true) /\
  (_categorize_concept concepto = INGRESOS ->
   forall pre post,
     _categorize_concept (pre ++ concepto ++ post) = INGRESOS) /\
  (_categorize_concept concepto = OTROS <->
   any_term_in (INGRESOS_TERMS ++ GASTOS_TERMS ++ ACTIVOS_TERMS
                ++ PASIVOS_TERMS ++ PATRIMONIO_TERMS) (lower concepto) = false).
Proof.
  assert (I : _categorize_concept concepto = INGRESOS <->
              any_term_in INGRESOS_TERMS (lower concepto) = true).
  { unfold _categorize_concept.
    destruct (any_term_in INGRESOS_TERMS (lower concepto)); [tauto|].
    split; [|discriminate]. intros H.
    destruct (any_term_in GASTOS_TERMS _); [label_clash H|].
    destruct (any_term_in ACTIVOS_TERMS _); [label_clash H|].
    destruct (any_term_in PASIVOS_TERMS _); [label_clash H|].
    destruct (any_term_in PATRIMONIO_TERMS _); label_clash H. }
  split; [|split; [exact I|split]].
  - unfold _categorize_concept. rewrite lower_idem. reflexivity.
  - intros H pre post. apply I in H.
    unfold _categorize_concept, lower. rewrite !map_app.
    fold (lower pre) (lower concepto) (lower post).
    rewrite (any_term_in_app _ _ _ _ H). reflexivity.
  - unfold _categorize_concept, any_term_in. rewrite !existsb_app.
    fold (any_term_in INGRESOS_TERMS (lower concepto))
         (any_term_in GASTOS_TERMS (lower concepto))
         (any_term_in ACTIVOS_TERMS (lower concepto))
         (any_term_in PASIVOS_TERMS (lower concepto))
         (any_term_in PATRIMONIO_TERMS (lower concepto)).
    destruct (any_term_in INGRESOS_TERMS _);
      [split; intros H; [label_clash H | discriminate]|].
    destruct (any_term_in GASTOS_TERMS _);
      [split; intros H; [label_clash H | discriminate]|].
    destruct (any_term_in ACTIVOS_TERMS _);
      [split; intros H; [label_clash H | discriminate]|].
    destruct (any_term_in PASIVOS_TERMS _);
      [split; intros H; [label_clash H | discriminate]|].
    destruct (any_term_in PATRIMONIO_TERMS _);
      [split; intros H; [label_clash H | discriminate]|].
    split; reflexivity.
Qed.

Lemma categorize_concept_income_witness :
  _categorize_concept (py "Costo de ventas") = INGRESOS /\
  forall pre post,
    _categorize_concept (pre ++ py "venta" ++ post) = INGRESOS.
Proof.
  split; [vm_compute; reflexivity|].
  apply (categorize_concept_income (py "venta")). vm_compute. reflexivity.
Defined.
End Categories.

Section ReportFacts.
Import PyStr PyFloat Frame Json PyDict DataNormalizer Reports.

Variable Raw : Type.
Variable yearly : table -> str -> list str -> result Raw.
Variable monthly : table -> str -> str -> result Raw.
Variable variance : table -> str -> str -> str -> result Raw.
Variable cash_flow : table -> str -> str -> pyobj -> result Raw.
Variable message : exn -> str.
Variable loads_dumps : Raw -> result (dict pyobj).

Lemma sorted_length (l : list str) : List.length (sorted l) = List.length l.
Proof. apply Permutation_length, sorted_perm. Qed.

Lemma detect_statement_years (df : table) :
  _detect_format df = financial_statement ->
  (2 <= List.length (_extract_year_columns df))%nat.
Proof.
  unfold _detect_format, _extract_year_columns. rewrite sorted_length.
  destruct (2 <=? List.length (filter year_pattern_match (labels df)))%nat eqn:E.
  - intros _. apply Nat.leb_le. exact E.
  - cbn [andb].
    destruct (any_term_in FECHA_TERMS _ && any_term_in IMPORTE_TERMS _);
      discriminate.
Qed.

(** X13.  [get_yearly_summary] never answers "Se necesitan al menos 2
    años de datos": a frame that [_detect_format] classifies as a financial
    statement has at least two columns in [_extract_year_columns], so the
    check behind that answer cannot fail. *)
Theorem get_yearly_summary_two_years (csv : csv_data) :
  get_yearly_summary Raw yearly message csv <> Failure E_TWO_YEARS /\
  forall df, _detect_format df = financial_statement ->
             (2 <= List.length (_extract_year_columns df))%nat.
Proof.
  split; [|exact detect_statement_years].
  unfold get_yearly_summary, guarded.
  destruct (_parse_csv_data csv) as [p|e]; cbn [bind];
    [|intros H; injection H as H; vm_compute in H; discriminate H].
  destruct (_normalize_column_names p) as [df|e]; cbn [bind];
    [|intros H; injection H as H; vm_compute in H; discriminate H].
  destruct (_detect_format df) eqn:F;
    try (intros H; injection H as H; vm_compute in H; discriminate H).
  destruct (find _ _) as [concept_col|];
    [|intros H; injection H as H; vm_compute in H; discriminate H].
  apply detect_statement_years in F. apply Nat.ltb_ge in F. rewrite F.
  destruct (yearly df concept_col (_extract_year_columns df)); cbn [bind];
    [discriminate|].
  intros H; injection H as H; vm_compute in H; discriminate H.
Qed.

(** ** The frame of [{'data': records}] *)

Lemma data_yearly (data : list record) :
  get_yearly_summary Raw yearly message (CsvData data)
  = Failure (E_NOT_STATEMENT unknown).
Proof. vm_compute. reflexivity. Qed.

Lemma data_monthly (data : list record) :
  exists d, get_monthly_summary Raw monthly message (CsvData data) = Failure d
            /\ has_key ERROR d = true.
Proof. eexists. split; [vm_compute; reflexivity | reflexivity]. Qed.

Lemma data_budget (data : list record) :
  exists d, get_budget_variance Raw variance message (CsvData data) = Failure d
            /\ has_key ERROR d = true.
Proof. eexists. split; [vm_compute; reflexivity | reflexivity]. Qed.

Lemma data_cash (data : list record) (saldo_inicial : pyobj) :
  exists d, get_cash_flow Raw cash_flow message (CsvData data) saldo_inicial
            = Failure d
            /\ has_key ERROR d = true.
Proof. eexists. split; [vm_compute; reflexivity | reflexivity]. Qed.

Lemma attempt_failure (analysis_type name : str) (d : dict pyobj)
    (results : dict (dict pyobj)) :
  has_key ERROR d = true ->
  attempt Raw loads_dumps analysis_type name (Failure d) results = results.
Proof.
  intros H. unfold attempt. destruct (mem analysis_type [name; ALL]);
    [|reflexivity].
  cbn [loaded]. rewrite H. reflexivity.
Qed.

Lemma analyze_data (data : list record) (analysis_type : str)
    (params : dict pyobj) :
  analyze_financial_data Raw yearly monthly variance cash_flow message
    loads_dumps (CsvData data) analysis_type params = Raise ValueError.
Proof.
  unfold analyze_financial_data.
  destruct (data_monthly data) as [dm [-> Hm]].
  destruct (data_budget data) as [db [-> Hb]].
  destruct (data_cash data
              match get (py "saldo_inicial") params with
              | Some v => v
              | None => OFloat (lit 0.0)
              end) as [dc [-> Hc]].
  rewrite data_yearly.
  rewrite !attempt_failure by (assumption || reflexivity).
  reflexivity.
Qed.

(** X17.  On the dict [{'data': records}], which is what [create_analysis]
    passes, every report answers with an error dict, whatever the records
    are: the frame built from it has the single column [data].  So
    [analyze_financial_data] raises [ValueError] for every analysis type
    and every parameter. *)
Theorem analyze_financial_data_wrapped (data : list record)
    (analysis_type : str) (params : dict pyobj) :
  analyze_financial_data Raw yearly monthly variance cash_flow message
    loads_dumps (CsvData data) analysis_type params = Raise ValueError /\
  (exists d, get_yearly_summary Raw yearly message (CsvData data) = Failure d
             /\ has_key ERROR d = true) /\
  (exists d, get_monthly_summary Raw monthly message (CsvData data) = Failure d
             /\ has_key ERROR d = true) /\
  (exists d, get_budget_variance Raw variance message (CsvData data) = Failure d
             /\ has_key ERROR d = true) /\
  (forall saldo_inicial,
   exists d, get_cash_flow Raw cash_flow message (CsvData data) saldo_inicial
             = Failure d
             /\ has_key ERROR d = true).
Proof.
  split; [apply analyze_data|].
  split; [eexists; split; [apply data_yearly | reflexivity]|].
  split; [apply data_monthly|]. split; [apply data_budget|].
  apply data_cash.
Qed.

Lemma call_analyze_data (data : list record) (analysis_type : str)
    (params : option (dict pyobj)) :
  exists e,
    call_analyze Raw yearly monthly variance cash_flow message loads_dumps
      (CsvData data) analysis_type params = Raise e.
Proof.
  destruct params as [p|]; [|exists TypeError; reflexivity].
  unfold call_analyze.
  destruct (has_key (py "csv_data") p || has_key (py "analysis_type") p);
    [exists TypeError; reflexivity | exists ValueError; apply analyze_data].
Qed.

Lemma create_analysis_store (M : Type)
    (self : DataStore.store (list record) M pyobj) (session_id : str)
    (request : option AnalysisRequest) (clock : nat -> str) :
  snd (create_analysis Raw yearly monthly variance cash_flow message
         loads_dumps M self session_id request clock) = self.
Proof.
  unfold create_analysis.
  destruct (DataStore.get_csv self session_id) as [csv_data|]; [|reflexivity].
  destruct (str_eqb _ ALL);
    match goal with
    | |- context [call_analyze _ _ _ _ _ _ _ (CsvData ?d) ?t ?p] =>
        destruct (call_analyze_data d t p) as [e ->]; reflexivity
    end.
Qed.

(** ** The dict of results *)


Lemma mem_requested (analysis_type name : str) :
  mem analysis_type [name; ALL] = true -> requested analysis_type name.
Proof.
  unfold mem. cbn [existsb]. rewrite orb_false_r. intros H.
  apply orb_true_iff in H. destruct H as [H|H]; apply str_eqb_eq in H;
    [right | left]; exact H.
Qed.


Lemma attempt_sound (analysis_type name : str) (names : list str)
    (r : report Raw) (results : dict (dict pyobj)) :
  In name names ->
  sound analysis_type names results ->
  sound analysis_type names
        (attempt Raw loads_dumps analysis_type name r results).
Proof.
  intros Hn [N S]. unfold attempt.
  destruct (mem analysis_type [name; ALL]) eqn:M; [|split; assumption].
  destruct (loaded Raw loads_dumps r) as [result|]; [|split; assumption].
  destruct (has_key ERROR result) eqn:E; cbn [negb]; [split; assumption|].
  split; [apply NoDup_keys_set; exact N|].
  intros k d H. apply In_set in H.
  assert (New : In name names /\ requested analysis_type name /\
                has_key ERROR result = false).
  { split; [exact Hn|]. split; [apply mem_requested; exact M | exact E]. }
  destruct H as [H|[H|[H1 H2]]].
  - apply (S k d H).
  - injection H as -> ->. exact New.
  - cbn [fst snd] in H1, H2. subst k d. exact New.
Qed.

(** X16.  The dict that [analyze_financial_data] returns is never empty,
    its keys are distinct names among the four reports, each one asked for
    by the analysis type (itself, or through ["all"]), and no report in it
    holds an error.  An analysis type that is neither a report nor
    ["all"] raises [ValueError], the only exception the function raises. *)
Theorem analyze_financial_data_results (csv : csv_data) (analysis_type : str)
    (params : dict pyobj) :
  (forall results,
     analyze_financial_data Raw yearly monthly variance cash_flow message
       loads_dumps csv analysis_type params = Ok results ->
     results <> [] /\ NoDup (keys results) /\
     forall k d, In (k, d) results ->
       In k [YEARLY; MONTHLY; BUDGET; CASH] /\
       (analysis_type = ALL \/ analysis_type = k) /\
       has_key ERROR d = false) /\
  (mem analysis_type [YEARLY; MONTHLY; BUDGET; CASH; ALL] = false ->
   analyze_financial_data Raw yearly monthly variance cash_flow message
     loads_dumps csv analysis_type params = Raise ValueError) /\
  (forall e,
     analyze_financial_data Raw yearly monthly variance cash_flow message
       loads_dumps csv analysis_type params = Raise e -> e = ValueError).
Proof.
  unfold analyze_financial_data.
  set (names := [YEARLY; MONTHLY; BUDGET; CASH]).
  match goal with
  | |- context [match ?r with [] => _ | _ :: _ => _ end] => set (results := r)
  end.
  assert (S : sound analysis_type names results).
  { unfold results. repeat apply attempt_sound; try (simpl; tauto).
    split; [constructor | intros k d []]. }
  split; [|split].
  - intros res H. destruct results as [|kv rest] eqn:E; [discriminate|].
    injection H as <-. split; [discriminate|]. exact S.
  - intros U. unfold results, attempt.
    unfold mem in *. cbn [existsb] in *.
    repeat match type of U with
           | (_ || _) = false => apply orb_false_iff in U; destruct U as [? U]
           end.
    repeat match goal with
           | H : str_eqb analysis_type _ = false |- _ => rewrite H; clear H
           end.
    reflexivity.
  - intros e H. destruct results; [|discriminate]. congruence.
Qed.

(** X18.  [create_analysis] never returns a body: it answers 404 when the
    session has no CSV and 500 otherwise, for every request and whatever
    the pandas computations of the reports would return, and it leaves
    the store as it was. *)
Theorem create_analysis_never_succeeds (M : Type)
    (self : DataStore.store (list record) M pyobj) (session_id : str)
    (request : option AnalysisRequest) (clock : nat -> str) :
  create_analysis Raw yearly monthly variance cash_flow message loads_dumps M
    self session_id request clock
  = (match DataStore.get_csv self session_id with
     | None => Http404
     | Some _ => Http500
     end, self).
Proof.
  unfold create_analysis.
  destruct (DataStore.get_csv self session_id) as [csv_data|]; [|reflexivity].
  destruct (str_eqb _ ALL).
  - match goal with
    | |- context [call_analyze _ _ _ _ _ _ _ (CsvData ?d) ?t ?p] =>
        destruct (call_analyze_data d t p) as [e ->]
    end.
    reflexivity.
  - match goal with
    | |- context [call_analyze _ _ _ _ _ _ _ (CsvData ?d) ?t ?p] =>
        destruct (call_analyze_data d t p) as [e ->]
    end.
    reflexivity.
Qed.

(** ** The store of the server *)

Lemma handle_analyses (M : Type)
    (self : DataStore.store (list record) M pyobj) (c : call M) :
  DataStore.analyses self = [] ->
  DataStore.analyses
    (handle Raw yearly monthly variance cash_flow message loads_dumps M self c)
  = [].
Proof.
  intros E. destruct c as [sid f [[data md]|] now | sid | sid req clock];
    cbn [handle].
  - exact E.
  - exact E.
  - destruct (DataStore.get_csv self sid) eqn:G; [|exact E].
    unfold DataStore.delete_csv.
    unfold DataStore.get_csv in G. unfold has_key. rewrite G, E. reflexivity.
  - rewrite create_analysis_store. exact E.
Qed.

Lemma serve_analyses (M : Type) (calls : list (call M)) :
  DataStore.analyses
    (serve Raw yearly monthly variance cash_flow message loads_dumps M calls)
  = [].
Proof.
  unfold serve.
  assert (G : forall (self : DataStore.store (list record) M pyobj),
            DataStore.analyses self = [] ->
            DataStore.analyses
              (fold_left (handle Raw yearly monthly variance cash_flow message
                            loads_dumps M) calls self) = []).
  { induction calls as [|c calls IH]; intros self E; [exact E|].
    cbn [fold_left]. apply IH, handle_analyses, E. }
  apply G. reflexivity.
Qed.

(** X19.  After any sequence of uploads, deletions and analysis requests
    on a fresh server the store holds no analysis, and the endpoint
    [get_analysis] answers 404 for every session and analysis type. *)
Theorem no_analysis_is_ever_stored (M : Type) (calls : list (call M))
    (session_id analysis_type : str) :
  let self := serve Raw yearly monthly variance cash_flow message loads_dumps
                    M calls in
  DataStore.analyses self = [] /\
  DataStore.get_analysis self session_id analysis_type = None /\
  get_analysis M self session_id analysis_type = Http404.
Proof.
  cbn zeta. pose proof (serve_analyses M calls) as E.
  split; [exact E|].
  assert (G : DataStore.get_analysis
                (serve Raw yearly monthly variance cash_flow message
                       loads_dumps M calls) session_id analysis_type = None).
  { unfold DataStore.get_analysis. rewrite E. reflexivity. }
  split; [exact G|].
  unfold get_analysis. rewrite G, E.
  destruct (DataStore.get_csv _ session_id); [|reflexivity].
  destruct (str_eqb analysis_type ALL); reflexivity.
Qed.
End ReportFacts.

Section ReportWitnesses.
Import PyStr PyFloat Frame Json PyDict DataNormalizer Reports Examples.

Lemma get_yearly_summary_two_years_witness :
  (2 <= List.length
          (_extract_year_columns
             (mkTable 1 [(py "concepto", [Scalar (CStr (py "Ventas"))]);
                         (py "a2021", [Scalar (CInt 3)]);
                         (py "a2020", [Scalar (CInt 2)])])))%nat.
Proof.
  apply (proj2 (get_yearly_summary_two_years unit (fun _ _ _ => Ok tt)
                  (fun _ => []) CsvOther)).
  vm_compute. reflexivity.
Defined.

Lemma analyze_financial_data_results_witness :
  let results := [(YEARLY, [(py "resumen_anual", OList [])])] in
  (results <> [] /\ NoDup (keys results) /\
   forall k d, In (k, d) results ->
     In k [YEARLY; MONTHLY; BUDGET; CASH] /\
     (YEARLY = ALL \/ YEARLY = k) /\
     has_key ERROR d = false) /\
  analyze_financial_data unit (fun _ _ _ => Ok tt) (fun _ _ _ => Ok tt)
    (fun _ _ _ _ => Ok tt) (fun _ _ _ _ => Ok tt) (fun _ => [])
    (fun _ => Ok [(py "resumen_anual", OList [])])
    (CsvList sales_data) (py "trend") [] = Raise ValueError.
Proof.
  cbn zeta. split.
  - apply (proj1 (analyze_financial_data_results unit
             (fun _ _ _ => Ok tt) (fun _ _ _ => Ok tt)
             (fun _ _ _ _ => Ok tt) (fun _ _ _ _ => Ok tt) (fun _ => [])
             (fun _ => Ok [(py "resumen_anual", OList [])])
             (CsvList sales_data) YEARLY [])).
    vm_compute. reflexivity.
  - apply (proj1 (proj2 (analyze_financial_data_results unit
             (fun _ _ _ => Ok tt) (fun _ _ _ => Ok tt)
             (fun _ _ _ _ => Ok tt) (fun _ _ _ _ => Ok tt) (fun _ => [])
             (fun _ => Ok [(py "resumen_anual", OList [])])
             (CsvList sales_data) (py "trend") []))).
    vm_compute. reflexivity.
Defined.
End ReportWitnesses.

(* ================================================================== *)
(** * Facts about the order of the columns *)

Section ColumnOrder.
Import PyStr PyFloat Frame DataNormalizer Steps.

Lemma starts_with_sep (c : char) (t a b : str) :
  has c t = false -> starts_with t (a ++ c :: b) = starts_with t a.
Proof.
  revert a. induction t as [|x t IH]; intros a H; [destruct a; reflexivity|].
  cbn [has existsb] in H. apply orb_false_iff in H. destruct H as [Hx Ht].
  destruct a as [|y a]; cbn [app starts_with].
  - rewrite PeanoNat.Nat.eqb_refl || idtac.
    assert (E : char_eqb x c = false).
    { unfold char_eqb in *. rewrite N.eqb_sym. exact Hx. }
    rewrite E. reflexivity.
  - rewrite (IH a Ht). reflexivity.
Qed.

Lemma contains_sep (c : char) (t a b : str) :
  t <> [] -> has c t = false ->
  contains t (a ++ c :: b) = contains t a || contains t b.
Proof.
  intros NE H. induction a as [|y a IH].
  - destruct t as [|x t]; [congruence|].
    cbn [app]. cbn [contains]. cbn [starts_with orb].
    cbn [has existsb] in H. apply orb_false_iff in H. destruct H as [Hx _].
    assert (E : char_eqb x c = false).
    { unfold char_eqb in *. rewrite N.eqb_sym. exact Hx. }
    rewrite E. reflexivity.
  - change ((y :: a) ++ c :: b) with (y :: (a ++ c :: b)).
    cbn [contains]. rewrite IH.
    change (y :: (a ++ c :: b)) with ((y :: a) ++ c :: b).
    rewrite (starts_with_sep c t (y :: a) b H).
    rewrite !orb_assoc. reflexivity.
Qed.

Lemma contains_join (t : str) (l : list str) :
  t <> [] -> has (chr " ") t = false ->
  contains t (join (py " ") l) = existsb (contains t) l.
Proof.
  intros NE H. induction l as [|p l IH].
  - destruct t; [congruence | reflexivity].
  - destruct l as [|q l].
    + cbn [join existsb]. rewrite orb_false_r. reflexivity.
    + change (join (py " ") (p :: q :: l))
        with (p ++ chr " " :: join (py " ") (q :: l)).
      rewrite (contains_sep _ _ _ _ NE H), IH. reflexivity.
Qed.


Lemma has_terms_columns (terms : list str) (df : DataFrame) :
  words terms ->
  has_terms terms df = existsb (any_term_in terms) (cols_lower df).
Proof.
  intros W. unfold has_terms, any_term_in. unfold words in W.
  rewrite Forall_forall in W. apply eq_true_iff_eq.
  rewrite !existsb_exists. split.
  - intros [t [Ht H]]. destruct (W t Ht) as [NE Hs].
    rewrite (contains_join t _ NE Hs) in H. apply existsb_exists in H.
    destruct H as [c [Hc H]]. exists c. split; [exact Hc|].
    apply existsb_exists. exists t. tauto.
  - intros [c [Hc H]]. apply existsb_exists in H. destruct H as [t [Ht H]].
    exists t. split; [exact Ht|]. destruct (W t Ht) as [NE Hs].
    rewrite (contains_join t _ NE Hs). apply existsb_exists. exists c. tauto.
Qed.

Lemma existsb_perm {A : Type} (f : A -> bool) (l l' : list A) :
  Permutation l l' -> existsb f l = existsb f l'.
Proof.
  intros P. apply eq_true_iff_eq. rewrite !existsb_exists.
  split; intros [x [Hx H]]; exists x; split; try exact H.
  - apply (Permutation_in _ P Hx).
  - apply (Permutation_in _ (Permutation_sym P) Hx).
Qed.

Lemma filter_perm {A : Type} (f : A -> bool) (l l' : list A) :
  Permutation l l' -> Permutation (filter f l) (filter f l').
Proof.
  induction 1 as [|x l l' P IH|x y l|l l' l'' P1 IH1 P2 IH2]; simpl.
  - constructor.
  - destruct (f x); [constructor|]; exact IH.
  - destruct (f x), (f y); try reflexivity. apply perm_swap.
  - etransitivity; eassumption.
Qed.

Lemma words_terms :
  words CONCEPT_TERMS /\ words DATE_TERMS /\ words AMOUNT_TERMS /\
  words CATEGORY_TERMS /\ words BUDGET_TERMS /\ words ACTUAL_TERMS /\
  words DEBIT_TERMS /\ words CREDIT_TERMS.
Proof.
  unfold words. repeat split;
    repeat (constructor; [split; [discriminate | vm_compute; reflexivity]|]);
    constructor.
Qed.

Lemma has_terms_perm (terms : list str) (df1 df2 : DataFrame) :
  words terms -> Permutation (columns df1) (columns df2) ->
  has_terms terms df1 = has_terms terms df2.
Proof.
  intros W P. rewrite !has_terms_columns by exact W.
  apply existsb_perm. unfold cols_lower. apply Permutation_map. exact P.
Qed.

(** X20.  [detect_format] does not depend on the order of the columns:
    two tables with the same labels, each as often, get the same format,
    confidence and warnings.  A detector reads the labels joined by
    spaces, and since no term has a space it fires exactly when one label
    by itself contains one of its terms. *)
Theorem detect_format_column_order (df1 df2 : DataFrame) :
  Permutation (columns df1) (columns df2) ->
  detect_format df1 = detect_format df2 /\
  has_concept df1 = existsb (any_term_in CONCEPT_TERMS) (cols_lower df1).
Proof.
  intros P. destruct words_terms as [W1 [W2 [W3 [W4 [W5 [W6 [W7 W8]]]]]]].
  split; [|apply has_terms_columns; exact W1].
  unfold detect_format, has_concept, has_date, has_amount, has_category,
    has_budget, has_actual, has_debit, has_credit.
  rewrite (has_terms_perm _ _ _ W1 P), (has_terms_perm _ _ _ W2 P),
    (has_terms_perm _ _ _ W3 P), (has_terms_perm _ _ _ W4 P),
    (has_terms_perm _ _ _ W5 P), (has_terms_perm _ _ _ W6 P),
    (has_terms_perm _ _ _ W7 P), (has_terms_perm _ _ _ W8 P).
  assert (Y : List.length (year_cols df1) = List.length (year_cols df2)).
  { apply Permutation_length. unfold year_cols, cols_lower.
    apply filter_perm, Permutation_map, P. }
  rewrite Y. reflexivity.
Qed.

Lemma detect_format_column_order_witness :
  detect_format
    (mkFrame 0 [(py "a2021", []); (py "Concepto", []); (py "a2020", [])])
  = detect_format
      (mkFrame 0 [(py "Concepto", []); (py "a2020", []); (py "a2021", [])]).
Proof.
  apply (detect_format_column_order
           (mkFrame 0 [(py "a2021", []); (py "Concepto", []); (py "a2020", [])])
           (mkFrame 0 [(py "Concepto", []); (py "a2020", []); (py "a2021", [])])).
  unfold columns. cbn [cols List.map fst].
  apply Permutation_sym.
  apply (perm_trans (perm_skip _ (perm_swap _ _ _))). apply perm_swap.
Defined.
End ColumnOrder.

(* ================================================================== *)
(** * Facts about the confidence *)

Section Confidence.
Import PyStr PyFloat Frame DataNormalizer Steps Examples.

Lemma detect_format_confidence (df : DataFrame) :
  In (snd (fst (detect_format df))) DETECTED.
Proof.
  unfold detect_format, DETECTED.
  repeat match goal with
         | |- context [if ?b then _ else _] => destruct b
         end; cbn [fst snd]; simpl; tauto.
Qed.

Lemma step_detect_confidence (rules : NormalizationRules) (st : state) :
  In (st_confidence st) DETECTED ->
  In (st_confidence (step_detect rules st)) DETECTED.
Proof.
  intros H. unfold step_detect.
  destruct (truthy (detect_format_rule rules)); [|exact H].
  pose proof (detect_format_confidence (st_df st)) as D.
  destruct (detect_format (st_df st)) as [[k c] w]. exact D.
Qed.

Lemma step_drop_empty_confidence (rules : NormalizationRules) (st : state) :
  st_confidence (step_drop_empty rules st) = st_confidence st.
Proof.
  unfold step_drop_empty.
  destruct (truthy (drop_empty_rows rules));
    destruct (truthy (drop_empty_columns rules)); reflexivity.
Qed.

Lemma step_debe_haber_confidence (mapping : ColumnMapping)
    (rules : NormalizationRules) (st st' : state) :
  step_debe_haber mapping rules st = Ok st' ->
  st_confidence st' = st_confidence st.
Proof.
  unfold step_debe_haber.
  destruct (truthy (debe_haber rules)); [|intros H; injection H as <-; reflexivity].
  destruct (debit_column mapping) as [d|];
    [|intros H; injection H as <-; reflexivity].
  destruct (credit_column mapping) as [c|];
    [|intros H; injection H as <-; reflexivity].
  destruct (_ && _); [|intros H; injection H as <-; reflexivity].
  destruct (apply_debe_haber (st_df st) d c); cbn [bind]; [|discriminate].
  intros H; injection H as <-; reflexivity.
Qed.

Lemma step_unpivot_confidence (mapping : ColumnMapping)
    (rules : NormalizationRules) (st st' : state) :
  step_unpivot mapping rules st = Ok st' ->
  st_confidence st' = st_confidence st.
Proof.
  unfold step_unpivot.
  destruct (truthy (unpivot rules)); [|intros H; injection H as <-; reflexivity].
  cbv zeta.
  destruct (_ && _ && _).
  - destruct (concept_column mapping) as [c|];
      [|intros H; injection H as <-; reflexivity].
    destruct (unpivot_years _ _ _); cbn [bind]; [|discriminate].
    intros H; injection H as <-; reflexivity.
  - destruct (_ && _); [|intros H; injection H as <-; reflexivity].
    destruct (find _ _).
    + destruct (unpivot_years _ _ _); cbn [bind]; [|discriminate].
      intros H; injection H as <-; reflexivity.
    + intros H; injection H as <-; reflexivity.
Qed.

Lemma step_invert_confidence (a : option str) (rules : NormalizationRules)
    (st : state) :
  st_confidence (step_invert a rules st) = st_confidence st.
Proof.
  unfold step_invert. destruct (truthy (invert_negatives rules)); [|reflexivity].
  destruct a as [c|]; [|reflexivity].
  destruct (lookup c (cols (st_df st))); reflexivity.
Qed.

Lemma step_rename_confidence (mapping : ColumnMapping) (st : state) :
  st_confidence (step_rename mapping st) = st_confidence st.
Proof.
  unfold step_rename. destruct (rename_entry _ _ _ _); reflexivity.
Qed.

Lemma step_validate_confidence (st : state) :
  In (st_confidence (step_validate st)) (scalings (st_confidence st)).
Proof.
  unfold step_validate, require_column, scalings.
  destruct (st_format st) eqn:F; cbn [st_df st_format st_confidence];
    repeat match goal with
           | |- context [if ?b then _ else _] =>
               destruct b; cbn [st_df st_format st_confidence]
           end; try rewrite F; cbn [st_confidence]; simpl; tauto.
Qed.

Lemma confidences_in_range : forallb in_range CONFIDENCES = true.
Proof. vm_compute. reflexivity. Qed.

(** X21.  The confidence that [normalize] returns is one of finitely
    many values: a confidence of [detect_format], or [0.0], times at most
    two factors [0.7] or one factor [0.8], rounded to two places; all of
    them lie between [0.0] and [0.95]. *)
Theorem normalize_confidence (data : list record)
    (mapping : option ColumnMapping) (rules : option NormalizationRules)
    (res : normalized) :
  normalize data mapping rules = Ok res ->
  In (confidence res) CONFIDENCES /\ in_range (confidence res) = true.
Proof.
  intros H.
  assert (I : In (confidence res) CONFIDENCES).
  { unfold normalize in H.
    destruct (load data) as [df|]; [|discriminate]. cbn [bind] in H.
    destruct (step_debe_haber _ _ _) as [st1|] eqn:E1; [|discriminate].
    cbn [bind] in H.
    destruct (step_unpivot _ _ _) as [st2|] eqn:E2; [|discriminate].
    cbn [bind] in H. injection H as <-. unfold finish. cbn [confidence].
    unfold CONFIDENCES.
    apply (in_map (fun c => round_ndigits c 2)). apply in_flat_map.
    exists (st_confidence st2). split.
    - rewrite (step_unpivot_confidence _ _ _ _ E2),
        (step_debe_haber_confidence _ _ _ _ E1).
      apply step_detect_confidence. rewrite step_drop_empty_confidence.
      cbn [st_confidence]. left. reflexivity.
    - pose proof (step_validate_confidence
                    (step_rename
                       match mapping with
                       | Some m => m
                       | None => default_mapping
                       end
                       (step_invert
                          match mapping with
                          | Some m => amount_column m
                          | None => Some IMPORTE
                          end
                          match rules with
                          | Some r => r
                          | None => default_rules
                          end st2))) as V.
      rewrite step_rename_confidence, step_invert_confidence in V. exact V. }
  split; [exact I|].
  pose proof confidences_in_range as R. rewrite forallb_forall in R.
  apply R, I.
Qed.

Lemma normalize_confidence_witness :
  exists res,
    normalize sales_data (Some sales_mapping) (Some sales_rules) = Ok res /\
    In (confidence res) CONFIDENCES /\ in_range (confidence res) = true.
Proof.
  destruct (normalize sales_data (Some sales_mapping) (Some sales_rules))
    as [res|e] eqn:E; [|vm_compute in E; discriminate].
  exists res. split; [reflexivity|].
  apply (normalize_confidence sales_data (Some sales_mapping)
           (Some sales_rules) res E).
Defined.
End Confidence.

(* ================================================================== *)
(** * A complete table through [normalize] *)

Section RoundTrip.
Import PyStr PyFloat Frame DataNormalizer Spec Steps Examples.



















End RoundTrip.

(* ================================================================== *)
(** * Unpivot through [normalize] *)

Section UnpivotPipeline.
Import PyStr PyFloat Frame DataNormalizer Spec Steps Examples.


Lemma step_detect_transformations (rules : NormalizationRules) (st : state)
    (x : transformation) :
  In x (st_transformations st) ->
  In x (st_transformations (step_detect rules st)).
Proof.
  intros H. unfold step_detect.
  destruct (truthy (detect_format_rule rules)); [|exact H].
  destruct (detect_format (st_df st)) as [[k c] w]. cbn [st_transformations].
  apply in_or_app. left. exact H.
Qed.








End UnpivotPipeline.
